(* ===== verification/_CoqProject ===== *)
-Q . S2P
Prelude.v
PyText.v
Process.v
Supervisor.v
Retry.v
PosixPath.v
ZipFile.v
CLI.v
PyClass.v
