(* ===== verification/Prelude.v ===== *)
(** * A verification development of satyaog/bcachefs: the disk-image
      build orchestrator ([src/scripts/make_disk_image.py]) and the
      archive-like facade ([src/bcachefs/zipfile/zipfile.py])

    ** The program

    [src/scripts/make_disk_image.py] builds a bcachefs disk image by
    supervising external processes:
    - [make_disk_image] (lines 83-110) fetches the helper scripts with
      [git-annex get], then runs up to [retry] attempts, each with a fresh
      environment dictionary ([NAME], [CONTENT_SRC], [SIZE], [RM_FAILED],
      [TMP_DIR] over [os.environ]), and returns [True] at the first attempt
      that succeeds;
    - [_make_disk_image] (lines 11-80) is one attempt: it spawns the builder
      [make_disk_image.sh] with piped stderr, reads stderr lines until one
      contains [b"fuse_init: activating writeback"], then spawns the
      populator [cp.sh]; it drains the remaining stderr with a 5 minute
      per-line timeout; its [finally] block waits 5 minutes for the
      populator, kills it if still running, waits 60 s for the builder,
      kills it if still running, and runs [unmount.sh] with [FORCE=1] when a
      kill happened or an exit status is not [0]; it returns whether no
      timeout happened and both processes exited with status [0].
    - the [__main__] block (lines 113-153) parses the command line with
      [argparse] (a [name], a [content] directory checked by an [assert],
      [--size] and [--retry] read by [int], [--tmpdir] created by
      [os.makedirs]) and calls [make_disk_image] with the namespace,
      dropping its result.
    [src/bcachefs/zipfile/zipfile.py] gives an image or a cursor of the
    external reader [bcachefs.bcachefs] the interface of [zipfile.ZipFile]:
    every method delegates to the reader through [super()], and [namelist]
    lists the files of a [walk()] with [os.path.join].

    ** Files (in dependency order)
    - [Prelude.v] (this file): Python's exceptions ([exc]), the outcome of a
      computation ([result]: a value, a raised exception, or blocking
      forever), the state-and-exception monad [PyM] with its notation in
      [py_scope], [try]/[except]/[finally] and [contextlib.suppress] as
      combinators, their equations, the hint database [pyexec], the
      invariant framework [stable] with the tactic [stable_auto].
    - [PyText.v]: Python [bytes] as Rocq strings; the [in] operator on bytes
      ([bytes_contains]), [str] on integers ([py_str_int]) and [int] on a
      [str] ([py_int], CPython's [PyLong_FromString] in base 10).
    - [Process.v]: the world the orchestrator runs in: a clock, a process
      table (a stdpp [gmap] from pid to process state), the scripted
      behaviour of every process the program may spawn, and an event log.
      Its operations model the library calls the source makes:
      [asyncio.create_subprocess_exec], [StreamReader.readline] with and
      without [asyncio.wait_for], [Process.communicate] under [wait_for],
      [returncode]/[Popen.poll], [kill], [wait], [time.sleep],
      [subprocess.Popen], [subprocess.run] and [os.path.isfile].  The
      records [base_stable], [core_stable], [prims_stable] and
      [run_stable] are the interface between
      the primitives and the supervisor: the laws a relation on worlds
      must satisfy for every primitive; [evolves] (time and log only move
      forward), [persists] (the process table stays well formed),
      [no_spawn] (only [spawn_builder] starts the builder) and
      [fixed_spawns] (the other steps keep the spawn counters) discharge
      it.
    - [Supervisor.v]: [_make_disk_image] line by line: the marker scan
      [scan_for_marker], the drain loop [drain], the [finally] block
      ([stop_copier], [reap_builder], [shutdown]) and the return expression
      [attempt_result]; the Section [Stability] proves every part stable
      for any relation that satisfies the interface.  The hypotheses of
      the liveness theorems are predicates on the scripted host:
      [quiet_line] (a line the scan reads past), [steady] (a stream the
      drain reads without a timeout) and [ready_scripts] (a builder that
      becomes ready and a [cp.sh] that finishes in time).
    - [Retry.v]: [make_disk_image]: the environment of an attempt
      ([attempt_env], [build_env]), the [for _ in range(retry)] loop
      ([retry_loop], refined in the Section [RetryLoop] to the list-level
      specification [retry_spec] against any attempt), and the whole
      function; the Section [RunStable] lifts the interface to a whole
      run.
    - [PosixPath.v]: [posixpath.join] and [posixpath.dirname], which the
      facade calls, translated from CPython; [join] is associative,
      [dirname] undoes a [join] with a file name, and [join] is injective
      on directories and file names.
    - [ZipFile.v]: the facade over the type class [MixinBase] (the methods
      of the reader the mixin reaches through [super()]) and [CursorBase];
      [namelist] and the [Cursor] override [cursor_namelist] over the
      iteration order of [set(files)], taken as a Section variable with
      Python's one promise about it.
    - [CLI.v]: the [__main__] block on a [Host] (the directories
      [os.path.isdir] sees, whether [os.makedirs] may create one, and the
      [World] of the build): the validators [isdir] and [mkdir], argparse's
      conversion of each value ([get_value]), the walk over [sys.argv]
      ([consume], [parse_args]), the call of [make_disk_image]
      ([main_toks]) and the interpreter's [exit_status].
    - [PyClass.v]: the class statements of zipfile.py (lines 7, 83, 98)
      on a table of classes: the MRO by CPython's C3 linearization
      ([compute_mro], [merge]), attribute lookup along the MRO
      ([lookup_attr]) and [super()] ([super_attr]), over any table of the
      reader's classes whose MROs end with [object].  It justifies the
      [MixinBase] interface of ZipFile.v: [super()] in the mixin is the
      reader's class.

    ** The theorems
    Every theorem about the orchestrator holds on every host: any
    environment, any files, any scripted behaviour of the builder, of
    [cp.sh] and of [unmount.sh] that meets its hypotheses.
    - Unmount and success (Supervisor.v): an attempt that returns ends its
      events with exactly one [unmount.sh] when a process was killed or an
      exit status is not [0] or unknown, and runs none otherwise
      ([attempt_forced_unmount]); a [True] attempt spawned the populator,
      both processes exited with [0], nothing was killed or unmounted
      ([attempt_success_clean]); in every run, whatever its outcome, the
      populator is spawned only right after the first stderr line that
      carries the marker ([attempt_copier_after_marker]).
    - The spec's scenarios as liveness theorems (Supervisor.v): a builder
      that becomes ready, keeps its stderr within the drain timeout and
      exits with [0] in time, with a [cp.sh] that exits with [0] within
      the grace period, gives [True] ([attempt_ready_succeeds]); a builder
      that never prints the marker gives [False] without a populator and
      with [unmount.sh] last ([attempt_no_marker]).  They rest on the
      lemmas that run the scan line by line ([read_scan_quiet]), the drain
      of a [steady] stream ([drain_steady]) and the [finally] block
      ([finish_attempt_ready], [finish_attempt_unready]).
    - Behaviours the spec does not describe, on every host where they
      arise (Supervisor.v, Retry.v): a failed spawn of [cp.sh] escapes
      without unmount ([attempt_copier_spawn_fails]); a builder that
      never prints the marker and never closes its stderr blocks the
      attempt forever ([attempt_stuck_builder_hangs]); the grace sleep is
      never cut short ([stop_copier_full_grace]); an over-long stderr line
      escapes as [ValueError] ([attempt_long_line_escapes]); a failed
      spawn of the builder ends the build without retry
      ([make_disk_image_spawn_failure_not_retried]); [name=None] raises
      [TypeError] ([make_disk_image_name_none]).  That a drain timeout
      alone does not unmount follows from [attempt_forced_unmount], whose
      condition has no timeout in it.
    - Termination (Supervisor.v): the fuel given to the two loops is
      enough ([make_disk_image_fuel_enough]).
    - Retries (Retry.v): the loop refines its list specification
      ([retry_loop_refines]); a run spawns the builder at most [retry]
      times on every host ([make_disk_image_spawns_bounded]); the spec's
      tests on every host: [k] unready builders then a ready one give
      [True] after [k + 1] spawns and [k] unmounts
      ([make_disk_image_ready_after]), builders that are never ready give
      [False] after [retry] attempts and [retry] unmounts
      ([make_disk_image_never_ready]); the environment of an attempt
      ([attempt_env_spec], [attempt_spawns_with_env]).
    - Command line (CLI.v): [DISK.img DIR --size N] runs exactly
      [make_disk_image(name, content, int(N), None, 10)] and ends with
      status [0] whatever it returns ([main_runs_build]); a content that is
      not a directory, a bad [--size] and argparse's usage errors stop the
      script before any build ([main_content_not_dir], [main_bad_size],
      [main_usage_errors]); [--tmpdir] is created before the content is
      checked ([main_tmpdir_before_content]); the namespace handed to
      [make_disk_image] has a name and existing directories
      ([parse_args_namespace]), so the [TypeError] of [name=None] cannot
      come from the command line.
    - Facade (ZipFile.v): which names [namelist] lists whatever the order
      of the set, that none is listed twice, and that a cursor rebases its
      walk's names on [dirname(pwd)].
    - Classes (PyClass.v): the MROs of [ZipFile] and [Cursor]
      ([zipfile_classes_mro]); [super()] in the mixin reaches the reader's
      class ([mixin_super_reader]); where [__iter__]'s [self.namelist()],
      [close], [CursorCls] and [ZipFileLikeMixin.__init__] resolve
      ([facade_dispatch]); C3's merge never runs out of its fuel
      ([merge_fuel_irrel]).

    ** Time, fuel and bounds
    Time is a natural number of seconds.  A process script gives, relative
    to the spawn time, when each stderr line becomes readable, when stderr
    reaches end of file, when the process exits and with which status;
    [None] means "never", and a read or wait on a "never" event blocks
    forever, which the model reports as [Hang].  The two [while] loops of
    [_make_disk_image] consume one stderr line per iteration; they are
    Fixpoints on a fuel argument and [_make_disk_image] passes one more
    than the number of lines of the builder's script, which is enough
    ([make_disk_image_fuel_enough]): running out of fuel never happens,
    and a [Hang] is a real block.  [retry] is a Python [int]: [range] of a
    negative [retry] is empty, which [Z.to_nat] gives.  The stream limit of
    [asyncio] is 65536 bytes per line.  Python's [int] has no size limit
    here: the 4300-digit limit of [int] and [str] (Python 3.11 on) is not
    modelled.  Two definitions of Supervisor.v are devices of the model,
    not translations of code: [attempt_fuel], the bound of the loops, and
    [forced_unmount_due], the unmount condition of lines 67-69 read off
    the events and the final statuses so that [attempt_forced_unmount]
    can be stated on what an observer sees.

    ** What is not modelled
    Of argparse, the features outside the modelled command lines ([-h],
    abbreviated options, [--opt=value], [--], negative numbers, which
    [classify] leaves out), and the parents [os.makedirs] creates; text is
    ASCII, so [int]'s Unicode digits and spaces above [\x7f] are not read;
    asserts are on (no [python -O]); the content of the shell scripts (they are scripted
    processes here), the builder's stdout pipe (never read before
    [communicate]), a last stderr line without a newline, and the reader
    [bcachefs.bcachefs] behind the facade: it is not in the repository,
    and the facade is proved over any instance of its interface and any
    table of its classes that meets [reader_mro_ok].  Of the class
    machinery, metaclasses, [__slots__], layout conflicts and the
    descriptors behind [@property] are not modelled (an attribute is a
    name of a class's [__dict__]), nor the bodies of the two [__init__]
    methods beyond the classes they call; the imports and docstrings of
    zipfile.py carry no behaviour.  Two simplifications of the process
    calls: SIGKILL takes effect at once, so a [poll()] right after
    [kill()] reports [-9] where the real call may still report [None]
    (both make [returncode != 0] true, and the kill already forces the
    unmount); and [kill] on a process that has exited raises
    [ProcessLookupError], which the code never reaches, since it only
    kills after a [poll()] at the same instant returned [None]. *)

From stdpp Require Import base list.

Declare Scope py_scope.
Delimit Scope py_scope with py.

(** ** Python exceptions raised or caught by the program *)
Inductive exc :=
| TimeoutError          (** [asyncio.TimeoutError] from [asyncio.wait_for] *)
| ProcessLookupError    (** signalling a process that is gone *)
| OSError               (** a program that cannot be spawned *)
| ValueError            (** [StreamReader.readline] over its line limit *)
| CalledProcessError    (** [subprocess.run(..., check=True)] failing *)
| TypeError             (** [os.path.isfile(None)] *)
| AssertionError        (** a failed [assert] *)
| AttributeError        (** an attribute no class of the MRO has *)
| SystemExit (code : nat). (** [sys.exit(code)], as [argparse] errors do *)

#[export] Instance exc_eq_dec : EqDecision exc.
Proof. solve_decision. Defined.

(** The outcome of running a computation: it returns, raises, or blocks
    forever (a read or wait that no event ever completes). *)
Inductive result (A : Type) :=
| Ok (a : A)
| Exc (e : exc)
| Hang.
Arguments Ok {A} a.
Arguments Exc {A} e.
Arguments Hang {A}.

(** ** Generic helpers *)

(** [xs] without its longest prefix whose elements satisfy [f]. *)
Fixpoint drop_while {A} (f : A -> bool) (l : list A) : list A :=
  match l with
  | x :: l' => if f x then drop_while f l' else l
  | [] => []
  end.

(** ** The state and exception monad *)
Definition PyM (S A : Type) : Type := S -> S * result A.

Section Monad.
Context {S : Type}.

Definition ret {A} (a : A) : PyM S A := fun s => (s, Ok a).

Definition bind {A B} (m : PyM S A) (k : A -> PyM S B) : PyM S B :=
  fun s =>
    match m s with
    | (s', Ok a) => k a s'
    | (s', Exc e) => (s', Exc e)
    | (s', Hang) => (s', Hang)
    end.

Definition raise {A} (e : exc) : PyM S A := fun s => (s, Exc e).
Definition hang {A} : PyM S A := fun s => (s, Hang).
Definition gets {A} (f : S -> A) : PyM S A := fun s => (s, Ok (f s)).
Definition modify (f : S -> S) : PyM S unit := fun s => (f s, Ok tt).

(** [try: m except E: h] where [h e] is [Some handler] exactly for the
    exceptions the [except] clauses name. *)
Definition try_except {A} (m : PyM S A) (h : exc -> option (PyM S A))
  : PyM S A :=
  fun s =>
    match m s with
    | (s', Exc e) =>
        match h e with
        | Some k => k s'
        | None => (s', Exc e)
        end
    | r => r
    end.

(** [try: m finally: fin]: [fin] runs after [m] returns or raises (a
    computation that never finishes never reaches it); an exception of
    [fin] replaces the outcome of [m]. *)
Definition try_finally {A} (m : PyM S A) (fin : PyM S unit) : PyM S A :=
  fun s =>
    match m s with
    | (s', Hang) => (s', Hang)
    | (s', r) =>
        match fin s' with
        | (s'', Ok _) => (s'', r)
        | (s'', Exc e) => (s'', Exc e)
        | (s'', Hang) => (s'', Hang)
        end
    end.

(** The handler of an [except E:] clause naming one exception class. *)
Definition catching {A} (E : exc) (k : PyM S A) : exc -> option (PyM S A) :=
  fun e => if decide (e = E) then Some k else None.

(** [with contextlib.suppress(E): m] *)
Definition suppress (E : exc) (m : PyM S unit) : PyM S unit :=
  try_except m (catching E (ret tt)).
End Monad.

Notation "x <- m ;; k" := (bind m (fun x => k))
  (at level 100, m at next level, k at level 200, right associativity)
  : py_scope.
Notation "m ;; k" := (bind m (fun _ => k))
  (at level 100, k at level 200, right associativity) : py_scope.

Open Scope py_scope.

(** ** Invariants kept by every step
    [stable R m]: whatever [m] does, its final state is [R]-related to its
    initial one.  With [R] a preorder this is closed under the
    combinators, so an invariant proved of each primitive holds of the
    programs built from them. *)
Definition stable {S : Type} (R : S -> S -> Prop) {A} (m : PyM S A) : Prop :=
  forall s, R s (fst (m s)).

(** ** Equations of the monad *)
Section MonadLaws.
Context {S : Type}.

Lemma bind_ret_l {A B} (a : A) (k : A -> PyM S B) s :
  bind (ret a) k s = k a s.
Proof. reflexivity. Qed.

Lemma bind_ret_r {A} (m : PyM S A) s : bind m ret s = m s.
Proof. unfold bind, ret. by destruct (m s) as [? []]. Qed.

Lemma bind_assoc {A B C} (m : PyM S A) (f : A -> PyM S B)
      (g : B -> PyM S C) s :
  bind (bind m f) g s = bind m (fun a => bind (f a) g) s.
Proof. unfold bind. by destruct (m s) as [? []]. Qed.

Lemma bind_Ok {A B} (m : PyM S A) (k : A -> PyM S B) s s' a :
  m s = (s', Ok a) -> bind m k s = k a s'.
Proof. unfold bind. by intros ->. Qed.

Lemma bind_Exc {A B} (m : PyM S A) (k : A -> PyM S B) s s' e :
  m s = (s', Exc e) -> bind m k s = (s', Exc e).
Proof. unfold bind. by intros ->. Qed.

Lemma bind_Hang {A B} (m : PyM S A) (k : A -> PyM S B) s s' :
  m s = (s', Hang) -> bind m k s = (s', Hang).
Proof. unfold bind. by intros ->. Qed.

Lemma try_except_Ok {A} (m : PyM S A) h s s' a :
  m s = (s', Ok a) -> try_except m h s = (s', Ok a).
Proof. unfold try_except. by intros ->. Qed.

Lemma try_except_caught {A} (m : PyM S A) h k s s' e :
  m s = (s', Exc e) -> h e = Some k -> try_except m h s = k s'.
Proof. unfold try_except. by intros -> ->. Qed.

Lemma try_except_uncaught {A} (m : PyM S A) h s s' e :
  m s = (s', Exc e) -> h e = None -> try_except m h s = (s', Exc e).
Proof. unfold try_except. by intros -> ->. Qed.

Lemma catching_same {A} E (k : PyM S A) : catching E k E = Some k.
Proof. unfold catching. by rewrite decide_True. Qed.

Lemma catching_other {A} E e (k : PyM S A) : e <> E -> catching E k e = None.
Proof. intros. unfold catching. by rewrite decide_False. Qed.

(** Two computations that reach the same state and outcome feed the
    same continuation. *)
Lemma bind_congr_l {A B} (m1 m2 : PyM S A) (k : A -> PyM S B) s1 s2 :
  m1 s1 = m2 s2 -> bind m1 k s1 = bind m2 k s2.
Proof. unfold bind. by intros ->. Qed.

(** [finally] runs its block after a value or an exception. *)
Lemma try_finally_ran {A} (m : PyM S A) fin s s' r s'' :
  m s = (s', r) -> r <> Hang -> fin s' = (s'', Ok tt) ->
  try_finally m fin s = (s'', r).
Proof. unfold try_finally. intros -> ? ->. by destruct r. Qed.
(** Inversions: how a composite computation returned a value. *)
Lemma bind_Ok_inv {A B} (m : PyM S A) (k : A -> PyM S B) s s' b :
  bind m k s = (s', Ok b) -> exists s1 a, m s = (s1, Ok a) /\ k a s1 = (s', Ok b).
Proof.
  unfold bind. destruct (m s) as [s1 [a| |]]; [|done|done]. intros H. by exists s1, a.
Qed.

Lemma try_finally_Ok_inv {A} (m : PyM S A) fin s s' a :
  try_finally m fin s = (s', Ok a) ->
  exists s1, m s = (s1, Ok a) /\ fin s1 = (s', Ok tt).
Proof.
  unfold try_finally.
  destruct (m s) as [s1 [a'| e |]];
    [| by destruct (fin s1) as [? [| |]] | done].
  destruct (fin s1) as [s2 [[]| |]] eqn:Hf; [|done|done].
  intros [= <- <-]. by exists s1.
Qed.

Lemma try_except_Ok_inv {A} (m : PyM S A) h s s' a :
  try_except m h s = (s', Ok a) ->
  m s = (s', Ok a) \/
  exists e k s1, m s = (s1, Exc e) /\ h e = Some k /\ k s1 = (s', Ok a).
Proof.
  unfold try_except. destruct (m s) as [s1 [a'| e |]]; [by left| |done].
  destruct (h e) as [k|] eqn:He; [|done]. intros H. right. by exists e, k, s1.
Qed.
End MonadLaws.

Create HintDb pyexec discriminated.
Create Rewrite HintDb pyexec.
#[export] Hint Rewrite @bind_ret_l @bind_assoc @catching_same : pyexec.

(** [py_step] unfolds one layer of the monad where the goal or a
    hypothesis runs a computation, and splits on the outcome. *)
Ltac py_step :=
  repeat (autorewrite with pyexec in *; cbn [fst snd] in *);
  match goal with
  | |- context [ bind ?m _ ?s ] =>
      let E := fresh "E" in
      destruct (m s) as [?s [?a | ?e | ]] eqn:E;
      [ rewrite (bind_Ok _ _ _ _ _ E)
      | rewrite (bind_Exc _ _ _ _ _ E)
      | rewrite (bind_Hang _ _ _ _ E) ]
  end.

(** ** Generic facts on lists used by the log reasoning *)
Lemma prefix_app_inv {A} (l1 l2 : list A) :
  l1 `prefix_of` l2 -> exists d, l2 = l1 ++ d.
Proof. by intros [d ->]; exists d. Qed.

#[export] Hint Resolve prefix_app_r prefix_app_l : pyexec.

(** ** The closure of [stable] under the combinators *)
Section Stable.
Context {S : Type} (R : S -> S -> Prop) `{!PreOrder R}.

Lemma stable_ret {A} (a : A) : stable R (ret a).
Proof. intros s. simpl. reflexivity. Qed.

Lemma stable_raise {A} e : stable R (A := A) (raise e).
Proof. intros s. simpl. reflexivity. Qed.

Lemma stable_hang {A} : stable R (A := A) hang.
Proof. intros s. simpl. reflexivity. Qed.

Lemma stable_gets {A} (f : S -> A) : stable R (gets f).
Proof. intros s. simpl. reflexivity. Qed.

Lemma stable_bind {A B} (m : PyM S A) (k : A -> PyM S B) :
  stable R m -> (forall a, stable R (k a)) -> stable R (bind m k).
Proof.
  intros Hm Hk s. unfold bind. specialize (Hm s).
  destruct (m s) as [s' [a| |]]; simpl in *; [|done|done].
  etrans; [exact Hm|apply Hk].
Qed.

Lemma stable_try_except {A} (m : PyM S A) h :
  stable R m -> (forall e k, h e = Some k -> stable R k) -> stable R (try_except m h).
Proof.
  intros Hm Hh s. unfold try_except. specialize (Hm s).
  destruct (m s) as [s' [a|e|]]; simpl in *; try done.
  destruct (h e) as [k|] eqn:He; [|done].
  etrans; [exact Hm|by eapply Hh].
Qed.

Lemma stable_try_finally {A} (m : PyM S A) fin :
  stable R m -> stable R fin -> stable R (try_finally m fin).
Proof.
  intros Hm Hf s. unfold try_finally. specialize (Hm s).
  destruct (m s) as [s' r]; simpl in *.
  destruct r; try done;
    specialize (Hf s'); destruct (fin s') as [s'' [| |]]; simpl in *;
    etrans; eauto.
Qed.

Lemma stable_catching {A} E (k : PyM S A) :
  stable R k -> forall e k', catching E k e = Some k' -> stable R k'.
Proof.
  intros Hk e k'. unfold catching. case_decide; [|done]. by intros [= <-].
Qed.

Lemma stable_suppress E (m : PyM S unit) : stable R m -> stable R (suppress E m).
Proof.
  intros Hm. apply stable_try_except; [done|].
  apply stable_catching, stable_ret.
Qed.
End Stable.

#[export] Hint Resolve stable_ret stable_raise stable_hang stable_gets stable_catching : pyexec.

(** Proves [stable R m] for a program [m] built from primitives whose
    stability is in the [pyexec] database: the combinators first, then
    the leaves by the database. *)
Ltac stable_auto :=
  repeat first
    [ progress intros
    | apply stable_bind
    | apply stable_try_finally
    | apply stable_suppress
    | apply stable_try_except
    | solve [ eauto 3 with pyexec typeclass_instances ]
    | case_match
    | progress simplify_eq ].
