(* ===== verification/PyText.v ===== *)
(** * Python byte strings and integer printing

    Python [bytes] are modelled as Rocq [string]s (one [ascii] per byte).
    This file holds the text operations of the script: the substring
    test [b"..." in line] of [_make_disk_image] (line 23), [str(size)] of
    [make_disk_image] (line 102), and [int(s)], argparse's [type] for
    [--size] and [--retry] (lines 140 and 151), translated from CPython's
    [PyLong_FromString] in base 10. *)

From Stdlib Require Import Ascii String ZArith DecimalString.
From stdpp Require Import base list.
From S2P Require Import Prelude.

Local Open Scope string_scope.

Definition bytes := string.

(** [not line] on bytes: only [b''] is false. *)
Definition bytes_is_empty (b : bytes) : bool :=
  match b with EmptyString => true | String _ _ => false end.

(** The byte [b"\n"] and a text line as [readline] returns it, with its
    terminating newline. *)
Definition newline : bytes := String (Ascii.ascii_of_nat 10) EmptyString.
Definition line_bytes (text : bytes) : bytes := text ++ newline.

(** [needle in hay] for [bytes]: [needle] occurs at some position. *)
Fixpoint bytes_contains (needle hay : bytes) : bool :=
  String.prefix needle hay ||
  match hay with
  | EmptyString => false
  | String _ rest => bytes_contains needle rest
  end.

(** [str(n)] for a Python [int]: decimal digits, with a leading [-] for
    negative numbers. *)
Definition py_str_int (n : Z) : string :=
  NilEmpty.string_of_int (Z.to_int n).

(** ** [int(s)] on a [str], base 10 (CPython's [PyLong_FromString])
    Whitespace around the number is skipped; [Py_ISSPACE] and, after
    [str]'s Unicode translation, the separators [\x1c]-[\x1f] are spaces.
    A sign may come next, then decimal digits with single underscores
    between digits.  [None] is the [ValueError] of anything else, [''] and
    ['_1'], ['1_'], ['1__0'], ['- 1'] among them. *)
Definition is_py_space (c : ascii) : bool :=
  let n := nat_of_ascii c in
  (Nat.leb 9 n && Nat.leb n 13) || (Nat.leb 28 n && Nat.leb n 32).

Definition digit_value (c : ascii) : option Z :=
  let n := nat_of_ascii c in
  if Nat.leb 48 n && Nat.leb n 57 then Some (Z.of_nat n - 48)%Z else None.

Fixpoint lstrip_spaces (s : string) : string :=
  match s with
  | String c rest => if is_py_space c then lstrip_spaces rest else s
  | EmptyString => EmptyString
  end.

Fixpoint all_spaces (s : string) : bool :=
  match s with
  | String c rest => is_py_space c && all_spaces rest
  | EmptyString => true
  end.

(** The digits after the first one, [acc] the value read so far: a digit,
    or an underscore followed by a digit, or the trailing spaces. *)
Fixpoint py_digits (acc : Z) (s : string) : option Z :=
  match s with
  | EmptyString => Some acc
  | String c rest =>
      match digit_value c with
      | Some d => py_digits (acc * 10 + d)%Z rest
      | None =>
          if Ascii.eqb c "_" then
            match rest with
            | String c' rest' =>
                match digit_value c' with
                | Some d => py_digits (acc * 10 + d)%Z rest'
                | None => None
                end
            | EmptyString => None
            end
          else if all_spaces s then Some acc else None
      end
  end.

(** The sign: [-] negates, [+] is skipped. *)
Definition py_sign (s : string) : bool * string :=
  match s with
  | String c rest =>
      if Ascii.eqb c "-" then (true, rest)
      else if Ascii.eqb c "+" then (false, rest) else (false, s)
  | EmptyString => (false, s)
  end.

Definition py_int (s : string) : option Z :=
  let '(neg, body) := py_sign (lstrip_spaces s) in
  match body with
  | String c rest =>
      match digit_value c with
      | Some d => option_map (fun v => if neg then (- v)%Z else v) (py_digits d rest)
      | None => None
      end
  | EmptyString => None
  end.

Lemma line_bytes_nonempty text : bytes_is_empty (line_bytes text) = false.
Proof. by destruct text. Qed.
