(* ===== verification/Process.v ===== *)
(** * The world of processes the orchestrator runs in

    A [World] is a clock, the fixed facts of the host ([System]: the
    environment [os.environ], the regular files, whether [git-annex get]
    succeeds, and the scripted behaviour of the n-th spawn of each helper
    script), a process table from pid to [Proc], and a log of the
    externally visible events.  Each operation below models one library
    call of [src/scripts/make_disk_image.py] as a [PyM World] computation;
    the comment on each names the call. *)

From Stdlib Require Import String ZArith.
From stdpp Require Import base list gmap strings.
From S2P Require Import Prelude PyText.

Abbreviation Env := (gmap string string).

(** ** Scripted behaviour of the external programs (times relative to the
    spawn, in seconds; [None] is "never") *)

(** [make_disk_image.sh]: its stderr lines (text without the newline, and
    when each becomes readable), when stderr closes, when it exits, and
    its exit status. *)
Record BuilderScript := mkBuilderScript {
  bs_spawns : bool;
  bs_err : list (nat * bytes);
  bs_eof : option nat;
  bs_exit : option nat;
  bs_code : Z
}.

(** [cp.sh]: when it exits and with which status. *)
Record CopierScript := mkCopierScript {
  cs_spawns : bool;
  cs_exit : option nat;
  cs_code : Z
}.

(** [unmount.sh]: how long [subprocess.run] waits for it. *)
Record UnmountScript := mkUnmountScript {
  us_spawns : bool;
  us_duration : option nat
}.

(** The host, fixed during a run. *)
Record System := mkSystem {
  sys_environ : Env;
  sys_files : list string;
  sys_annex_ok : bool;
  sys_builder : nat -> BuilderScript;
  sys_copier : nat -> CopierScript;
  sys_unmount : nat -> UnmountScript
}.

(** A running or finished process, in absolute time: its pending stderr
    lines, when stderr closes, when it exits, its exit status. *)
Record Proc := mkProc {
  p_err : list (nat * bytes);
  p_eof : option nat;
  p_exit : option nat;
  p_code : Z
}.

(** Externally visible events, in the order they happen. *)
Inductive event :=
| EvAnnexGet
| EvSpawnBuilder (pid : nat) (env : Env)
| EvReadLine (pid : nat) (line : bytes)
| EvSpawnCopier (pid : nat)
| EvKill (pid : nat)
| EvUnmount.

Record World := mkWorld {
  w_sys : System;
  w_clock : nat;
  w_nbuilder : nat;     (** spawns of [make_disk_image.sh] so far *)
  w_ncopier : nat;      (** spawns of [cp.sh] so far *)
  w_nunmount : nat;     (** runs of [unmount.sh] so far *)
  w_procs : gmap nat Proc;
  w_next_pid : nat;
  w_log : list event
}.

(** ** Updates of the world *)
Definition set_clock (t : nat) (w : World) : World :=
  mkWorld (w_sys w) t (w_nbuilder w) (w_ncopier w) (w_nunmount w)
          (w_procs w) (w_next_pid w) (w_log w).

Definition advance_to (t : nat) (w : World) : World :=
  set_clock (Nat.max (w_clock w) t) w.

Definition set_proc (pid : nat) (p : Proc) (w : World) : World :=
  mkWorld (w_sys w) (w_clock w) (w_nbuilder w) (w_ncopier w) (w_nunmount w)
          (<[pid := p]> (w_procs w)) (w_next_pid w) (w_log w).

Definition log_event (ev : event) (w : World) : World :=
  mkWorld (w_sys w) (w_clock w) (w_nbuilder w) (w_ncopier w) (w_nunmount w)
          (w_procs w) (w_next_pid w) (w_log w ++ [ev]).

Definition next_builder (w : World) : World :=
  mkWorld (w_sys w) (w_clock w) (S (w_nbuilder w)) (w_ncopier w)
          (w_nunmount w) (w_procs w) (w_next_pid w) (w_log w).

Definition next_copier (w : World) : World :=
  mkWorld (w_sys w) (w_clock w) (w_nbuilder w) (S (w_ncopier w))
          (w_nunmount w) (w_procs w) (w_next_pid w) (w_log w).

Definition next_unmount (w : World) : World :=
  mkWorld (w_sys w) (w_clock w) (w_nbuilder w) (w_ncopier w)
          (S (w_nunmount w)) (w_procs w) (w_next_pid w) (w_log w).

(** A new process gets the next pid. *)
Definition add_proc (p : Proc) (ev : nat -> event) : PyM World nat :=
  fun w =>
    let pid := w_next_pid w in
    (log_event (ev pid)
       (mkWorld (w_sys w) (w_clock w) (w_nbuilder w) (w_ncopier w)
                (w_nunmount w) (<[pid := p]> (w_procs w)) (S pid) (w_log w)),
     Ok pid).

(** The process of a pid, or [ProcessLookupError] for an unknown pid. *)
Definition with_proc {A} (pid : nat) (k : Proc -> PyM World A) : PyM World A :=
  fun w =>
    match w_procs w !! pid with
    | Some p => k p w
    | None => (w, Exc ProcessLookupError)
    end.

(** ** Process states *)

(** [returncode] (asyncio) and [poll()] (subprocess) at time [t]. *)
Definition returncode_at (t : nat) (p : Proc) : option Z :=
  match p_exit p with
  | Some x => if x <=? t then Some (p_code p) else None
  | None => None
  end.

(** SIGKILL at time [t]: the process exits now with status [-9]. *)
Definition killed (t : nat) (p : Proc) : Proc :=
  mkProc (p_err p) (p_eof p) (Some t) (-9)%Z.

Definition drop_line (p : Proc) (rest : list (nat * bytes)) : Proc :=
  mkProc rest (p_eof p) (p_exit p) (p_code p).

Definition builder_proc (t : nat) (b : BuilderScript) : Proc :=
  mkProc (map (fun '(d, l) => (t + d, l)) (bs_err b))
         (option_map (Nat.add t) (bs_eof b))
         (option_map (Nat.add t) (bs_exit b)) (bs_code b).

(** stdout and stderr of [cp.sh] go to [DEVNULL]. *)
Definition copier_proc (t : nat) (c : CopierScript) : Proc :=
  mkProc [] (Some t) (option_map (Nat.add t) (cs_exit c)) (cs_code c).

(** The return code a process reports in a world ([None] for an unknown
    pid or a running process). *)
Definition status (w : World) (pid : nat) : option Z :=
  match w_procs w !! pid with
  | Some p => returncode_at (w_clock w) p
  | None => None
  end.

(** A kill in the event log. *)
Definition is_kill (ev : event) : bool :=
  match ev with EvKill _ => true | _ => false end.

Definition is_spawn_builder (ev : event) : bool :=
  match ev with EvSpawnBuilder _ _ => true | _ => false end.

Definition is_unmount (ev : event) : bool :=
  match ev with EvUnmount => true | _ => false end.

(** A line read from a stderr, and the events before the [finally]
    block (reads and the spawn of [cp.sh]). *)
Definition is_read (ev : event) : bool :=
  match ev with EvReadLine _ _ => true | _ => false end.

Definition is_early (ev : event) : bool :=
  match ev with EvReadLine _ _ | EvSpawnCopier _ => true | _ => false end.

(** The pid of the first [cp.sh] spawned in a list of events. *)
Fixpoint copier_of (evs : list event) : option nat :=
  match evs with
  | [] => None
  | EvSpawnCopier pid :: _ => Some pid
  | _ :: evs' => copier_of evs'
  end.

(** Two worlds of the same host, with the same spawn counters and next
    pid. *)
Definition same_host (w w' : World) : Prop :=
  w_sys w' = w_sys w /\ w_nbuilder w' = w_nbuilder w /\
  w_ncopier w' = w_ncopier w /\ w_nunmount w' = w_nunmount w /\
  w_next_pid w' = w_next_pid w.

(** ** Operations *)

(** [await asyncio.create_subprocess_exec(make_disk_image_sh,
    stdout=PIPE, stderr=PIPE, env=env)] *)
Definition spawn_builder (env : Env) : PyM World nat :=
  fun w =>
    let b := sys_builder (w_sys w) (w_nbuilder w) in
    if bs_spawns b
    then add_proc (builder_proc (w_clock w) b) (fun pid => EvSpawnBuilder pid env)
                  (next_builder w)
    else (next_builder w, Exc OSError).

(** [subprocess.Popen(["./cp.sh", "."], cwd=_DIR, stdout=DEVNULL,
    stderr=DEVNULL, env={**os.environ, "UNMOUNT": "1", "RM_FAILED": "1"})] *)
Definition popen_copier : PyM World nat :=
  fun w =>
    let c := sys_copier (w_sys w) (w_ncopier w) in
    if cs_spawns c
    then add_proc (copier_proc (w_clock w) c) EvSpawnCopier (next_copier w)
    else (next_copier w, Exc OSError).

(** asyncio's [StreamReader] limit, [2 ** 16] bytes. *)
Definition stream_limit : nat := 65536.

(** [readline] returning the next line, which arrives at time [a]: a line
    longer than the limit is consumed and raises [ValueError]. *)
Definition take_line (pid : nat) (p : Proc) (a : nat) (text : bytes)
           (rest : list (nat * bytes)) : PyM World bytes :=
  fun w =>
    let w' := set_proc pid (drop_line p rest) (advance_to a w) in
    if stream_limit <? String.length text then (w', Exc ValueError)
    else (log_event (EvReadLine pid (line_bytes text)) w', Ok (line_bytes text)).

(** [await main_p.stderr.readline()]: blocks until a line or the end of
    the stream ([b'']); blocks forever when neither comes. *)
Definition stderr_readline (pid : nat) : PyM World bytes :=
  with_proc pid (fun p w =>
    match p_err p with
    | (a, text) :: rest => take_line pid p a text rest w
    | [] =>
        match p_eof p with
        | Some e => (advance_to e w, Ok EmptyString)
        | None => (w, Hang)
        end
    end).

(** [await asyncio.wait_for(main_p.stderr.readline(), timeout=T)] *)
Definition stderr_readline_within (pid : nat) (T : nat) : PyM World bytes :=
  with_proc pid (fun p w =>
    let deadline := w_clock w + T in
    match p_err p with
    | (a, text) :: rest =>
        if a <=? deadline then take_line pid p a text rest w
        else (set_clock deadline w, Exc TimeoutError)
    | [] =>
        match p_eof p with
        | Some e =>
            if e <=? deadline then (advance_to e w, Ok EmptyString)
            else (set_clock deadline w, Exc TimeoutError)
        | None => (set_clock deadline w, Exc TimeoutError)
        end
    end).

(** [await asyncio.wait_for(main_p.communicate(), timeout=T)]: reads both
    pipes to their end and waits for the exit. *)
Definition communicate_within (pid : nat) (T : nat) : PyM World unit :=
  with_proc pid (fun p w =>
    let deadline := w_clock w + T in
    match p_eof p, p_exit p with
    | Some e, Some x =>
        if Nat.max e x <=? deadline
        then (set_proc pid (drop_line p []) (advance_to (Nat.max e x) w), Ok tt)
        else (set_clock deadline w, Exc TimeoutError)
    | _, _ => (set_clock deadline w, Exc TimeoutError)
    end).

(** [main_p.returncode] and [cp_p.poll()] *)
Definition poll (pid : nat) : PyM World (option Z) :=
  with_proc pid (fun p w => (w, Ok (returncode_at (w_clock w) p))).

(** [kill()]: SIGKILL to a running process; a process that has already
    exited is gone, and signalling it raises [ProcessLookupError]. *)
Definition kill (pid : nat) : PyM World unit :=
  with_proc pid (fun p w =>
    match returncode_at (w_clock w) p with
    | Some _ => (w, Exc ProcessLookupError)
    | None => (log_event (EvKill pid) (set_proc pid (killed (w_clock w) p) w), Ok tt)
    end).

(** [await main_p.wait()] and [cp_p.wait()]: block until the exit. *)
Definition wait (pid : nat) : PyM World Z :=
  with_proc pid (fun p w =>
    match p_exit p with
    | Some x => (advance_to x w, Ok (p_code p))
    | None => (w, Hang)
    end).

(** [time.sleep(n)] *)
Definition sleep (n : nat) : PyM World unit :=
  fun w => (set_clock (w_clock w + n) w, Ok tt).

(** [subprocess.run(["./unmount.sh"], cwd=_DIR, env={**os.environ,
    "FORCE": "1"})]: runs to completion; its status is not checked. *)
Definition run_unmount : PyM World unit :=
  fun w =>
    let u := sys_unmount (w_sys w) (w_nunmount w) in
    let w1 := next_unmount w in
    if us_spawns u then
      match us_duration u with
      | Some d => (set_clock (w_clock w1 + d) (log_event EvUnmount w1), Ok tt)
      | None => (log_event EvUnmount w1, Hang)
      end
    else (w1, Exc OSError).

(** [subprocess.run(["git-annex", "get", "scripts/"], ..., check=True)] *)
Definition annex_get : PyM World unit :=
  fun w =>
    if sys_annex_ok (w_sys w) then (log_event EvAnnexGet w, Ok tt)
    else (log_event EvAnnexGet w, Exc CalledProcessError).

(** [os.path.isfile(name)]; [None] is not a path and raises [TypeError]. *)
Definition isfile (name : option string) : PyM World bool :=
  match name with
  | None => raise TypeError
  | Some n => gets (fun w => bool_decide (n ∈ sys_files (w_sys w)))
  end.

(** Unfolds the world updates and projects their fields. *)
Ltac unfold_world :=
  cbv beta delta [log_event set_proc set_clock advance_to next_builder
                  next_copier next_unmount] in *; simpl in *.

(** ** The world only moves forward
    [evolves w w']: the host is the same, the log of [w] is a prefix of the
    log of [w'], and the clock has not gone back. *)
Definition evolves (w w' : World) : Prop :=
  w_sys w' = w_sys w /\ w_log w `prefix_of` w_log w' /\ w_clock w <= w_clock w'.

#[export] Instance evolves_preorder : PreOrder evolves.
Proof.
  split.
  - intros w. split_and!; [done | reflexivity | lia].
  - intros w1 w2 w3 (? & ? & ?) (? & ? & ?). split_and!; [congruence | by etrans | lia].
Qed.

(** ** The process table
    [wf_world]: every pid in the table is below the next pid, so a spawn
    never overwrites a live entry.  [persists w w']: from a well-formed
    [w], [w'] is well formed, and every process of [w] is still in the
    table with a suffix of its pending stderr and the same end of file. *)
Definition wf_world (w : World) : Prop :=
  map_Forall (fun pid _ => pid < w_next_pid w) (w_procs w).

#[export] Instance wf_world_dec w : Decision (wf_world w).
Proof. unfold wf_world. apply _. Defined.

Definition persists (w w' : World) : Prop :=
  wf_world w ->
  wf_world w' /\
  forall pid p, w_procs w !! pid = Some p ->
    exists p', w_procs w' !! pid = Some p' /\
               p_err p' `suffix_of` p_err p /\ p_eof p' = p_eof p.

#[export] Instance persists_preorder : PreOrder persists.
Proof.
  split.
  - intros w Hwf. split; [done|]. intros pid p Hp. by exists p.
  - intros w1 w2 w3 H12 H23 Hwf1.
    destruct (H12 Hwf1) as [Hwf2 H12']. destruct (H23 Hwf2) as [Hwf3 H23'].
    split; [done|]. intros pid p Hp.
    destruct (H12' _ _ Hp) as (p2 & Hp2 & Hs2 & He2).
    destruct (H23' _ _ Hp2) as (p3 & Hp3 & Hs3 & He3).
    exists p3. split_and!; [done | by etrans | congruence].
Qed.

(** ** The laws the supervisor's invariants rest on
    A preorder [R] that every primitive keeps; [evolves] and [persists]
    are two.  [core_stable] leaves out the spawn of the builder, which
    only the start of an attempt performs. *)
Record base_stable (R : World -> World -> Prop) : Prop := {
  ps_readline : forall pid, stable R (stderr_readline pid);
  ps_readline_within : forall pid T, stable R (stderr_readline_within pid T);
  ps_communicate : forall pid T, stable R (communicate_within pid T);
  ps_poll : forall pid, stable R (poll pid);
  ps_kill : forall pid, stable R (kill pid);
  ps_wait : forall pid, stable R (wait pid);
  ps_sleep : forall n, stable R (sleep n);
  ps_unmount : stable R run_unmount
}.

Record core_stable (R : World -> World -> Prop) : Prop := {
  ps_base :> base_stable R;
  ps_popen_copier : stable R popen_copier
}.

Record prims_stable (R : World -> World -> Prop) : Prop := {
  ps_core :> core_stable R;
  ps_spawn_builder : forall env, stable R (spawn_builder env)
}.

(** What the retry driver needs besides: [git-annex get] and
    [os.path.isfile]. *)
Record run_stable (R : World -> World -> Prop) : Prop := {
  ps_prims :> prims_stable R;
  ps_annex_get : stable R annex_get;
  ps_isfile : forall name, stable R (isfile name)
}.

(** A process has exited by time [t]. *)
Definition exited_by (t : nat) (p : Proc) : Prop :=
  returncode_at t p = Some (p_code p).

#[export] Instance same_host_preorder : PreOrder same_host.
Proof.
  split; [intros w; by split_and!|].
  intros w1 w2 w3 (? & ? & ? & ? & ?) (? & ? & ? & ? & ?). split_and!; congruence.
Qed.

(** ** Steps that only read the stderr of one process
    [reads_only m w w']: the host and counters are the same, the clock
    has not gone back, only the entry of [m] changed and only in its
    pending output, and the new events are reads. *)
Definition reads_only (m : nat) (w w' : World) : Prop :=
  same_host w w' /\ w_clock w <= w_clock w' /\
  (forall pid, pid <> m -> w_procs w' !! pid = w_procs w !! pid) /\
  (forall p, w_procs w !! m = Some p -> exists p', w_procs w' !! m = Some p' /\
     p_exit p' = p_exit p /\ p_code p' = p_code p /\ p_eof p' = p_eof p) /\
  exists reads, Forall (fun ev => is_read ev = true) reads /\
                w_log w' = w_log w ++ reads.

#[export] Instance reads_only_preorder m : PreOrder (reads_only m).
Proof.
  split.
  - intros w. split_and!; [reflexivity | lia | done | by eexists | ].
    exists []. by rewrite app_nil_r.
  - intros w1 w2 w3 (H1 & T1 & O1 & M1 & r1 & F1 & L1)
                    (H2 & T2 & O2 & M2 & r2 & F2 & L2).
    split_and!; [by etrans | lia | | |].
    + intros pid Hpid. by rewrite O2, O1.
    + intros p Hp. destruct (M1 _ Hp) as (p2 & Hp2 & E2 & C2 & F2').
      destruct (M2 _ Hp2) as (p3 & Hp3 & E3 & C3 & F3).
      exists p3. split_and!; congruence.
    + exists (r1 ++ r2). split; [by apply Forall_app|]. by rewrite L2, L1, app_assoc.
Qed.

(** ** Only [spawn_builder] spawns the builder
    [no_spawn w w']: the spawn counter of the builder is unchanged and
    the events added to the log have no spawn of the builder. *)
Definition no_spawn (w w' : World) : Prop :=
  w_nbuilder w' = w_nbuilder w /\
  exists evs, w_log w' = w_log w ++ evs /\ existsb is_spawn_builder evs = false.

#[export] Instance no_spawn_preorder : PreOrder no_spawn.
Proof.
  split.
  - intros w. split; [done|]. exists []. by rewrite app_nil_r.
  - intros w1 w2 w3 (Hn1 & evs1 & Hl1 & He1) (Hn2 & evs2 & Hl2 & He2).
    split; [congruence|]. exists (evs1 ++ evs2).
    rewrite Hl2, Hl1, existsb_app, He1, He2. by rewrite app_assoc.
Qed.

(** ** Only [popen_copier] spawns the populator
    [no_copier w w']: the events added to the log have no spawn of
    [cp.sh]. *)
Definition no_copier (w w' : World) : Prop :=
  exists evs, w_log w' = w_log w ++ evs /\ copier_of evs = None.

#[export] Instance no_copier_preorder : PreOrder no_copier.
Proof.
  split.
  - intros w. exists []. by rewrite app_nil_r.
  - intros w1 w2 w3 (evs1 & Hl1 & He1) (evs2 & Hl2 & He2).
    exists (evs1 ++ evs2). split; [by rewrite Hl2, Hl1, app_assoc|].
    clear - He1 He2. induction evs1 as [|[] evs1 IH]; simpl in *; try done; auto.
Qed.

Lemma evolves_set_proc pid p w : evolves w (set_proc pid p w).
Proof. split_and!; simpl; [done | reflexivity | lia]. Qed.

Lemma evolves_log_event ev w : evolves w (log_event ev w).
Proof. split_and!; simpl; [done | by apply prefix_app_r | lia]. Qed.

Lemma evolves_advance_to t w : evolves w (advance_to t w).
Proof. split_and!; simpl; [done | reflexivity | lia]. Qed.

Lemma evolves_later t w : w_clock w <= t -> evolves w (set_clock t w).
Proof. intros. split_and!; simpl; [done | reflexivity | lia]. Qed.

Lemma evolves_next_builder w : evolves w (next_builder w).
Proof. split_and!; simpl; [done | reflexivity | lia]. Qed.

Lemma evolves_next_copier w : evolves w (next_copier w).
Proof. split_and!; simpl; [done | reflexivity | lia]. Qed.

Lemma evolves_next_unmount w : evolves w (next_unmount w).
Proof. split_and!; simpl; [done | reflexivity | lia]. Qed.

#[export] Hint Resolve evolves_set_proc evolves_log_event evolves_advance_to
  evolves_next_builder evolves_next_copier evolves_next_unmount : pyexec.

(** Closes a goal [evolves w w'] where [w'] is [w] after a few updates. *)
Ltac evolves_chain :=
  repeat first
    [ reflexivity
    | apply evolves_later; simpl; lia
    | etrans; [| apply evolves_log_event]
    | etrans; [| apply evolves_set_proc]
    | etrans; [| apply evolves_advance_to]
    | etrans; [| apply evolves_later; simpl; lia]
    | etrans; [| apply evolves_next_builder]
    | etrans; [| apply evolves_next_copier]
    | etrans; [| apply evolves_next_unmount] ].

Lemma add_proc_stable p ev : stable evolves (add_proc p ev).
Proof.
  intros w. split_and!; simpl; [done | by apply prefix_app_r | lia].
Qed.

(** Every primitive keeps [evolves]. *)
Ltac prim_stable :=
  intros w; cbv beta delta [with_proc take_line] in *; simpl;
  repeat (case_match; simpl); evolves_chain.

Lemma spawn_builder_stable env : stable evolves (spawn_builder env).
Proof.
  intros w. unfold spawn_builder. case_match; [|simpl; evolves_chain].
  etrans; [apply evolves_next_builder | apply (add_proc_stable _ _ (next_builder w))].
Qed.

Lemma popen_copier_stable : stable evolves popen_copier.
Proof.
  intros w. unfold popen_copier. case_match; [|simpl; evolves_chain].
  etrans; [apply evolves_next_copier | apply (add_proc_stable _ _ (next_copier w))].
Qed.

Lemma stderr_readline_stable pid : stable evolves (stderr_readline pid).
Proof. unfold stderr_readline. prim_stable. Qed.

Lemma stderr_readline_within_stable pid T :
  stable evolves (stderr_readline_within pid T).
Proof. unfold stderr_readline_within. prim_stable. Qed.

Lemma communicate_within_stable pid T : stable evolves (communicate_within pid T).
Proof. unfold communicate_within. prim_stable. Qed.

Lemma poll_stable pid : stable evolves (poll pid).
Proof. unfold poll. prim_stable. Qed.

Lemma kill_stable pid : stable evolves (kill pid).
Proof. unfold kill. prim_stable. Qed.

Lemma wait_stable pid : stable evolves (wait pid).
Proof. unfold wait. prim_stable. Qed.

Lemma sleep_stable n : stable evolves (sleep n).
Proof. unfold sleep. prim_stable. Qed.

Lemma run_unmount_stable : stable evolves run_unmount.
Proof. unfold run_unmount. prim_stable. Qed.

Lemma annex_get_stable : stable evolves annex_get.
Proof. unfold annex_get. prim_stable. Qed.

Lemma isfile_stable name : stable evolves (isfile name).
Proof. unfold isfile. prim_stable. Qed.

#[export] Hint Resolve spawn_builder_stable popen_copier_stable
  stderr_readline_stable stderr_readline_within_stable communicate_within_stable
  poll_stable kill_stable wait_stable sleep_stable run_unmount_stable
  annex_get_stable isfile_stable : pyexec.

(** Updating an entry keeps [persists] when the new entry keeps a suffix
    of the stderr and the same end of file. *)
Lemma persists_set_proc pid p p' w :
  w_procs w !! pid = Some p -> p_err p' `suffix_of` p_err p ->
  p_eof p' = p_eof p -> persists w (set_proc pid p' w).
Proof.
  intros Hp Hs He Hwf. split.
  - intros pid' q. simpl. rewrite lookup_insert.
    case_decide; [subst; intros _; by eapply Hwf | apply Hwf].
  - intros pid' q Hq. simpl. rewrite lookup_insert. case_decide.
    + subst. rewrite Hp in Hq. injection Hq as <-. by exists p'.
    + by exists q.
Qed.

Lemma persists_same_procs w w' :
  w_procs w' = w_procs w -> w_next_pid w' = w_next_pid w -> persists w w'.
Proof.
  intros Hp Hn Hwf. split.
  - intros pid p. rewrite Hp, Hn. apply Hwf.
  - intros pid p Hq. exists p. by rewrite Hp.
Qed.

Lemma add_proc_persists p ev : stable persists (add_proc p ev).
Proof.
  intros w Hwf. unfold add_proc, wf_world, map_Forall in *. unfold_world. split.
  - intros pid q. rewrite lookup_insert. case_decide; [lia|].
    intros Hq. specialize (Hwf _ _ Hq). lia.
  - intros pid q Hq. exists q. rewrite lookup_insert_ne; [done|].
    specialize (Hwf _ _ Hq). lia.
Qed.

Lemma persists_trans_same w w1 w2 :
  persists w w1 -> w_procs w2 = w_procs w1 -> w_next_pid w2 = w_next_pid w1 ->
  persists w w2.
Proof. intros H ? ?. etrans; [exact H | by apply persists_same_procs]. Qed.

Lemma persists_set_proc_after w w' pid p p' :
  persists w w' -> w_procs w' !! pid = Some p -> p_err p' `suffix_of` p_err p ->
  p_eof p' = p_eof p -> persists w (set_proc pid p' w').
Proof. intros H ? ? ?. etrans; [exact H | by eapply persists_set_proc]. Qed.

(** Peels the updates off the final world of a primitive. *)
Ltac persists_chain :=
  repeat match goal with
  | |- persists ?w ?w => reflexivity
  | |- persists _ (log_event _ ?w') =>
      apply (persists_trans_same _ w'); [| reflexivity | reflexivity]
  | |- persists _ (set_clock _ ?w') =>
      apply (persists_trans_same _ w'); [| reflexivity | reflexivity]
  | |- persists _ (advance_to _ ?w') =>
      apply (persists_trans_same _ w'); [| reflexivity | reflexivity]
  | |- persists _ (next_unmount ?w') =>
      apply (persists_trans_same _ w'); [| reflexivity | reflexivity]
  | |- persists _ (set_proc _ _ ?w') =>
      eapply persists_set_proc_after;
        [| eassumption
         | simpl; try match goal with
                      | H : p_err ?q = _ |- context [p_err ?q] => rewrite H
                      end;
           first [ reflexivity | by apply suffix_cons_r | by apply suffix_nil ]
         | reflexivity ]
  end.

Ltac prim_persists :=
  intros w; cbv beta delta [with_proc take_line] in *; simpl;
  repeat (case_match; simpl); persists_chain.

Lemma spawn_builder_persists env : stable persists (spawn_builder env).
Proof.
  intros w. unfold spawn_builder. case_match.
  - etrans; [apply persists_same_procs; reflexivity|].
    apply (add_proc_persists _ _ (next_builder w)).
  - apply persists_same_procs; reflexivity.
Qed.

Lemma popen_copier_persists : stable persists popen_copier.
Proof.
  intros w. unfold popen_copier. case_match.
  - etrans; [apply persists_same_procs; reflexivity|].
    apply (add_proc_persists _ _ (next_copier w)).
  - apply persists_same_procs; reflexivity.
Qed.

Lemma stderr_readline_persists pid : stable persists (stderr_readline pid).
Proof. unfold stderr_readline. prim_persists. Qed.

Lemma stderr_readline_within_persists pid T :
  stable persists (stderr_readline_within pid T).
Proof. unfold stderr_readline_within. prim_persists. Qed.

Lemma communicate_within_persists pid T :
  stable persists (communicate_within pid T).
Proof. unfold communicate_within. prim_persists. Qed.

Lemma poll_persists pid : stable persists (poll pid).
Proof. unfold poll. prim_persists. Qed.

Lemma kill_persists pid : stable persists (kill pid).
Proof. unfold kill. prim_persists. Qed.

Lemma wait_persists pid : stable persists (wait pid).
Proof. unfold wait. prim_persists. Qed.

Lemma sleep_persists n : stable persists (sleep n).
Proof. unfold sleep. prim_persists. Qed.

Lemma run_unmount_persists : stable persists run_unmount.
Proof. unfold run_unmount. prim_persists. Qed.

#[export] Hint Resolve spawn_builder_persists popen_copier_persists
  stderr_readline_persists stderr_readline_within_persists
  communicate_within_persists poll_persists kill_persists wait_persists
  sleep_persists run_unmount_persists : pyexec.

(** ** Results of spawning and reading *)
Lemma spawn_builder_Ok env w w1 pid :
  spawn_builder env w = (w1, Ok pid) ->
  pid = w_next_pid w /\
  w_procs w1 !! pid = Some (builder_proc (w_clock w)
                              (sys_builder (w_sys w) (w_nbuilder w))) /\
  w_log w1 = w_log w ++ [EvSpawnBuilder pid env] /\ w_clock w1 = w_clock w.
Proof.
  unfold spawn_builder, add_proc. case_match; [|done].
  intros [= <- <-]. unfold_world. by rewrite lookup_insert_eq.
Qed.

Lemma stderr_readline_Ok pid w w' line p :
  w_procs w !! pid = Some p -> stderr_readline pid w = (w', Ok line) ->
  exists p', w_procs w' !! pid = Some p' /\
    w_procs w' = <[pid := p']> (w_procs w) /\ same_host w w' /\
    w_clock w <= w_clock w' /\
    p_exit p' = p_exit p /\ p_code p' = p_code p /\ p_eof p' = p_eof p /\
    ((line = EmptyString /\ p' = p /\ w_log w' = w_log w) \/
     exists a text, p_err p = (a, text) :: p_err p' /\ line = line_bytes text /\
       w_log w' = w_log w ++ [EvReadLine pid line]).
Proof.
  intros Hp. unfold stderr_readline, with_proc. rewrite Hp.
  destruct (p_err p) as [|[a text] rest] eqn:He.
  - destruct (p_eof p) eqn:Heof; [|done]. intros [= <- <-]. exists p.
    unfold_world. rewrite insert_id by done.
    split_and!; try done; try lia; try (unfold same_host; simpl; by split_and!).
    by left.
  - unfold take_line. case_match; [done|]. intros [= <- <-].
    exists (drop_line p rest). unfold_world. rewrite lookup_insert_eq.
    split_and!; try done; try lia; try (unfold same_host; simpl; by split_and!).
    right. by exists a, text.
Qed.

Lemma popen_copier_Ok w w' cp :
  popen_copier w = (w', Ok cp) ->
  cp = w_next_pid w /\
  w_procs w' = <[cp := copier_proc (w_clock w) (sys_copier (w_sys w) (w_ncopier w))]>
                 (w_procs w) /\
  w_log w' = w_log w ++ [EvSpawnCopier cp] /\ w_clock w' = w_clock w /\
  w_sys w' = w_sys w /\ w_next_pid w' = S cp /\ w_nunmount w' = w_nunmount w.
Proof.
  unfold popen_copier, add_proc. case_match; [|done].
  intros [= <- <-]. by unfold_world.
Qed.

Lemma evolves_prims : prims_stable evolves.
Proof. split; [split; [split|]|]; eauto with pyexec. Qed.

Lemma persists_prims : prims_stable persists.
Proof. split; [split; [split|]|]; eauto with pyexec. Qed.

Lemma annex_get_persists : stable persists annex_get.
Proof. unfold annex_get. prim_persists. Qed.

Lemma isfile_persists name : stable persists (isfile name).
Proof. unfold isfile. prim_persists. Qed.

Lemma evolves_run : run_stable evolves.
Proof. split; [exact evolves_prims | exact annex_get_stable | exact isfile_stable]. Qed.

Lemma persists_run : run_stable persists.
Proof. split; [exact persists_prims | exact annex_get_persists | exact isfile_persists]. Qed.

(** ** Return codes *)
Lemma returncode_at_Some t p c : returncode_at t p = Some c -> c = p_code p.
Proof. unfold returncode_at. repeat case_match; congruence. Qed.

Lemma returncode_at_mono t t' p c :
  returncode_at t p = Some c -> t <= t' -> returncode_at t' p = Some c.
Proof.
  unfold returncode_at. case_match; [|done].
  destruct (Nat.leb_spec n t); [|done]. intros ? ?.
  destruct (Nat.leb_spec n t'); [done | lia].
Qed.

Lemma returncode_at_killed t p : returncode_at t (killed t p) = Some (-9)%Z.
Proof. unfold returncode_at. simpl. by rewrite Nat.leb_refl. Qed.

Lemma returncode_at_drop_line t p rest :
  returncode_at t (drop_line p rest) = returncode_at t p.
Proof. reflexivity. Qed.

#[export] Hint Rewrite returncode_at_killed returncode_at_drop_line : pyexec.

Lemma exited_by_mono t t' p : exited_by t p -> t <= t' -> exited_by t' p.
Proof. apply returncode_at_mono. Qed.

Lemma returncode_at_exited t p c : returncode_at t p = Some c -> exited_by t p.
Proof. intros H. unfold exited_by. by rewrite H, <- (returncode_at_Some _ _ _ H). Qed.

(** [with contextlib.suppress(asyncio.TimeoutError): await
    asyncio.wait_for(p.communicate(), timeout=T)] always returns; only the
    pending output of [p] and the clock change. *)
Lemma communicate_suppressed_spec w pid p T :
  w_procs w !! pid = Some p ->
  exists p1 w1,
    suppress TimeoutError (communicate_within pid T) w = (w1, Ok tt) /\
    w_procs w1 = <[pid := p1]> (w_procs w) /\
    p_exit p1 = p_exit p /\ p_code p1 = p_code p /\
    w_log w1 = w_log w /\ w_clock w <= w_clock w1 /\ same_host w w1.
Proof.
  intros Hp. unfold suppress, try_except, communicate_within, with_proc.
  rewrite Hp.
  destruct (p_eof p) as [e|], (p_exit p) as [x|] eqn:Hx;
    try (exists p, (set_clock (w_clock w + T) w);
         rewrite insert_id by done; unfold_world; split_and!; done || lia).
  destruct (Nat.max e x <=? w_clock w + T).
  - exists (drop_line p []), (set_proc pid (drop_line p []) (advance_to (Nat.max e x) w)).
    unfold_world. split_and!; try done. lia.
  - exists p, (set_clock (w_clock w + T) w).
    rewrite insert_id by done. unfold_world. split_and!; done || lia.
Qed.

Lemma poll_spec w pid p :
  w_procs w !! pid = Some p -> poll pid w = (w, Ok (returncode_at (w_clock w) p)).
Proof. intros Hp. unfold poll, with_proc. by rewrite Hp. Qed.

(** [subprocess.run(["./unmount.sh"], ...)]: logs the unmount when the
    script starts, and returns when it finishes. *)
Lemma run_unmount_spec w :
  let u := sys_unmount (w_sys w) (w_nunmount w) in
  let '(w', r) := run_unmount w in
  w_procs w' = w_procs w /\ w_clock w <= w_clock w' /\ w_sys w' = w_sys w /\
  w_next_pid w' = w_next_pid w /\
  ((us_spawns u = true /\ us_duration u <> None /\ r = Ok tt /\
    w_log w' = w_log w ++ [EvUnmount]) \/
   (us_spawns u = false /\ r = Exc OSError /\ w_log w' = w_log w) \/
   (us_spawns u = true /\ us_duration u = None /\ r = Hang /\
    w_log w' = w_log w ++ [EvUnmount])).
Proof.
  unfold run_unmount. simpl.
  destruct (us_spawns _) eqn:Hs; [destruct (us_duration _) eqn:Hd|];
    unfold_world; split_and!; try done; try lia.
  - left. by split_and!.
  - right; right. by split_and!.
  - right; left. by split_and!.
Qed.

Lemma status_exited w pid p :
  w_procs w !! pid = Some p -> exited_by (w_clock w) p ->
  status w pid = Some (p_code p).
Proof. intros Hp Hx. unfold status. by rewrite Hp. Qed.

(** An exited process keeps its status in any later world with the same
    entry. *)
Lemma status_later w w' pid p :
  w_procs w !! pid = Some p -> exited_by (w_clock w) p ->
  w_procs w' !! pid = Some p -> w_clock w <= w_clock w' ->
  status w' pid = Some (p_code p).
Proof.
  intros _ Hx Hp' Ht. apply (status_exited _ _ _ Hp'). by eapply exited_by_mono.
Qed.

Lemma reads_only_intro m w w' :
  same_host w w' -> w_clock w <= w_clock w' ->
  (w_procs w' = w_procs w \/
   exists p p', w_procs w !! m = Some p /\ w_procs w' = <[m := p']> (w_procs w) /\
     p_exit p' = p_exit p /\ p_code p' = p_code p /\ p_eof p' = p_eof p) ->
  (w_log w' = w_log w \/ exists l, w_log w' = w_log w ++ [EvReadLine m l]) ->
  reads_only m w w'.
Proof.
  intros Hh Ht Hp Hl. split_and!; [done | done | | |].
  - intros pid Hpid. destruct Hp as [-> | (p & p' & _ & -> & _)]; [done|].
    by rewrite lookup_insert_ne.
  - intros p Hm. destruct Hp as [-> | (q & q' & Hq & -> & E & C & F)]; [by exists p|].
    rewrite Hm in Hq. injection Hq as <-. exists q'. by rewrite lookup_insert_eq.
  - destruct Hl as [-> | [l ->]]; [exists []; by rewrite app_nil_r|].
    exists [EvReadLine m l]. split; [by repeat constructor | done].
Qed.

Ltac reads_only_prim :=
  intros w; cbv beta delta [with_proc take_line] in *; simpl;
  repeat (case_match; simpl);
  apply reads_only_intro;
  unfold_world; try (unfold same_host; simpl; by split_and!); try lia;
  first [ by left | right; eexists _, _; rewrite ?lookup_insert_eq; by split_and!
        | right; by eexists ].

Lemma stderr_readline_reads_only m : stable (reads_only m) (stderr_readline m).
Proof. unfold stderr_readline. reads_only_prim. Qed.

Lemma stderr_readline_within_reads_only m T :
  stable (reads_only m) (stderr_readline_within m T).
Proof. unfold stderr_readline_within. reads_only_prim. Qed.

#[export] Hint Resolve stderr_readline_reads_only
  stderr_readline_within_reads_only : pyexec.

Lemma set_clock_same w : set_clock (w_clock w) w = w.
Proof. by destruct w. Qed.

(** [wait] on a process that has exited returns its status at once. *)
Lemma wait_exited w pid p :
  w_procs w !! pid = Some p -> exited_by (w_clock w) p ->
  wait pid w = (w, Ok (p_code p)).
Proof.
  intros Hp Hx. unfold wait, with_proc. rewrite Hp.
  unfold exited_by, returncode_at in Hx.
  destruct (p_exit p) as [x|]; [|done].
  destruct (Nat.leb_spec x (w_clock w)); [|done].
  unfold advance_to. by rewrite Nat.max_l, set_clock_same.
Qed.

Lemma reads_only_wf m w w' :
  reads_only m w w' -> wf_world w -> m < w_next_pid w -> wf_world w'.
Proof.
  intros (Hh & _ & Ho & _) Hwf Hm pid p Hp.
  destruct Hh as (_ & _ & _ & _ & ->).
  destruct (decide (pid = m)) as [->|Hne]; [done|].
  rewrite Ho in Hp by done. by apply (Hwf pid p).
Qed.

Lemma status_Some_exited w pid c :
  status w pid = Some c ->
  exists p, w_procs w !! pid = Some p /\ exited_by (w_clock w) p /\ c = p_code p.
Proof.
  unfold status. destruct (w_procs w !! pid) as [p|]; [|done]. intros Hr.
  exists p. split_and!; [done | by eapply returncode_at_exited | by eapply returncode_at_Some].
Qed.

Lemma copier_of_reads reads evs :
  Forall (fun ev => is_read ev = true) reads -> copier_of (reads ++ evs) = copier_of evs.
Proof. induction 1 as [|[] ? ? ? ? IH]; by simpl. Qed.

Lemma existsb_kill_early evs :
  Forall (fun ev => is_early ev = true) evs -> existsb is_kill evs = false.
Proof. induction 1 as [|[] ? ? ? ? IH]; by simpl. Qed.

Lemma reads_early reads :
  Forall (fun ev => is_read ev = true) reads -> Forall (fun ev => is_early ev = true) reads.
Proof. intros H. eapply Forall_impl; [exact H|]. by intros []. Qed.

Lemma copier_of_app l1 l2 :
  copier_of (l1 ++ l2) = match copier_of l1 with Some p => Some p | None => copier_of l2 end.
Proof. induction l1 as [|[] l1 IH]; by simpl. Qed.

Lemma copier_of_kills kills :
  Forall (fun ev => is_kill ev = true) kills -> copier_of kills = None.
Proof. induction 1 as [|[] ? ? ? ? IH]; by simpl. Qed.

Lemma unmount_not_early evs :
  Forall (fun ev => is_early ev = true) evs -> EvUnmount ∉ evs.
Proof. intros H Hin. rewrite Forall_forall in H. by specialize (H _ Hin). Qed.

Lemma unmount_not_kill evs :
  Forall (fun ev => is_kill ev = true) evs -> EvUnmount ∉ evs.
Proof. intros H Hin. rewrite Forall_forall in H. by specialize (H _ Hin). Qed.

(** [EvUnmount ∉ evs] decided by a scan of the list. *)
Lemma unmount_not_in evs : existsb is_unmount evs = false -> EvUnmount ∉ evs.
Proof.
  induction evs as [|ev evs IH]; simpl; [intros _; apply not_elem_of_nil|].
  intros [H1 H2]%orb_false_iff. rewrite elem_of_cons.
  intros [<- | Hin]; [done | by apply IH].
Qed.

(** Closes [exists evs, w_log w' = w_log w ++ evs /\ P evs] for the log
    of a primitive, with [P] decided by computation. *)
Ltac log_ext_close :=
  first [ exists []; split; [by rewrite app_nil_r | reflexivity]
        | eexists; split; [rewrite <- ?app_assoc; reflexivity | reflexivity] ].

Ltac no_spawn_close := split; [reflexivity|]; log_ext_close.

Ltac no_spawn_prim :=
  intros w; cbv beta delta [with_proc take_line add_proc] in *; simpl;
  repeat (case_match; simpl); unfold_world; no_spawn_close.

Lemma no_spawn_core : core_stable no_spawn.
Proof.
  split; [split|]; intros; [unfold stderr_readline
    | unfold stderr_readline_within | unfold communicate_within | unfold poll
    | unfold kill | unfold wait | unfold sleep | unfold run_unmount
    | unfold popen_copier]; no_spawn_prim.
Qed.

Lemma no_copier_base : base_stable no_copier.
Proof.
  split; intros; [unfold stderr_readline | unfold stderr_readline_within
    | unfold communicate_within | unfold poll | unfold kill | unfold wait
    | unfold sleep | unfold run_unmount];
    intros w; cbv beta delta [with_proc take_line] in *; simpl;
    repeat (case_match; simpl); unfold_world; log_ext_close.
Qed.

(** ** Steps that spawn nothing
    [fixed_spawns w w']: the host and the spawn counters of the builder
    and of [cp.sh] are the same. *)
Definition fixed_spawns (w w' : World) : Prop :=
  w_sys w' = w_sys w /\ w_nbuilder w' = w_nbuilder w /\ w_ncopier w' = w_ncopier w.

#[export] Instance fixed_spawns_preorder : PreOrder fixed_spawns.
Proof.
  split; [intros w; by split_and!|].
  intros w1 w2 w3 (? & ? & ?) (? & ? & ?). split_and!; congruence.
Qed.

Lemma fixed_spawns_base : base_stable fixed_spawns.
Proof.
  split; intros; [unfold stderr_readline | unfold stderr_readline_within
    | unfold communicate_within | unfold poll | unfold kill | unfold wait
    | unfold sleep | unfold run_unmount];
    intros w; cbv beta delta [with_proc take_line] in *; simpl;
    repeat (case_match; simpl); unfold_world; by split_and!.
Qed.

(** How [readline] changes the log, whatever it returns: a line is logged
    as it is read; the end of the stream, an error or a block log
    nothing. *)
Lemma stderr_readline_log m w w' r :
  stderr_readline m w = (w', r) ->
  match r with
  | Ok l => (bytes_is_empty l = true /\ w_log w' = w_log w) \/
            (bytes_is_empty l = false /\ w_log w' = w_log w ++ [EvReadLine m l])
  | _ => w_log w' = w_log w
  end.
Proof.
  unfold stderr_readline, with_proc, take_line. intros H.
  repeat case_match; simplify_eq; unfold_world; try done;
    first [by left | right; by rewrite line_bytes_nonempty].
Qed.

(** How [Popen] of [cp.sh] changes the log. *)
Lemma popen_copier_log w w' r :
  popen_copier w = (w', r) ->
  match r with
  | Ok cp => w_log w' = w_log w ++ [EvSpawnCopier cp]
  | _ => w_log w' = w_log w
  end.
Proof. unfold popen_copier, add_proc. intros H. case_match; simplify_eq; by unfold_world. Qed.

(** ** The first spawn of [cp.sh] in a list of events *)

Lemma copier_of_read_lines m ls : copier_of (EvReadLine m <$> ls) = None.
Proof. by induction ls. Qed.

Lemma copier_of_spawned pre cp post : copier_of (pre ++ EvSpawnCopier cp :: post) <> None.
Proof. rewrite copier_of_app. simpl. by destruct (copier_of pre). Qed.

(** Two ways of cutting a list at a spawn of [cp.sh] agree when the first
    has no other spawn around it. *)
Lemma copier_split_unique A c rest pre c' post :
  copier_of A = None -> copier_of rest = None ->
  A ++ EvSpawnCopier c :: rest = pre ++ EvSpawnCopier c' :: post -> pre = A.
Proof.
  intros HA Hr. induction A as [|ev A IH] in pre, HA |- *; destruct pre as [|ev' pre].
  - done.
  - simpl. intros [= _ Hrest]. exfalso. apply (copier_of_spawned pre c' post).
    by rewrite <- Hrest.
  - simpl. intros [= Hev _]. subst. done.
  - simpl. intros [= <- Heq].
    destruct ev; simpl in HA; try done; by rewrite (IH pre HA Heq).
Qed.
