(* ===== verification/Supervisor.v ===== *)
(** * One attempt: [_make_disk_image] (src/scripts/make_disk_image.py,
      lines 11-80)

    The attempt spawns the builder, scans its stderr for the readiness
    marker ([scan_for_marker], lines 19-32), spawns the populator on the
    marker, drains the rest of stderr under a 5 minute per-line timeout
    ([drain], lines 33-41), then always runs the [finally] block
    ([shutdown], lines 42-75, split into [stop_copier] and
    [reap_builder]) and computes the result ([attempt_result], lines
    76-80).  The theorems show the unmount decision, the clean-success
    guarantee, the start order of the populator and termination for
    every run; and, on every host that meets their hypotheses, the
    outcome of the spec's two scenarios (a ready builder, a builder that
    never prints the marker) and of the behaviours the spec does not
    describe.  The hosts at the end are only the concrete inputs of the
    witnesses. *)

From Stdlib Require Import Ascii String ZArith.
From stdpp Require Import base list gmap strings.
From S2P Require Import Prelude PyText Process.

(** ** The program *)

Definition marker : bytes := "fuse_init: activating writeback"%string.

(** [timeout=5 * 60], [sleep(5 * 60)] and [timeout=60] *)
Definition drain_timeout : nat := 5 * 60.
Definition copier_grace : nat := 5 * 60.
Definition reap_timeout : nat := 60.

(** Lines 21-32: [while line: if marker in line: cp_p = Popen(...); break;
    line = await main_p.stderr.readline()]. *)
Fixpoint scan_for_marker (fuel : nat) (main_p : nat) (line : bytes)
  : PyM World (option nat) :=
  match fuel with
  | O => hang
  | S fuel' =>
      if bytes_is_empty line then ret None
      else if bytes_contains marker line then
        cp_p <- popen_copier ;;
        ret (Some cp_p)
      else
        line' <- stderr_readline main_p ;;
        scan_for_marker fuel' main_p line'
  end.

(** Lines 34-39: [while True: line = await asyncio.wait_for(
    main_p.stderr.readline(), timeout=5 * 60); if not line: break]. *)
Fixpoint drain (fuel : nat) (main_p : nat) : PyM World unit :=
  match fuel with
  | O => hang
  | S fuel' =>
      line <- stderr_readline_within main_p drain_timeout ;;
      if bytes_is_empty line then ret tt else drain fuel' main_p
  end.

(** Lines 44-57: returns [(force_unmount, cp_p_retcode)]. *)
Definition stop_copier (cp_p : option nat) : PyM World (bool * option Z) :=
  match cp_p with
  | None => ret (false, None)
  | Some cp =>
      rc <- poll cp ;;
      (match rc with None => sleep copier_grace | Some _ => ret tt end) ;;
      rc' <- poll cp ;;
      force_unmount <-
        (match rc' with
         | None =>
             try_except (kill cp ;; ret true)
                        (catching ProcessLookupError (ret false))
         | Some _ => ret false
         end) ;;
      cp_p_retcode <- poll cp ;;
      ret (force_unmount, cp_p_retcode)
  end.

(** Lines 58-66: returns the new [force_unmount]. *)
Definition reap_builder (main_p : nat) (force_unmount : bool) : PyM World bool :=
  suppress TimeoutError (communicate_within main_p reap_timeout) ;;
  rc <- poll main_p ;;
  match rc with
  | None =>
      try_except (kill main_p ;; ret true)
                 (catching ProcessLookupError (ret force_unmount))
  | Some _ => ret force_unmount
  end.

(** [returncode != 0] is [negb (status_is_zero returncode)]; [None != 0]. *)
Definition status_is_zero (rc : option Z) : bool :=
  match rc with Some 0%Z => true | _ => false end.

(** Lines 42-75: the [finally] block. *)
Definition shutdown (main_p : nat) (cp_p : option nat) : PyM World unit :=
  r <- stop_copier cp_p ;;
  let '(force_unmount, cp_p_retcode) := r in
  force_unmount' <- reap_builder main_p force_unmount ;;
  main_rc <- poll main_p ;;
  if force_unmount' || negb (status_is_zero main_rc)
     || negb (status_is_zero cp_p_retcode)
  then run_unmount
  else ret tt.

(** Lines 76-80: [not failed and await main_p.wait() == 0 and
    (cp_p is not None and cp_p.wait() == 0)], evaluated left to right with
    short circuits. *)
Definition attempt_result (failed : bool) (main_p : nat) (cp_p : option nat)
  : PyM World bool :=
  if failed then ret false
  else
    rc <- wait main_p ;;
    if Z.eqb rc 0 then
      match cp_p with
      | None => ret false
      | Some cp => rc' <- wait cp ;; ret (Z.eqb rc' 0)
      end
    else ret false.

(** Lines 33-80, once the scan has returned [cp_p]: the drain under its
    [try], the [finally] block and the return expression. *)
Definition finish_attempt (fuel : nat) (main_p : nat) (cp_p : option nat)
  : PyM World bool :=
  failed <-
    try_finally
      (try_except (drain fuel main_p ;; ret false)
                  (catching TimeoutError (ret true)))
      (shutdown main_p cp_p) ;;
  attempt_result failed main_p cp_p.

(** Lines 19-80, once the builder runs as [main_p], with the loops
    bounded by [fuel]. *)
Definition supervise (fuel : nat) (main_p : nat) : PyM World bool :=
  line <- stderr_readline main_p ;;
  cp_p <- scan_for_marker fuel main_p line ;;
  finish_attempt fuel main_p cp_p.

(** Lines 11-80 with the loops bounded by [fuel]. *)
Definition make_disk_image_fuel (fuel : nat) (env : Env) : PyM World bool :=
  main_p <- spawn_builder env ;;
  supervise fuel main_p.

(** One more iteration than the builder that is about to be spawned has
    stderr lines: enough for both loops ([make_disk_image_fuel_enough]). *)
Definition attempt_fuel (w : World) : nat :=
  S (length (bs_err (sys_builder (w_sys w) (w_nbuilder w)))).

Definition _make_disk_image (env : Env) : PyM World bool :=
  fun w => make_disk_image_fuel (attempt_fuel w) env w.

(** ** What an observer sees of an attempt
    The forced-unmount rule of lines 67-70, stated on the events of the
    attempt and the final statuses: a kill happened, the builder's status
    is not [0], or the populator was not spawned or its status is not
    [0]. *)
Definition forced_unmount_due (evs : list event) (w : World) (m : nat) : bool :=
  existsb is_kill evs || negb (status_is_zero (status w m)) ||
  match copier_of evs with
  | None => true
  | Some cp => negb (status_is_zero (status w cp))
  end.

(** ** Loops: fuel adequacy *)

(** The iterations the scan still needs: one to see [b''], or one per
    pending line, one to read [b''] and one to see it. *)
Definition scan_need (line : bytes) (p : Proc) : nat :=
  if bytes_is_empty line then 1 else length (p_err p) + 2.

(** A stderr line the scan reads past: within [asyncio]'s stream limit
    and without the marker. *)
Definition quiet_line (l : nat * bytes) : bool :=
  Nat.leb (String.length l.2) stream_limit &&
  negb (bytes_contains marker (line_bytes l.2)).

(** The stream after time [prev]: each line comes in order, at most [g]
    seconds after the one before and within the stream limit, and the end
    of file at most [g] seconds after the last line. *)
Fixpoint steady (g prev : nat) (L : list (nat * bytes)) (eof : nat) : bool :=
  match L with
  | [] => Nat.leb prev eof && Nat.leb eof (prev + g)
  | (d, l) :: L' =>
      Nat.leb prev d && Nat.leb d (prev + g) &&
      Nat.leb (String.length l) stream_limit && steady g d L' eof
  end.

(** The builder [b] becomes ready and [cp.sh] ([c]) does its work in
    time: the builder prints lines within the limit and without the
    marker up to time [a], the marker line at [a], then a [steady]
    stream that ends at [e]; it exits with [0] within the 60 s of
    [communicate] after [e]; [cp.sh] exits with [0] within the grace
    period. *)
Definition ready_scripts (b : BuilderScript) (c : CopierScript) : Prop :=
  bs_spawns b = true /\ bs_code b = 0%Z /\ cs_spawns c = true /\ cs_code c = 0%Z /\
  exists pre a t post e x cx,
    bs_err b = pre ++ (a, t) :: post /\
    Forall (fun l => quiet_line l = true /\ l.1 <= a) pre /\
    String.length t <= stream_limit /\ bytes_contains marker (line_bytes t) = true /\
    steady drain_timeout a post e = true /\ bs_eof b = Some e /\
    bs_exit b = Some x /\ x <= e + reap_timeout /\
    cs_exit c = Some cx /\ cx <= copier_grace.

(** A host where every spawn of a script behaves the same, from an empty
    process table at time 0. *)
Definition one_shot (b : BuilderScript) (c : CopierScript) : System :=
  mkSystem ∅ [] true (fun _ => b) (fun _ => c)
           (fun _ => mkUnmountScript true (Some 1)).

Definition start (sys : System) : World := mkWorld sys 0 0 0 0 ∅ 0 [].

(** The builder prints three lines, the marker, ten more lines, closes
    stderr at 20 s and exits with status 0 at 21 s. *)
Definition ready_builder : BuilderScript :=
  mkBuilderScript true
    (app [(1, "mkfs"%string); (2, "mount"%string);
          (3, "fuse_init: starting"%string);
          (4, "fuse_init: activating writeback"%string)]
         (map (fun k => (5 + k, "copying"%string)) (seq 0 10)))
    (Some 20) (Some 21) 0%Z.

(** The populator exits with status 0 one second after it starts. *)
Definition quick_copier : CopierScript := mkCopierScript true (Some 1) 0%Z.

(** The builder never prints the marker; it closes stderr at 10 s and
    exits with status 0 at 11 s. *)
Definition unready_builder : BuilderScript :=
  mkBuilderScript true [(1, "mkfs"%string); (2, "mount failed"%string)]
    (Some 10) (Some 11) 0%Z.

(** The builder never prints the marker and never closes stderr. *)
Definition stuck_builder : BuilderScript :=
  mkBuilderScript true [(1, "mkfs"%string)] None None 0%Z.

(** [cp.sh] cannot be spawned. *)
Definition missing_copier : CopierScript := mkCopierScript false None 0%Z.

(** The populator exits with status 0 17 s after its start. *)
Definition late_copier : CopierScript := mkCopierScript true (Some 17) 0%Z.

(** At 20 s, the populator spawned at 4 s (pid 1) is still running. *)
Definition grace_world : World :=
  mkWorld (one_shot ready_builder late_copier) 20 1 1 0
          {[1 := copier_proc 4 late_copier]} 2 [].

(** What the scan logs, whatever it returns: the lines [ls] it reads, in
    order, then possibly the spawn of [cp.sh]; every line it examined
    before the last ([line], then [ls]) has no marker, and when [cp.sh]
    was spawned the last one has it. *)
Definition scan_log (m : nat) (line : bytes) (w w' : World) : Prop :=
  exists ls C, w_log w' = w_log w ++ (EvReadLine m <$> ls) ++ C /\
    (bytes_is_empty line = true -> ls = [] /\ C = []) /\
    Forall (fun l => bytes_contains marker l = false) (removelast (line :: ls)) /\
    (C = [] \/ exists cp l, C = [EvSpawnCopier cp] /\ last (line :: ls) = Some l /\
                            bytes_contains marker l = true).

(** [n] copies of the byte [c]. *)
Fixpoint bytes_repeat (n : nat) (c : Ascii.ascii) : bytes :=
  match n with O => EmptyString | S n' => String c (bytes_repeat n' c) end.

(** The builder prints one line, then a line one byte longer than the
    stream limit of [asyncio] before the marker; it would close stderr at
    10 s and exit with [0] at 11 s. *)
Definition long_line_builder : BuilderScript :=
  mkBuilderScript true
    [(1, "mkfs"%string); (2, bytes_repeat (S stream_limit) "x"%char)]
    (Some 10) (Some 11) 0%Z.

Definition unready_run : World * result bool :=
  _make_disk_image ∅ (start (one_shot unready_builder quick_copier)).

Definition ready_run : World * result bool :=
  _make_disk_image ∅ (start (one_shot ready_builder quick_copier)).

(** The lookup of a process after the updates of one read. *)
Lemma lookup_take_line_world pid (q : Proc) a w :
  w_procs (set_proc pid q (advance_to a w)) !! pid = Some q.
Proof. unfold set_proc. simpl. apply lookup_insert_eq. Qed.

Lemma scan_for_marker_fuel n m pid line w p :
  w_procs w !! pid = Some p -> scan_need line p <= n -> n <= m ->
  scan_for_marker n pid line w = scan_for_marker m pid line w.
Proof.
  unfold scan_need.
  induction n as [|n IH] in m, line, w, p |- *; intros Hp Hn Hm;
    [destruct (bytes_is_empty line); lia|].
  destruct m as [|m]; [lia|]. simpl.
  destruct (bytes_is_empty line) eqn:Hl; [done|].
  destruct (bytes_contains marker line); [done|].
  unfold bind, stderr_readline, with_proc. rewrite Hp.
  destruct (p_err p) as [|[a text] rest] eqn:He; simpl in Hn.
  - destruct (p_eof p); [|done]. eapply IH; [exact Hp | simpl; lia | lia].
  - unfold take_line. simpl.
    destruct (stream_limit <? String.length text); [done|].
    eapply IH; [apply lookup_take_line_world | | lia].
    rewrite line_bytes_nonempty. simpl. lia.
Qed.

Lemma drain_fuel n m pid w p :
  w_procs w !! pid = Some p -> length (p_err p) < n -> n <= m ->
  drain n pid w = drain m pid w.
Proof.
  induction n as [|n IH] in m, w, p |- *; intros Hp Hn Hm; [lia|].
  destruct m as [|m]; [lia|]. simpl.
  unfold bind, stderr_readline_within, with_proc. rewrite Hp.
  destruct (p_err p) as [|[a text] rest] eqn:He; simpl in Hn.
  - destruct (p_eof p); [destruct (_ <=? _)|]; reflexivity.
  - destruct (a <=? w_clock w + drain_timeout); [|done].
    unfold take_line. simpl.
    destruct (stream_limit <? String.length text); [done|].
    rewrite line_bytes_nonempty.
    eapply IH; [apply lookup_take_line_world | simpl; lia | lia].
Qed.

(** ** Every part of the attempt keeps the world invariants *)
Section Stability.
Context (R : World -> World -> Prop) `{!PreOrder R} (HB : base_stable R)
        (HP : stable R popen_copier).
#[local] Hint Resolve ps_readline
  ps_readline_within ps_communicate ps_poll ps_kill ps_wait ps_sleep
  ps_unmount : pyexec.
#[local] Hint Resolve HP : pyexec.

Lemma scan_for_marker_stable n pid line : stable R (scan_for_marker n pid line).
Proof. induction n in line |- *; simpl; stable_auto. Qed.

Lemma drain_stable n pid : stable R (drain n pid).
Proof. induction n; simpl; stable_auto. Qed.

#[local] Hint Resolve scan_for_marker_stable drain_stable : pyexec.

Lemma stop_copier_stable cp_p : stable R (stop_copier cp_p).
Proof. unfold stop_copier. stable_auto. Qed.

Lemma reap_builder_stable pid fu : stable R (reap_builder pid fu).
Proof. unfold reap_builder. stable_auto. Qed.

#[local] Hint Resolve stop_copier_stable reap_builder_stable : pyexec.

Lemma shutdown_stable pid cp_p : stable R (shutdown pid cp_p).
Proof. unfold shutdown. stable_auto. Qed.

Lemma attempt_result_stable failed pid cp_p :
  stable R (attempt_result failed pid cp_p).
Proof. unfold attempt_result. stable_auto. Qed.

#[local] Hint Resolve shutdown_stable attempt_result_stable : pyexec.

Lemma finish_attempt_stable n m cp_p : stable R (finish_attempt n m cp_p).
Proof. unfold finish_attempt. stable_auto. Qed.

#[local] Hint Resolve finish_attempt_stable : pyexec.

Lemma supervise_stable n m : stable R (supervise n m).
Proof. unfold supervise. stable_auto. Qed.

#[local] Hint Resolve supervise_stable : pyexec.

Lemma make_disk_image_fuel_stable n env :
  (forall env, stable R (spawn_builder env)) -> stable R (make_disk_image_fuel n env).
Proof. intros Hs. unfold make_disk_image_fuel. stable_auto. Qed.
End Stability.


(** A process that [persists] across a run keeps at most the stderr it
    had. *)
Lemma persists_err_length {A} (m : PyM World A) w pid p :
  stable persists m -> wf_world w -> w_procs w !! pid = Some p ->
  exists p', w_procs (fst (m w)) !! pid = Some p' /\
             length (p_err p') <= length (p_err p).
Proof.
  intros Hm Hwf Hp. destruct (Hm w Hwf) as [_ Hk].
  destruct (Hk _ _ Hp) as (p' & Hp' & Hs & _).
  exists p'. split; [done|]. by apply suffix_length.
Qed.

(** C6 The two loops of [_make_disk_image] never run out of fuel: from a
    well-formed world, running the attempt with any fuel at least
    [attempt_fuel] gives the same outcome and the same final world, so
    [_make_disk_image] is the attempt with unbounded [while] loops. *)
Theorem make_disk_image_fuel_enough n env w :
  wf_world w -> attempt_fuel w <= n ->
  make_disk_image_fuel n env w = _make_disk_image env w.
Proof.
  intros Hwf Hn. unfold _make_disk_image, make_disk_image_fuel, supervise, finish_attempt.
  set (N := attempt_fuel w) in *.
  unfold bind.
  destruct (spawn_builder env w) as [w1 [pid| |]] eqn:Hs; [|done|done].
  pose proof (ps_spawn_builder _ persists_prims env w Hwf) as Hp1.
  rewrite Hs in Hp1. destruct Hp1 as [Hwf1 _].
  apply spawn_builder_Ok in Hs as (_ & Hb & _ & _).
  set (b := sys_builder (w_sys w) (w_nbuilder w)) in *.
  assert (Hlen : length (p_err (builder_proc (w_clock w) b)) < N)
    by (subst N b; simpl; rewrite length_map; unfold attempt_fuel; lia).
  clearbody N b.
  destruct (stderr_readline pid w1) as [w2 [line| |]] eqn:Hr; [|done|done].
  pose proof (ps_readline _ persists_prims pid w1 Hwf1) as Hp2.
  rewrite Hr in Hp2. destruct Hp2 as [Hwf2 _].
  destruct (stderr_readline_Ok _ _ _ _ _ Hb Hr)
    as (p2 & Hb2 & _ & _ & _ & _ & _ & _ & [(-> & -> & _) | (a & text & He & -> & _)]).
  - rewrite <- (scan_for_marker_fuel N n pid _ w2 _ Hb2); [| unfold scan_need; simpl; lia | done].
    destruct (scan_for_marker N pid _ w2) as [w3 [cp_p| |]] eqn:Hsc; [|done|done].
    destruct (persists_err_length _ _ _ _
                (scan_for_marker_stable _ persists_prims (ps_popen_copier _ persists_prims) N pid EmptyString)
                Hwf2 Hb2) as (p3 & Hb3 & Hl3).
    cbn [fst] in Hb3. rewrite Hsc in Hb3. cbn [fst] in Hb3.
    cbv [try_finally try_except].
    rewrite <- (drain_fuel N n pid w3 p3); [reflexivity | done | lia | done].
  - assert (Hl2 : length (p_err (builder_proc (w_clock w) b)) = S (length (p_err p2)))
      by (rewrite He; reflexivity).
    rewrite <- (scan_for_marker_fuel N n pid _ w2 _ Hb2);
      [| unfold scan_need; rewrite line_bytes_nonempty; lia | done].
    destruct (scan_for_marker N pid _ w2) as [w3 [cp_p| |]] eqn:Hsc; [|done|done].
    destruct (persists_err_length _ _ _ _
                (scan_for_marker_stable _ persists_prims (ps_popen_copier _ persists_prims) N pid (line_bytes text))
                Hwf2 Hb2) as (p3 & Hb3 & Hl3).
    cbn [fst] in Hb3. rewrite Hsc in Hb3. cbn [fst] in Hb3.
    cbv [try_finally try_except].
    rewrite <- (drain_fuel N n pid w3 p3); [reflexivity | done | lia | done].
Qed.

(** ** Scenarios of the spec, section 8 *)

Lemma make_disk_image_fuel_enough_witness :
  wf_world (start (one_shot ready_builder quick_copier)) /\
  make_disk_image_fuel 100 ∅ (start (one_shot ready_builder quick_copier)) =
  _make_disk_image ∅ (start (one_shot ready_builder quick_copier)).
Proof.
  split; [apply (bool_decide_unpack _); vm_compute; exact I|].
  apply make_disk_image_fuel_enough;
    [apply (bool_decide_unpack _); vm_compute; exact I | vm_compute; lia].
Defined.

(** ** The [finally] block *)

(** Lines 44-57 in closed form: [cp.sh] ends exited, either by itself
    (within the grace period) or killed ([k]); only its entry changes. *)
Lemma stop_copier_spec w cp pc :
  w_procs w !! cp = Some pc ->
  exists pc' (k : bool) w',
    stop_copier (Some cp) w = (w', Ok (k, Some (p_code pc'))) /\
    w_procs w' = <[cp := pc']> (w_procs w) /\ exited_by (w_clock w') pc' /\
    w_log w' = w_log w ++ (if k then [EvKill cp] else []) /\
    (if k then p_code pc' = (-9)%Z else pc' = pc) /\
    w_clock w <= w_clock w' /\ same_host w w'.
Proof.
  intros Hpc. unfold stop_copier, bind, poll, with_proc. rewrite Hpc.
  destruct (returncode_at (w_clock w) pc) as [c|] eqn:H1; simpl.
  - rewrite Hpc, H1. simpl. rewrite Hpc, H1.
    exists pc, false, w. rewrite insert_id by done.
    rewrite (returncode_at_Some _ _ _ H1). split_and!; try done.
    + by eapply returncode_at_exited.
    + by rewrite app_nil_r.
  - rewrite Hpc. simpl.
    destruct (returncode_at (w_clock w + copier_grace) pc) as [c|] eqn:H2; simpl.
    + rewrite Hpc, H2. exists pc, false, (set_clock (w_clock w + copier_grace) w).
      rewrite insert_id by done. rewrite (returncode_at_Some _ _ _ H2).
      split_and!; try done; simpl.
      * by eapply returncode_at_exited.
      * by rewrite app_nil_r.
      * lia.
    + unfold try_except, kill, with_proc. simpl. rewrite Hpc, H2. simpl.
      rewrite lookup_insert_eq. simpl.
      exists (killed (w_clock w + copier_grace) pc), true.
      eexists. split; [by rewrite returncode_at_killed|]. unfold_world.
      split_and!; try done; [| lia].
      unfold exited_by. apply returncode_at_killed.
Qed.

(** Lines 58-66 in closed form: the builder ends exited, by itself or
    killed ([k]), and [force_unmount] becomes [fu || k]. *)
Lemma reap_builder_spec w m pm fu :
  w_procs w !! m = Some pm ->
  exists pm' (k : bool) w',
    reap_builder m fu w = (w', Ok (fu || k)) /\
    w_procs w' = <[m := pm']> (w_procs w) /\ exited_by (w_clock w') pm' /\
    w_log w' = w_log w ++ (if k then [EvKill m] else []) /\
    (if k then p_code pm' = (-9)%Z
     else p_exit pm' = p_exit pm /\ p_code pm' = p_code pm) /\
    w_clock w <= w_clock w' /\ same_host w w'.
Proof.
  intros Hpm. unfold reap_builder.
  destruct (communicate_suppressed_spec w m pm reap_timeout Hpm)
    as (pm1 & w1 & Hc & Hp1 & He1 & Hc1 & Hl1 & Ht1 & Hh1).
  unfold bind at 1. rewrite Hc.
  assert (Hm1 : w_procs w1 !! m = Some pm1) by (rewrite Hp1; apply lookup_insert_eq).
  unfold bind, poll, with_proc. rewrite Hm1.
  destruct (returncode_at (w_clock w1) pm1) as [c|] eqn:Hr; simpl.
  - exists pm1, false, w1. rewrite orb_false_r, Hp1, Hl1, app_nil_r.
    split_and!; try done. by eapply returncode_at_exited.
  - unfold try_except, kill, with_proc. rewrite Hm1, Hr. simpl.
    exists (killed (w_clock w1) pm1), true.
    eexists. rewrite orb_true_r. split; [reflexivity|]. unfold_world.
    rewrite Hp1, insert_insert_eq, Hl1. split_and!; try done;
      first [ apply returncode_at_killed | lia
            | destruct Hh1 as (? & ? & ? & ? & ?); by split_and! ].
Qed.

(** [stop_copier] with or without a populator. *)
Lemma stop_copier_total w m cp_p :
  match cp_p with Some cp => cp <> m /\ is_Some (w_procs w !! cp) | None => True end ->
  exists k1 rc w1,
    stop_copier cp_p w = (w1, Ok (k1, rc)) /\
    w_log w1 = w_log w ++ (match cp_p with
                           | Some cp => if k1 then [EvKill cp] else []
                           | None => [] end) /\
    (forall pid, cp_p <> Some pid -> w_procs w1 !! pid = w_procs w !! pid) /\
    match cp_p with
    | None => rc = None /\ k1 = false
    | Some cp => exists pc', w_procs w1 !! cp = Some pc' /\
                 exited_by (w_clock w1) pc' /\ rc = Some (p_code pc') /\
                 (k1 = true -> p_code pc' = (-9)%Z)
    end /\
    w_clock w <= w_clock w1 /\ same_host w w1.
Proof.
  destruct cp_p as [cp|].
  - intros [Hne [pc Hpc]].
    destruct (stop_copier_spec w cp pc Hpc)
      as (pc' & k & w1 & Hs & Hp1 & Hx1 & Hl1 & Hk & Ht1 & Hh1).
    exists k, (Some (p_code pc')), w1. split_and!; try done.
    + intros pid Hpid. rewrite Hp1, lookup_insert_ne; [done|]. congruence.
    + exists pc'. rewrite Hp1, lookup_insert_eq. split_and!; try done.
      intros ->. done.
  - intros _. exists false, None, w.
    split_and!; try done; first [by rewrite app_nil_r | reflexivity].
Qed.

(** Lines 42-75: the [finally] block leaves both processes exited, logs
    the kills it made and then, exactly when a kill happened or a status
    is not [0] (or there is no populator), runs [unmount.sh]; it only
    fails when [unmount.sh] cannot be spawned or never returns. *)
Lemma shutdown_spec w m pm cp_p :
  w_procs w !! m = Some pm ->
  match cp_p with Some cp => cp <> m /\ is_Some (w_procs w !! cp) | None => True end ->
  let '(w', r) := shutdown m cp_p w in
  exists kills (u : bool),
    w_log w' = w_log w ++ kills ++ (if u then [EvUnmount] else []) /\
    Forall (fun ev => exists pid, ev = EvKill pid /\ (pid = m \/ cp_p = Some pid) /\
                        status w' pid = Some (-9)%Z) kills /\
    (exists c, status w' m = Some c) /\
    (forall cp, cp_p = Some cp -> exists c, status w' cp = Some c) /\
    (let D := existsb is_kill kills || negb (status_is_zero (status w' m)) ||
              match cp_p with
              | None => true
              | Some cp => negb (status_is_zero (status w' cp))
              end in
     (r = Ok tt /\ u = D) \/
     (D = true /\
      ((r = Exc OSError /\ u = false /\
        us_spawns (sys_unmount (w_sys w) (w_nunmount w)) = false) \/
       (r = Hang /\ u = true /\
        us_duration (sys_unmount (w_sys w) (w_nunmount w)) = None)))) /\
    w_clock w <= w_clock w' /\ w_sys w' = w_sys w /\
    w_next_pid w' = w_next_pid w /\
    (forall pid, pid <> m -> cp_p <> Some pid -> w_procs w' !! pid = w_procs w !! pid).
Proof.
  intros Hm Hcp.
  destruct (stop_copier_total w m cp_p Hcp)
    as (k1 & rc & w1 & Hs & Hl1 & Hp1 & Hrc & Ht1 & Hh1).
  assert (Hm1 : w_procs w1 !! m = Some pm).
  { rewrite Hp1; [done|]. destruct cp_p; [|done]. destruct Hcp. congruence. }
  destruct (reap_builder_spec w1 m pm k1 Hm1)
    as (pm' & k2 & w2 & Hr & Hp2 & Hx2 & Hl2 & Hk2 & Ht2 & Hh2).
  assert (Hm2 : w_procs w2 !! m = Some pm') by (rewrite Hp2; apply lookup_insert_eq).
  unfold shutdown. rewrite (bind_Ok _ _ _ _ _ Hs). cbv beta iota.
  rewrite (bind_Ok _ _ _ _ _ Hr).
  rewrite (bind_Ok _ _ _ _ _ (poll_spec _ _ _ Hm2)). rewrite Hx2.
  set (kills := match cp_p with
                | Some cp => if k1 then [EvKill cp] else []
                | None => [] end ++ (if k2 then [EvKill m] else [])).
  assert (Hst : forall w', w_procs w' = w_procs w2 -> w_clock w2 <= w_clock w' ->
            status w' m = Some (p_code pm') /\
            (forall cp, cp_p = Some cp -> status w' cp = rc) /\
            Forall (fun ev => exists pid, ev = EvKill pid /\ (pid = m \/ cp_p = Some pid) /\
                        status w' pid = Some (-9)%Z)
                   kills).
  { intros w' Hp' Ht'.
    assert (Hsm : status w' m = Some (p_code pm'))
      by (apply (status_exited _ _ pm'); [by rewrite Hp' | by eapply exited_by_mono]).
    assert (Hsc : forall cp, cp_p = Some cp -> status w' cp = rc).
    { intros cp ->. destruct Hcp as [Hne _].
      destruct Hrc as (pc' & Hpc' & Hxc & -> & _).
      apply (status_exited _ _ pc').
      - rewrite Hp', Hp2, lookup_insert_ne; [done | congruence].
      - eapply exited_by_mono; [done | lia]. }
    split_and!; [done | done |].
    subst kills. apply Forall_app. split.
    - destruct cp_p as [cp|]; [|done]. destruct k1; [|done].
      destruct Hrc as (pc' & _ & _ & Hrc & Hk1).
      constructor; [|done]. exists cp. rewrite (Hsc cp eq_refl), Hrc.
      split_and!; [done | by right | by rewrite Hk1].
    - destruct k2; [|done]. constructor; [|done]. exists m.
      split_and!; [done | by left | by rewrite Hsm, Hk2]. }
  assert (Hkills : existsb is_kill kills = k1 || k2).
  { subst kills. destruct cp_p;
      [destruct k1, k2; reflexivity | destruct Hrc as [_ ->]; by destruct k2]. }
  destruct (k1 || k2 || negb (status_is_zero (Some (p_code pm')))
            || negb (status_is_zero rc)) eqn:HD.
  - pose proof (run_unmount_spec w2) as Hu.
    destruct (run_unmount w2) as [w3 r3].
    destruct Hu as (Hp3 & Ht3 & Hsys3 & Hn3 & Hcase).
    destruct (Hst w3 Hp3 Ht3) as (Hsm & Hsc & Hk).
    assert (HD' : existsb is_kill kills || negb (status_is_zero (status w3 m)) ||
                  match cp_p with
                  | None => true
                  | Some cp => negb (status_is_zero (status w3 cp))
                  end = true).
    { rewrite Hkills, Hsm. destruct cp_p;
        [rewrite (Hsc _ eq_refl); exact HD | by rewrite orb_true_r]. }
    assert (Hcps : forall cp, cp_p = Some cp -> exists c, status w3 cp = Some c).
    { intros cp Hc. rewrite (Hsc _ Hc). subst cp_p.
      destruct Hrc as (pc' & _ & _ & -> & _). by eexists. }
    assert (Hfr : forall pid, pid <> m -> cp_p <> Some pid ->
              w_procs w3 !! pid = w_procs w !! pid).
    { intros pid Hpid Hcpid. rewrite Hp3, Hp2, lookup_insert_ne by done. by apply Hp1. }
    assert (Hu2 : sys_unmount (w_sys w2) (w_nunmount w2) = sys_unmount (w_sys w) (w_nunmount w))
      by (destruct Hh1 as (? & _ & _ & ? & _), Hh2 as (? & _ & _ & ? & _); congruence).
    destruct Hh1 as (Hs1 & _ & _ & _ & Hn1). destruct Hh2 as (Hs2 & _ & _ & _ & Hn2).
    assert (Hlog : forall u : bool, w_log w3 = w_log w2 ++ (if u then [EvUnmount] else []) ->
              w_log w3 = w_log w ++ kills ++ (if u then [EvUnmount] else [])).
    { intros u Hl3. rewrite Hl3, Hl2, Hl1. subst kills.
      destruct cp_p; simpl; by rewrite <- !app_assoc. }
    rewrite Hu2 in Hcase.
    destruct Hcase as [(_ & _ & -> & Hl3) | [(Hus & -> & Hl3) | (_ & Hud & -> & Hl3)]].
    + exists kills, true. split_and!; [by apply (Hlog true) | done | by eexists | done | | lia
                                      | congruence | congruence | done].
      left. by rewrite HD'.
    + exists kills, false. split_and!; [apply (Hlog false); by rewrite app_nil_r | done | by eexists
                                       | done | | lia | congruence | congruence | done].
      right. split; [done | by left].
    + exists kills, true. split_and!; [by apply (Hlog true) | done | by eexists | done | | lia
                                      | congruence | congruence | done].
      right. split; [done | by right].
  - destruct (Hst w2 eq_refl (le_n _)) as (Hsm & Hsc & Hk).
    exists kills, false.
    destruct Hh1 as (Hs1 & _ & _ & _ & Hn1). destruct Hh2 as (Hs2 & _ & _ & _ & Hn2).
    split_and!; [| done | by eexists | | | lia | congruence | congruence |].
    + rewrite Hl2, Hl1. subst kills. destruct cp_p; simpl;
        by rewrite <- !app_assoc, ?app_nil_r.
    + intros cp Hc. rewrite (Hsc _ Hc). subst cp_p.
      destruct Hrc as (pc' & _ & _ & -> & _). by eexists.
    + left. split; [done|].
      rewrite Hkills, Hsm. destruct cp_p; [by rewrite (Hsc _ eq_refl), HD|].
      destruct Hrc as [-> _]. by rewrite orb_true_r in HD.
    + intros pid Hpid Hcpid. rewrite Hp2, lookup_insert_ne by done. by apply Hp1.
Qed.

(** ** The phases before the [finally] block *)

Lemma drain_reads_only n m : stable (reads_only m) (drain n m).
Proof. induction n; simpl; stable_auto. Qed.

Lemma scan_log_same m line w w' : w_log w' = w_log w -> scan_log m line w w'.
Proof.
  intros Hl. exists [], []. rewrite !app_nil_r. split_and!; [done | done | constructor | by left].
Qed.

Lemma scan_for_marker_log n m line w w' r :
  scan_for_marker n m line w = (w', r) -> scan_log m line w w'.
Proof.
  induction n as [|n IH] in line, w |- *; simpl.
  { cbv [hang]. intros [= <- _]. by apply scan_log_same. }
  destruct (bytes_is_empty line) eqn:Hl; [cbv [ret]; intros [= <- _]; by apply scan_log_same|].
  destruct (bytes_contains marker line) eqn:Hm.
  { unfold bind. destruct (popen_copier w) as [w1 r1] eqn:Hp.
    pose proof (popen_copier_log _ _ _ Hp) as Hpl.
    destruct r1 as [cp| |]; cbv [ret]; intros [= <- _]; [|by apply scan_log_same ..].
    exists [], [EvSpawnCopier cp].
    split_and!; [by rewrite Hpl | congruence | constructor | right; by eexists _, _]. }
  unfold bind at 1. destruct (stderr_readline m w) as [w1 r1] eqn:Hr.
  pose proof (stderr_readline_log _ _ _ _ Hr) as Hlog.
  destruct r1 as [l| |]; [| intros [= <- _]; by apply scan_log_same ..].
  intros Hs. destruct Hlog as [[He Hl1] | [He Hl1]].
  - assert (w' = w1) as ->.
    { destruct n; simpl in Hs; [|rewrite He in Hs]; cbv [hang ret] in Hs; by injection Hs. }
    exists [], []. rewrite Hl1, !app_nil_r. split_and!; [done | done | constructor | by left].
  - destruct (IH _ _ Hs) as (ls & C & Hlog' & _ & Hf & HC).
    exists (l :: ls), C. split_and!.
    + rewrite Hlog', Hl1. simpl. by rewrite <- app_assoc.
    + congruence.
    + simpl. constructor; [done | exact Hf].
    + destruct HC as [-> | (cp & l' & -> & Hlast & Hml)]; [by left | right].
      exists cp, l'. split_and!; [done | by rewrite last_cons_cons | done].
Qed.

(** The scan reads lines of the builder, then spawns [cp.sh] when it has
    found the marker. *)
Lemma scan_for_marker_Ok n m line w w' cp_p :
  scan_for_marker n m line w = (w', Ok cp_p) ->
  exists w_mid, reads_only m w w_mid /\
    match cp_p with
    | None => w' = w_mid
    | Some cp => popen_copier w_mid = (w', Ok cp)
    end.
Proof.
  induction n as [|n IH] in line, w |- *; simpl; [done|].
  destruct (bytes_is_empty line).
  { intros [= <- <-]. by exists w. }
  destruct (bytes_contains marker line).
  { unfold bind. destruct (popen_copier w) as [w1 [cp| |]] eqn:Hp; try done.
    intros [= <- <-]. by exists w. }
  unfold bind at 1. pose proof (stderr_readline_reads_only m w) as Hr.
  destruct (stderr_readline m w) as [w1 [l| |]]; try done.
  intros Hs. destruct (IH _ _ Hs) as (w_mid & Hro & Hc).
  exists w_mid. split; [by etrans|done].
Qed.

Lemma status_is_zero_Some c : status_is_zero (Some c) = Z.eqb c 0.
Proof. by destruct c. Qed.

(** Lines 76-80 once both processes have exited: the result is the
    conjunction the code writes, on the final statuses. *)
Lemma attempt_result_exited failed m pm cp_p w :
  w_procs w !! m = Some pm -> exited_by (w_clock w) pm ->
  (forall cp, cp_p = Some cp ->
     exists pc, w_procs w !! cp = Some pc /\ exited_by (w_clock w) pc) ->
  attempt_result failed m cp_p w =
    (w, Ok (negb failed && status_is_zero (status w m) &&
            match cp_p with
            | Some cp => status_is_zero (status w cp)
            | None => false
            end)).
Proof.
  intros Hm Hx Hcp. unfold attempt_result.
  destruct failed; [done|]. simpl.
  rewrite (bind_Ok _ _ _ _ _ (wait_exited _ _ _ Hm Hx)).
  rewrite (status_exited _ _ _ Hm Hx), status_is_zero_Some.
  destruct (Z.eqb_spec (p_code pm) 0); simpl; [|done].
  destruct cp_p as [cp|]; [|done].
  destruct (Hcp cp eq_refl) as (pc & Hpc & Hxc).
  rewrite (bind_Ok _ _ _ _ _ (wait_exited _ _ _ Hpc Hxc)).
  by rewrite (status_exited _ _ _ Hpc Hxc), status_is_zero_Some.
Qed.

Lemma drain_body_reads_only n m :
  stable (reads_only m)
    (try_except (drain n m ;; ret false) (catching TimeoutError (ret true))).
Proof. stable_auto. all: apply drain_reads_only. Qed.

(** ** An attempt that returns
    The log of a returning attempt is: the spawn of the builder, reads and
    at most one spawn of [cp.sh] ([early]), the kills of the [finally]
    block, and possibly the unmount, which comes last; the unmount and the
    result are the code's expressions on the final statuses. *)
Lemma attempt_Ok_structure env w w' b :
  wf_world w -> _make_disk_image env w = (w', Ok b) ->
  exists m cp_p early kills (u failed : bool),
    w_log w' = w_log w ++ EvSpawnBuilder m env :: early ++ kills ++
                 (if u then [EvUnmount] else []) /\
    Forall (fun ev => is_early ev = true) early /\ copier_of early = cp_p /\
    Forall (fun ev => exists pid, ev = EvKill pid /\ (pid = m \/ cp_p = Some pid) /\
                        status w' pid = Some (-9)%Z) kills /\
    (exists c, status w' m = Some c) /\
    (forall cp, cp_p = Some cp -> cp <> m /\ exists c, status w' cp = Some c) /\
    u = existsb is_kill kills || negb (status_is_zero (status w' m)) ||
        match cp_p with
        | None => true
        | Some cp => negb (status_is_zero (status w' cp))
        end /\
    b = negb failed && status_is_zero (status w' m) &&
        match cp_p with Some cp => status_is_zero (status w' cp) | None => false end.
Proof.
  intros Hwf H. unfold _make_disk_image, make_disk_image_fuel, supervise, finish_attempt in H.
  set (N := attempt_fuel w) in H. clearbody N.
  apply bind_Ok_inv in H as (w1 & m & Hs & H).
  pose proof (ps_spawn_builder _ persists_prims env w Hwf) as Hp1.
  rewrite Hs in Hp1. destruct Hp1 as [Hwf1 _].
  apply spawn_builder_Ok in Hs as (Hm_eq & Hm1 & Hl1 & _).
  assert (Hmlt : m < w_next_pid w1) by (apply (Hwf1 m _ Hm1)).
  apply bind_Ok_inv in H as (w2 & line & Hr & H).
  pose proof (stderr_readline_reads_only m w1) as Hro2. rewrite Hr in Hro2.
  apply bind_Ok_inv in H as (w3 & cp_p & Hsc & H).
  destruct (scan_for_marker_Ok _ _ _ _ _ _ Hsc) as (wm & Hrom & Hcp).
  assert (Hro1m : reads_only m w1 wm) by (etrans; [exact Hro2 | exact Hrom]).
  assert (Hwfm : wf_world wm) by (by eapply reads_only_wf).
  destruct Hro1m as (Hhm & Htm & Hom & Hmm & reads1 & Fr1 & Lr1).
  destruct (Hmm _ Hm1) as (pmm & Hpmm & _).
  (* the world after the scan *)
  assert (Hw3 : exists reads2,
             Forall (fun ev => is_read ev = true) reads2 /\
             w_log w3 = w_log w1 ++ reads1 ++
                        match cp_p with Some cp => [EvSpawnCopier cp] | None => [] end /\
             w_procs w3 !! m = Some pmm /\ wf_world w3 /\
             match cp_p with
             | Some cp => cp <> m /\ is_Some (w_procs w3 !! cp)
             | None => True end /\ reads2 = []).
  { exists []. destruct cp_p as [cp|].
    - pose proof (ps_popen_copier _ persists_prims wm Hwfm) as Hp3.
      rewrite Hcp in Hp3. destruct Hp3 as [Hwf3 _].
      apply popen_copier_Ok in Hcp as (-> & Hp3 & Hl3 & _).
      assert (Hne : w_next_pid wm <> m).
      { destruct Hhm as (_ & _ & _ & _ & Hn). rewrite Hn. lia. }
      split_and!; try done.
      + by rewrite Hl3, Lr1, <- app_assoc.
      + by rewrite Hp3, lookup_insert_ne.
      + rewrite Hp3, lookup_insert_eq. by eexists.
    - subst w3. split_and!; try done. by rewrite Lr1, app_nil_r. }
  destruct Hw3 as (_ & _ & Hl3 & Hm3 & Hwf3 & Hcp3 & _).
  apply bind_Ok_inv in H as (w4 & failed & Hf & H).
  apply try_finally_Ok_inv in Hf as (w35 & Hbody & Hsh).
  pose proof (drain_body_reads_only N m w3) as Hro35.
  rewrite Hbody in Hro35. cbn [fst] in Hro35.
  destruct Hro35 as (_ & _ & Ho35 & Hm35 & reads3 & Fr3 & Lr3).
  destruct (Hm35 _ Hm3) as (pm35 & Hpm35 & _).
  assert (Hcp35 : match cp_p with
                  | Some cp => cp <> m /\ is_Some (w_procs w35 !! cp)
                  | None => True end).
  { destruct cp_p as [cp|]; [|done]. destruct Hcp3 as [Hne Hs3].
    split; [done|]. by rewrite Ho35. }
  pose proof (shutdown_spec w35 m pm35 cp_p Hpm35 Hcp35) as Hsd.
  rewrite Hsh in Hsd.
  destruct Hsd as (kills & u & Hl4 & Hk & [cm Hsm] & Hsc4 & HD & _).
  destruct HD as [[_ Hu] | [_ [[? _] | [? _]]]]; [|done|done].
  destruct (status_Some_exited _ _ _ Hsm) as (pm4 & Hpm4 & Hx4 & _).
  rewrite (attempt_result_exited failed m pm4 cp_p w4 Hpm4 Hx4) in H.
  2:{ intros cp ->. destruct (Hsc4 cp eq_refl) as [c Hc].
      destruct (status_Some_exited _ _ _ Hc) as (pc & ? & ? & _). by exists pc. }
  injection H as <- <-.
  exists m, cp_p, (reads1 ++ match cp_p with Some cp => [EvSpawnCopier cp] | None => [] end
                   ++ reads3), kills, u, failed.
  split_and!; try done.
  - rewrite Hl4, Lr3, Hl3, Hl1. by rewrite <- !app_assoc.
  - apply Forall_app. split; [by apply reads_early|].
    apply Forall_app. split; [destruct cp_p; by repeat constructor | by apply reads_early].
  - rewrite copier_of_reads by done. destruct cp_p as [cp|]; [done|].
    simpl. rewrite <- (app_nil_r reads3), copier_of_reads by done. done.
  - by eexists.
  - intros cp ->. destruct Hcp3 as [Hne _]. split; [done|]. by apply Hsc4.
Qed.

Lemma kills_is_kill (P : nat -> Prop) kills :
  Forall (fun ev => exists pid, ev = EvKill pid /\ P pid) kills ->
  Forall (fun ev => is_kill ev = true) kills.
Proof. intros H. eapply Forall_impl; [exact H|]. by intros ev (pid & -> & _). Qed.

(** The events after the builder's spawn of a returning attempt, and what
    the forced-unmount rule says of them. *)
Lemma attempt_Ok_due env w w' b :
  wf_world w -> _make_disk_image env w = (w', Ok b) ->
  exists m early kills (u : bool),
    w_log w' = w_log w ++ EvSpawnBuilder m env :: early ++ kills ++
                 (if u then [EvUnmount] else []) /\
    Forall (fun ev => is_early ev = true) early /\
    Forall (fun ev => is_kill ev = true) kills /\
    forced_unmount_due (early ++ kills ++ (if u then [EvUnmount] else [])) w' m = u.
Proof.
  intros Hwf H.
  destruct (attempt_Ok_structure _ _ _ _ Hwf H)
    as (m & cp_p & early & kills & u & failed & Hl & He & Hc & Hk & _ & _ & Hu & _).
  apply kills_is_kill in Hk.
  exists m, early, kills, u. split_and!; try done.
  unfold forced_unmount_due.
  rewrite !existsb_app, existsb_kill_early by done.
  rewrite !copier_of_app, Hc, copier_of_kills by done.
  replace (existsb is_kill (if u then [EvUnmount] else [])) with false by (by destruct u).
  replace (copier_of (if u then [EvUnmount] else [])) with (@None nat) by (by destruct u).
  rewrite Hu. destruct cp_p; simpl; by rewrite ?orb_false_r.
Qed.

(** C1 The mount is never left behind by a returning attempt: after the
    builder's spawn, its events end with exactly one run of [unmount.sh]
    when a process had to be killed, the builder's final status is not
    [0], or the populator was not spawned or did not exit with [0]; and
    [unmount.sh] is not run otherwise. *)
Theorem attempt_forced_unmount env w w' b :
  wf_world w -> _make_disk_image env w = (w', Ok b) ->
  exists m evs,
    w_log w' = w_log w ++ EvSpawnBuilder m env :: evs /\
    (forced_unmount_due evs w' m = true ->
       exists pre, evs = pre ++ [EvUnmount] /\ EvUnmount ∉ pre) /\
    (forced_unmount_due evs w' m = false -> EvUnmount ∉ evs).
Proof.
  intros Hwf H.
  destruct (attempt_Ok_due _ _ _ _ Hwf H) as (m & early & kills & u & Hl & He & Hk & Hd).
  exists m, (early ++ kills ++ (if u then [EvUnmount] else [])).
  rewrite Hd. split_and!; [done | |].
  - intros ->. exists (early ++ kills). rewrite <- app_assoc. split; [done|].
    rewrite elem_of_app. intros [Hin | Hin];
      [by apply (unmount_not_early early) | by apply (unmount_not_kill kills)].
  - intros ->. rewrite app_nil_r, elem_of_app. intros [Hin | Hin];
      [by apply (unmount_not_early early) | by apply (unmount_not_kill kills)].
Qed.

Lemma status_is_zero_true rc : status_is_zero rc = true -> rc = Some 0%Z.
Proof. by destruct rc as [[]|]. Qed.

(** C2 An attempt that returns [True] was clean: the populator was
    spawned, the builder and the populator both ended with status [0],
    nothing was killed and [unmount.sh] was not run. *)
Theorem attempt_success_clean env w w' :
  wf_world w -> _make_disk_image env w = (w', Ok true) ->
  exists m cp evs,
    w_log w' = w_log w ++ EvSpawnBuilder m env :: evs /\
    copier_of evs = Some cp /\ status w' m = Some 0%Z /\ status w' cp = Some 0%Z /\
    existsb is_kill evs = false /\ EvUnmount ∉ evs.
Proof.
  intros Hwf H.
  destruct (attempt_Ok_structure _ _ _ _ Hwf H)
    as (m & cp_p & early & kills & u & failed & Hl & He & Hc & Hk & _ & _ & Hu & Hb).
  destruct cp_p as [cp|]; [|by rewrite andb_false_r in Hb].
  symmetry in Hb. apply andb_true_iff in Hb as [Hb Hcp0].
  apply andb_true_iff in Hb as [_ Hm0].
  apply status_is_zero_true in Hm0, Hcp0.
  assert (Hk0 : kills = []).
  { destruct kills as [|ev kills]; [done|].
    inversion Hk as [|? ? (pid & -> & [-> | [= ->]] & Hpid) _]; congruence. }
  subst kills. rewrite Hm0, Hcp0 in Hu. simpl in Hu. subst u.
  exists m, cp, early. simpl in Hl. rewrite ?app_nil_r in Hl. split_and!; try done.
  - by rewrite existsb_kill_early.
  - by apply unmount_not_early.
Qed.

(** ** The populator starts after the marker *)

Lemma log_not_extended (l pre : list event) x post : l <> l ++ pre ++ x :: post.
Proof. intros H. apply (f_equal length) in H. rewrite !length_app in H. simpl in H. lia. Qed.

(** What follows the scan never spawns [cp.sh]. *)
Lemma finish_attempt_no_copier n m cp_p w :
  exists rest, w_log (fst (finish_attempt n m cp_p w)) = w_log w ++ rest /\
               copier_of rest = None.
Proof. exact (finish_attempt_stable no_copier no_copier_base n m cp_p w). Qed.

(** A builder that spawned and whose first read returned [line]: the
    events up to the end of the attempt. *)
Lemma supervise_log n m w1 w' r :
  supervise n m w1 = (w', r) ->
  w_log w' = w_log w1 \/
  exists line ls C rest,
    w_log w' = w_log w1 ++ (if bytes_is_empty line then [] else [EvReadLine m line]) ++
                 (EvReadLine m <$> ls) ++ C ++ rest /\
    copier_of rest = None /\
    (bytes_is_empty line = true -> ls = [] /\ C = []) /\
    Forall (fun l => bytes_contains marker l = false) (removelast (line :: ls)) /\
    (C = [] \/ exists cp l, C = [EvSpawnCopier cp] /\ last (line :: ls) = Some l /\
                            bytes_contains marker l = true).
Proof.
  unfold supervise, bind at 1. destruct (stderr_readline m w1) as [w2 r2] eqn:Hr.
  pose proof (stderr_readline_log _ _ _ _ Hr) as Hlog2.
  destruct r2 as [line| |]; cbv beta iota; [|intros [= <- _]; by left ..].
  unfold bind at 1. destruct (scan_for_marker n m line w2) as [w3 r3] eqn:Hsc.
  cbv beta iota.
  destruct (scan_for_marker_log _ _ _ _ _ _ Hsc) as (ls & C & Hl3 & Hempty & Hf & HC).
  intros H.
  assert (Hrest : exists rest, w_log w' = w_log w3 ++ rest /\ copier_of rest = None).
  { destruct r3 as [cp_p| |]; [|injection H as <- _; exists []; by rewrite app_nil_r ..].
    destruct (finish_attempt_no_copier n m cp_p w3) as (rest & Hl & Hc).
    rewrite H in Hl. by exists rest. }
  destruct Hrest as (rest & Hl & Hc). right.
  exists line, ls, C, rest. split_and!; [|done..].
  rewrite Hl, Hl3. rewrite <- !app_assoc.
  destruct Hlog2 as [[-> ->] | [-> ->]]; [done|]. by rewrite <- app_assoc.
Qed.

(** C3 The populator is never started before the readiness marker: in any
    run of an attempt, whatever it returns, the events before the spawn of
    [cp.sh] are the spawn of the builder and reads of its stderr, the
    last line read has the marker and no earlier one has it. *)
Theorem attempt_copier_after_marker env w w' r pre cp post :
  _make_disk_image env w = (w', r) ->
  w_log w' = w_log w ++ pre ++ EvSpawnCopier cp :: post ->
  exists m lines l,
    pre = EvSpawnBuilder m env :: (EvReadLine m <$> lines ++ [l]) /\
    bytes_contains marker l = true /\
    Forall (fun x => bytes_contains marker x = false) lines.
Proof.
  unfold _make_disk_image, make_disk_image_fuel, bind at 1.
  destruct (spawn_builder env w) as [w1 r1] eqn:Hs.
  destruct r1 as [m| |]; cbv beta iota.
  2,3: unfold spawn_builder in Hs; destruct (bs_spawns _); [by unfold add_proc in Hs|];
       injection Hs as <- Hr; intros [= <- _] Hl; exfalso; by eapply log_not_extended.
  apply spawn_builder_Ok in Hs as (_ & _ & Hl1 & _).
  intros H Hl. destruct (supervise_log _ _ _ _ _ H)
    as [Hl2 | (line & ls & C & rest & Hl2 & Hc & Hempty & Hf & HC)].
  { rewrite Hl2, Hl1 in Hl. apply app_inv_head in Hl.
    destruct pre as [|ev [|]]; simpl in Hl; congruence. }
  set (F := if bytes_is_empty line then [] else [EvReadLine m line]) in Hl2.
  assert (Heq : pre ++ EvSpawnCopier cp :: post =
                EvSpawnBuilder m env :: F ++ (EvReadLine m <$> ls) ++ C ++ rest).
  { apply (app_inv_head (w_log w)). rewrite <- Hl, Hl2, Hl1. by rewrite <- app_assoc. }
  destruct HC as [-> | (cp' & l & -> & Hlast & Hm)].
  { exfalso. apply (copier_of_spawned pre cp post). rewrite Heq. simpl.
    subst F. destruct (bytes_is_empty line); simpl;
      by rewrite copier_of_app, copier_of_read_lines. }
  destruct (bytes_is_empty line) eqn:He; [by destruct (Hempty eq_refl)|].
  subst F. simpl in Heq.
  assert (Hpre : pre = EvSpawnBuilder m env :: (EvReadLine m <$> line :: ls)).
  { apply (copier_split_unique _ cp' rest _ cp post);
      [simpl; apply copier_of_read_lines | done | symmetry; exact Heq]. }
  subst pre.
  apply last_Some in Hlast as [lines Hll]. rewrite Hll in Hf |- *.
  rewrite removelast_last in Hf. by exists m, lines, l.
Qed.

(** ** The scan over the builder's stderr, line by line *)

Lemma quiet_shift t (L : list (nat * bytes)) :
  Forall (fun l => quiet_line l = true) L ->
  Forall (fun l => quiet_line l = true) (map (fun '(d, l) => (t + d, l)) L).
Proof. intros H. apply Forall_fmap. eapply Forall_impl; [exact H|]. by intros [d l]. Qed.

(** [line = await readline()] and the scan read past the quiet lines
    [pre] one by one; what remains is the same code on the rest of the
    stream, with the fuel the lines used taken away. *)
Lemma read_scan_quiet n m w p pre tail :
  w_procs w !! m = Some p -> p_err p = pre ++ tail ->
  Forall (fun l => quiet_line l = true) pre -> length pre < n ->
  exists w1, reads_only m w w1 /\ w_procs w1 !! m = Some (drop_line p tail) /\
    (forall B, w_clock w <= B -> Forall (fun l => l.1 <= B) pre -> w_clock w1 <= B) /\
    (line <- stderr_readline m ;; scan_for_marker n m line) w =
    (line <- stderr_readline m ;; scan_for_marker (n - length pre) m line) w1.
Proof.
  induction pre as [|[a t] pre IH] in n, w, p |- *; intros Hp He Hq Hn.
  - exists w. rewrite Nat.sub_0_r. split_and!; [reflexivity | | done | done].
    rewrite Hp. destruct p; simpl in *; by subst.
  - apply Forall_cons in Hq as [Hq1 Hq]. unfold quiet_line in Hq1. simpl in Hq1.
    apply andb_true_iff in Hq1 as [Hlen%Nat.leb_le Hmk%negb_true_iff].
    destruct n as [|n]; [simpl in Hn; lia|].
    set (w2 := log_event (EvReadLine m (line_bytes t))
                 (set_proc m (drop_line p (pre ++ tail)) (advance_to a w))).
    assert (Hr : stderr_readline m w = (w2, Ok (line_bytes t))).
    { unfold stderr_readline, with_proc, take_line. rewrite Hp, He. simpl.
      destruct (Nat.ltb_spec stream_limit (String.length t)); [lia | reflexivity]. }
    assert (Hp2 : w_procs w2 !! m = Some (drop_line p (pre ++ tail)))
      by apply lookup_insert_eq.
    destruct (IH n w2 _ Hp2 eq_refl Hq) as (w1 & Hro & Hp1 & Hclk & Heq); [simpl in Hn; lia|].
    exists w1. split_and!; [| exact Hp1 | |].
    + etrans; [|exact Hro]. pose proof (stderr_readline_reads_only m w) as H.
      by rewrite Hr in H.
    + intros B HB [Ha HF]%Forall_cons. simpl in Ha. apply Hclk; [unfold w2; simpl; lia | done].
    + unfold bind at 1. rewrite Hr. cbn [scan_for_marker].
      rewrite line_bytes_nonempty, Hmk. exact Heq.
Qed.

(** The stream ends: the scan returns [None] at the end of file. *)
Lemma read_scan_eof n m w p e :
  w_procs w !! m = Some p -> p_err p = [] -> p_eof p = Some e -> 0 < n ->
  (line <- stderr_readline m ;; scan_for_marker n m line) w = (advance_to e w, Ok None).
Proof.
  intros Hp He Hf Hn. destruct n as [|n]; [lia|].
  unfold bind, stderr_readline, with_proc. by rewrite Hp, He, Hf.
Qed.

(** The stream never ends: [readline] blocks. *)
Lemma read_scan_stuck n m w p :
  w_procs w !! m = Some p -> p_err p = [] -> p_eof p = None ->
  (line <- stderr_readline m ;; scan_for_marker n m line) w = (w, Hang).
Proof. intros Hp He Hf. unfold bind, stderr_readline, with_proc. by rewrite Hp, He, Hf. Qed.

(** A line over the limit: [readline] raises [ValueError]. *)
Lemma read_scan_long n m w p a t rest :
  w_procs w !! m = Some p -> p_err p = (a, t) :: rest -> stream_limit < String.length t ->
  (line <- stderr_readline m ;; scan_for_marker n m line) w =
    (set_proc m (drop_line p rest) (advance_to a w), Exc ValueError).
Proof.
  intros Hp He Hl. unfold bind, stderr_readline, with_proc, take_line. rewrite Hp, He.
  simpl. by destruct (Nat.ltb_spec stream_limit (String.length t)); [|lia].
Qed.

(** The marker line: the scan logs it and runs [Popen] of [cp.sh]. *)
Lemma read_scan_marker n m w p a t rest :
  w_procs w !! m = Some p -> p_err p = (a, t) :: rest ->
  String.length t <= stream_limit -> bytes_contains marker (line_bytes t) = true -> 0 < n ->
  (line <- stderr_readline m ;; scan_for_marker n m line) w =
    (cp <- popen_copier ;; ret (Some cp))
      (log_event (EvReadLine m (line_bytes t))
         (set_proc m (drop_line p rest) (advance_to a w))).
Proof.
  intros Hp He Hl Hm Hn. destruct n as [|n]; [lia|].
  unfold bind at 1, stderr_readline, with_proc, take_line. rewrite Hp, He. simpl.
  destruct (Nat.ltb_spec stream_limit (String.length t)); [lia|].
  cbn [scan_for_marker]. by rewrite line_bytes_nonempty, Hm.
Qed.

(** Lines 19-80 as the scan, then the rest. *)
Lemma supervise_read_scan n m w :
  supervise n m w =
    (cp_p <- (line <- stderr_readline m ;; scan_for_marker n m line) ;;
     finish_attempt n m cp_p) w.
Proof. unfold supervise. by rewrite bind_assoc. Qed.

(** A builder that spawns: the attempt is the scan of its stderr, then the
    rest, on the world just after the spawn. *)
Lemma attempt_spawned env w :
  bs_spawns (sys_builder (w_sys w) (w_nbuilder w)) = true ->
  exists w1, spawn_builder env w = (w1, Ok (w_next_pid w)) /\
    _make_disk_image env w =
      (cp_p <- (line <- stderr_readline (w_next_pid w) ;;
                scan_for_marker (attempt_fuel w) (w_next_pid w) line) ;;
       finish_attempt (attempt_fuel w) (w_next_pid w) cp_p) w1.
Proof.
  intros Hb. unfold spawn_builder. rewrite Hb. eexists. split; [reflexivity|].
  unfold _make_disk_image, make_disk_image_fuel, bind at 1, spawn_builder.
  rewrite Hb. apply supervise_read_scan.
Qed.

(** The builder's stderr up to [pre], read by the scan of an attempt:
    the world [w2] after the spawn and the reads, and the attempt from
    there. *)
Lemma attempt_reads_quiet env w pre tail :
  let b := sys_builder (w_sys w) (w_nbuilder w) in
  let m := w_next_pid w in
  bs_spawns b = true ->
  p_err (builder_proc (w_clock w) b) = pre ++ tail ->
  Forall (fun l => quiet_line l = true) pre ->
  exists w2 reads,
    w_log w2 = w_log w ++ EvSpawnBuilder m env :: reads /\
    Forall (fun ev => is_read ev = true) reads /\
    w_sys w2 = w_sys w /\ w_ncopier w2 = w_ncopier w /\ w_nunmount w2 = w_nunmount w /\
    w_nbuilder w2 = S (w_nbuilder w) /\ w_clock w <= w_clock w2 /\ w_next_pid w2 = S m /\
    (forall B, w_clock w <= B -> Forall (fun l => l.1 <= B) pre -> w_clock w2 <= B) /\
    w_procs w2 !! m = Some (drop_line (builder_proc (w_clock w) b) tail) /\
    _make_disk_image env w =
      (cp_p <- (line <- stderr_readline m ;;
                scan_for_marker (attempt_fuel w - length pre) m line) ;;
       finish_attempt (attempt_fuel w) m cp_p) w2.
Proof.
  intros b m Hb He Hq. subst b m.
  destruct (attempt_spawned env w Hb) as (w1 & Hs & Ha).
  assert (Hh1 : w_sys w1 = w_sys w /\ w_ncopier w1 = w_ncopier w /\
                w_nunmount w1 = w_nunmount w /\ w_next_pid w1 = S (w_next_pid w) /\
                w_nbuilder w1 = S (w_nbuilder w))
    by (unfold spawn_builder, add_proc in Hs; rewrite Hb in Hs; by injection Hs as <-).
  apply spawn_builder_Ok in Hs as (_ & Hp1 & Hl1 & Ht1).
  assert (Hn : length pre < attempt_fuel w).
  { unfold attempt_fuel. apply (f_equal length) in He.
    rewrite length_app in He. simpl in He. rewrite length_map in He. lia. }
  destruct (read_scan_quiet _ _ _ _ _ _ Hp1 He Hq Hn)
    as (w2 & (Hh & Ht & _ & _ & reads & Hr & Hl2) & Hp2 & Hclk & Heq).
  destruct Hh as (? & ? & ? & ? & ?). destruct Hh1 as (? & ? & ? & ? & ?).
  exists w2, reads. split_and!; try done; try congruence; try lia.
  - rewrite Hl2, Hl1. by rewrite <- app_assoc.
  - intros B HB HF. apply Hclk; [lia | done].
  - rewrite Ha. by apply bind_congr_l.
Qed.

(** The builder's stderr as its script lists it, for [attempt_reads_quiet]. *)
Lemma builder_err_split t (b : BuilderScript) pre x post :
  bs_err b = pre ++ x :: post ->
  p_err (builder_proc t b) =
    map (fun '(d, l) => (t + d, l)) pre ++ (t + x.1, x.2) :: map (fun '(d, l) => (t + d, l)) post.
Proof. intros He. simpl. rewrite He, map_app. by destruct x. Qed.

(** ** The [finally] block of an attempt without a populator *)

Lemma advance_to_past t w : t <= w_clock w -> advance_to t w = w.
Proof. intros H. unfold advance_to. rewrite Nat.max_l by done. apply set_clock_same. Qed.

(** The drain at the end of the stream returns at once. *)
Lemma drain_at_eof n m w p e :
  w_procs w !! m = Some p -> p_err p = [] -> p_eof p = Some e -> e <= w_clock w -> 0 < n ->
  drain n m w = (w, Ok tt).
Proof.
  intros Hp He Hf Ht Hn. destruct n as [|n]; [lia|]. simpl.
  unfold bind, stderr_readline_within, with_proc. rewrite Hp, He, Hf.
  destruct (Nat.leb_spec e (w_clock w + drain_timeout)); [|lia].
  by rewrite advance_to_past.
Qed.

(** Lines 33-80 after a scan that found no marker, at the end of the
    builder's stream: the [finally] block runs [unmount.sh] (the
    populator's status is unknown) and the attempt returns [False]. *)
Lemma finish_attempt_unready n m w p e :
  w_procs w !! m = Some p -> p_err p = [] -> p_eof p = Some e -> e <= w_clock w -> 0 < n ->
  us_spawns (sys_unmount (w_sys w) (w_nunmount w)) = true ->
  us_duration (sys_unmount (w_sys w) (w_nunmount w)) <> None ->
  exists w' kills, finish_attempt n m None w = (w', Ok false) /\
    w_log w' = w_log w ++ kills ++ [EvUnmount] /\
    Forall (fun ev => is_kill ev = true) kills.
Proof.
  intros Hp He Hf Ht Hn Hus Hud.
  pose proof (shutdown_spec w m p None Hp I) as Hsd.
  destruct (shutdown m None w) as [w4 r4] eqn:Hsh.
  destruct Hsd as (kills & u & Hl4 & Hk & [c Hc] & _ & HD & _).
  rewrite orb_true_r in HD.
  destruct HD as [[-> ->] | [_ [(_ & _ & ?) | (_ & _ & ?)]]]; [|congruence|congruence].
  destruct (status_Some_exited _ _ _ Hc) as (p4 & Hp4 & Hx4 & _).
  exists w4, kills. split_and!; [| done | exact (kills_is_kill _ _ Hk)].
  assert (Hbody : try_except (drain n m ;; ret false) (catching TimeoutError (ret true)) w
                  = (w, Ok false)).
  { unfold try_except, bind. by rewrite (drain_at_eof n m w p e). }
  unfold finish_attempt.
  rewrite (bind_Ok _ _ _ _ _ (try_finally_ran _ _ _ _ _ _ Hbody ltac:(done) Hsh)).
  rewrite (attempt_result_exited false m p4 None w4 Hp4 Hx4) by done.
  by rewrite andb_false_r.
Qed.

(** An attempt whose builder never prints the marker and closes its
    stderr, on a host where [unmount.sh] runs to its end: its events and
    its result. *)
Lemma attempt_unready_run env w :
  let b := sys_builder (w_sys w) (w_nbuilder w) in
  let u := sys_unmount (w_sys w) (w_nunmount w) in
  bs_spawns b = true -> Forall (fun l => quiet_line l = true) (bs_err b) ->
  bs_eof b <> None -> us_spawns u = true -> us_duration u <> None ->
  exists w' reads kills, _make_disk_image env w = (w', Ok false) /\
    w_log w' = w_log w ++ EvSpawnBuilder (w_next_pid w) env :: reads ++ kills ++ [EvUnmount] /\
    Forall (fun ev => is_read ev = true) reads /\ Forall (fun ev => is_kill ev = true) kills /\
    w_sys w' = w_sys w /\ w_nbuilder w' = S (w_nbuilder w) /\ w_ncopier w' = w_ncopier w.
Proof.
  intros b u Hb Hq He Hus Hud.
  destruct (bs_eof b) as [e|] eqn:Hbe; [|done].
  destruct (attempt_reads_quiet env w _ [] Hb (eq_sym (app_nil_r _)) (quiet_shift _ _ Hq))
    as (w2 & reads & Hl2 & Hr & Hs2 & Hc2 & Hu2 & Hb2 & Ht2 & _ & _ & Hp2 & Ha).
  assert (Hf : p_eof (drop_line (builder_proc (w_clock w) b) []) = Some (w_clock w + e))
    by (simpl; by rewrite Hbe).
  assert (Hn : 0 < attempt_fuel w - length (p_err (builder_proc (w_clock w) b)))
    by (unfold attempt_fuel; simpl; rewrite length_map; fold b; lia).
  rewrite (bind_Ok _ _ _ _ _ (read_scan_eof _ _ _ _ _ Hp2 eq_refl Hf Hn)) in Ha.
  edestruct (finish_attempt_unready (attempt_fuel w) (w_next_pid w)
               (advance_to (w_clock w + e) w2))
    as (w' & kills & Hfin & Hl' & Hk); [exact Hp2 | done | exact Hf | simpl; lia
                                        | unfold attempt_fuel; lia
                                        | simpl; by rewrite Hs2, Hu2
                                        | simpl; by rewrite Hs2, Hu2 |].
  pose proof (finish_attempt_stable fixed_spawns fixed_spawns_base (attempt_fuel w)
                (w_next_pid w) None (advance_to (w_clock w + e) w2)) as Hfx.
  rewrite Hfin in Hfx. destruct Hfx as (Hs' & Hb' & Hc').
  exists w', reads, kills. split_and!; [by rewrite Ha | | done | done | | |];
    [| simpl in *; congruence ..].
  rewrite Hl'. simpl. rewrite Hl2. by rewrite <- !app_assoc.
Qed.


(** ** The drain and the [finally] block of a successful attempt *)

Lemma steady_le g prev L eof : steady g prev L eof = true -> prev <= eof.
Proof.
  induction L as [|[d l] L IH] in prev |- *; simpl.
  - intros [?%Nat.leb_le _]%andb_true_iff. done.
  - intros [[[?%Nat.leb_le _]%andb_true_iff _]%andb_true_iff ?%IH]%andb_true_iff. lia.
Qed.

Lemma leb_add_l t x y : Nat.leb (t + x) (t + y) = Nat.leb x y.
Proof. destruct (Nat.leb_spec x y), (Nat.leb_spec (t + x) (t + y)); lia. Qed.

(** The script's times, shifted by the spawn time. *)
Lemma steady_shift g t prev L eof :
  steady g (t + prev) (map (fun '(d, l) => (t + d, l)) L) (t + eof) = steady g prev L eof.
Proof.
  induction L as [|[d l] L IH] in prev |- *; simpl;
    rewrite <- ?Nat.add_assoc, ?leb_add_l; [done|]. by rewrite IH.
Qed.

(** The drain of a steady stream reads it to its end and returns. *)
Lemma drain_steady n m w p E :
  w_procs w !! m = Some p -> p_eof p = Some E ->
  steady drain_timeout (w_clock w) (p_err p) E = true -> length (p_err p) < n ->
  exists w' reads, drain n m w = (w', Ok tt) /\ w_clock w' = E /\
    w_procs w' = <[m := drop_line p []]> (w_procs w) /\
    w_log w' = w_log w ++ reads /\ Forall (fun ev => is_read ev = true) reads /\
    same_host w w'.
Proof.
  remember (p_err p) as L eqn:HL.
  induction L as [|[d l] L IH] in n, w, p, HL |- *; intros Hp He Hs Hn;
    destruct n as [|n]; simpl in Hn; try lia; simpl in Hs.
  - apply andb_true_iff in Hs as [?%Nat.leb_le ?%Nat.leb_le].
    exists (advance_to E w), []. simpl. unfold bind, stderr_readline_within, with_proc.
    rewrite Hp, <- HL, He. destruct (Nat.leb_spec E (w_clock w + drain_timeout)); [|lia].
    unfold_world. rewrite app_nil_r. split_and!; try done; try lia.
    + destruct p; simpl in *; subst. by rewrite insert_id.
  - apply andb_true_iff in Hs as [[[?%Nat.leb_le ?%Nat.leb_le]%andb_true_iff
                                   ?%Nat.leb_le]%andb_true_iff Hs].
    set (w1 := log_event (EvReadLine m (line_bytes l))
                 (set_proc m (drop_line p L) (advance_to d w))).
    assert (Hr : stderr_readline_within m drain_timeout w = (w1, Ok (line_bytes l))).
    { unfold stderr_readline_within, with_proc, take_line. rewrite Hp, <- HL.
      destruct (Nat.leb_spec d (w_clock w + drain_timeout)); [|lia].
      destruct (Nat.ltb_spec stream_limit (String.length l)); [lia | reflexivity]. }
    assert (Hp1 : w_procs w1 !! m = Some (drop_line p L)) by apply lookup_insert_eq.
    assert (Hc1 : w_clock w1 = d) by (unfold w1; simpl; lia).
    destruct (IH n w1 (drop_line p L) eq_refl Hp1 He) as (w' & reads & Hd & Ht & Hps & Hl & Hr' & Hh);
      [by rewrite Hc1 | lia |].
    assert (Hdr : drain (S n) m w = drain n m w1).
    { cbn [drain]. unfold bind at 1. rewrite Hr. cbv beta iota.
      by rewrite line_bytes_nonempty. }
    exists w', (EvReadLine m (line_bytes l) :: reads).
    rewrite Hdr. split_and!; [done | done | | | | ].
    + rewrite Hps. unfold w1. simpl. by rewrite insert_insert_eq.
    + rewrite Hl. unfold w1. simpl. by rewrite <- app_assoc.
    + by constructor.
    + etrans; [|exact Hh]. by unfold same_host.
Qed.

(** Lines 44-57 when the populator exits within the grace period: no
    kill, its status is reported, only the clock moves. *)
Lemma stop_copier_exits w cp pc :
  w_procs w !! cp = Some pc -> exited_by (w_clock w + copier_grace) pc ->
  exists w', stop_copier (Some cp) w = (w', Ok (false, Some (p_code pc))) /\
    w_procs w' = w_procs w /\ w_log w' = w_log w /\ exited_by (w_clock w') pc /\
    w_clock w <= w_clock w' <= w_clock w + copier_grace /\ same_host w w'.
Proof.
  intros Hpc Hx. unfold stop_copier, bind, poll, with_proc. rewrite Hpc.
  destruct (returncode_at (w_clock w) pc) as [c|] eqn:H1; simpl.
  - rewrite Hpc, H1. simpl. rewrite Hpc, H1. rewrite (returncode_at_Some _ _ _ H1).
    exists w. split_and!; try done; try lia. by eapply returncode_at_exited.
  - rewrite Hpc. unfold exited_by in Hx. simpl. rewrite Hx. simpl. rewrite Hpc, Hx.
    eexists. split_and!; [reflexivity | done | done | exact Hx | simpl; lia | simpl; lia
                         | by unfold same_host].
Qed.

(** Lines 58-66 when the builder ends its output and exits within the
    60 s of [communicate]: no kill, [force_unmount] unchanged. *)
Lemma reap_builder_exits w m p fu E X :
  w_procs w !! m = Some p -> p_eof p = Some E -> p_exit p = Some X ->
  Nat.max E X <= w_clock w + reap_timeout ->
  reap_builder m fu w = (set_proc m (drop_line p []) (advance_to (Nat.max E X) w), Ok fu).
Proof.
  intros Hp HE HX Hle. unfold reap_builder, suppress, try_except, communicate_within,
    bind, poll, with_proc. rewrite Hp, HE, HX.
  destruct (Nat.leb_spec (Nat.max E X) (w_clock w + reap_timeout)); [|lia].
  simpl. rewrite lookup_insert_eq. unfold returncode_at. simpl. rewrite HX.
  by destruct (Nat.leb_spec X (Nat.max (w_clock w) (Nat.max E X))); [|lia].
Qed.

Lemma popen_copier_spawns w :
  cs_spawns (sys_copier (w_sys w) (w_ncopier w)) = true ->
  exists w', popen_copier w = (w', Ok (w_next_pid w)).
Proof. intros Hc. unfold popen_copier. rewrite Hc. by eexists. Qed.

(** Lines 33-80 once the populator runs: a steady stream from the
    builder, the builder exiting with [0] within 60 s of its end of file,
    and the populator exiting with [0] within the grace period after the
    drain starts, give [True] with nothing but reads. *)
Lemma finish_attempt_ready n m cp w p pc E X cx :
  cp <> m -> w_procs w !! m = Some p -> w_procs w !! cp = Some pc ->
  steady drain_timeout (w_clock w) (p_err p) E = true -> p_eof p = Some E ->
  p_exit p = Some X -> X <= E + reap_timeout -> p_code p = 0%Z ->
  length (p_err p) < n ->
  p_exit pc = Some cx -> cx <= w_clock w + copier_grace -> p_code pc = 0%Z ->
  exists w' reads, finish_attempt n m (Some cp) w = (w', Ok true) /\
    w_log w' = w_log w ++ reads /\ Forall (fun ev => is_read ev = true) reads.
Proof.
  intros Hne Hp Hpc Hs HE HX HXE Hc Hn Hcx Hcxg Hcc.
  pose proof (steady_le _ _ _ _ Hs) as Hle.
  destruct (drain_steady n m w p E Hp HE Hs Hn) as (w5 & reads & Hd & Ht5 & Hp5 & Hl5 & Hr & Hh5).
  assert (Hbody : try_except (drain n m ;; ret false) (catching TimeoutError (ret true)) w
                  = (w5, Ok false)) by (unfold try_except, bind; by rewrite Hd).
  assert (Hpc5 : w_procs w5 !! cp = Some pc) by (rewrite Hp5, lookup_insert_ne; done).
  destruct (stop_copier_exits w5 cp pc Hpc5) as (w6 & Hsc & Hp6 & Hl6 & Hx6 & Ht6 & _).
  { unfold exited_by, returncode_at. rewrite Hcx.
    by destruct (Nat.leb_spec cx (w_clock w5 + copier_grace)); [|lia]. }
  assert (Hp6m : w_procs w6 !! m = Some (drop_line p [])) by (rewrite Hp6, Hp5; apply lookup_insert_eq).
  set (w7 := set_proc m (drop_line (drop_line p []) []) (advance_to (Nat.max E X) w6)).
  assert (Hrc : returncode_at (w_clock w7) (drop_line (drop_line p []) []) = Some 0%Z).
  { unfold returncode_at. simpl. rewrite HX, Hc.
    by destruct (Nat.leb_spec X (Nat.max (w_clock w6) (Nat.max E X))); [|lia]. }
  assert (Hsh : shutdown m (Some cp) w5 = (w7, Ok tt)).
  { unfold shutdown. rewrite (bind_Ok _ _ _ _ _ Hsc). cbv beta iota.
    rewrite (bind_Ok _ _ _ _ _ (reap_builder_exits w6 m (drop_line p []) false E X Hp6m HE HX ltac:(lia))).
    rewrite (bind_Ok _ _ _ _ _ (poll_spec w7 m _ (lookup_insert_eq _ _ _))).
    by rewrite Hrc, Hcc. }
  exists w7, reads. split_and!; [| by unfold w7; simpl; rewrite Hl6, Hl5 | done].
  unfold finish_attempt.
  rewrite (bind_Ok _ _ _ _ _ (try_finally_ran _ _ _ _ _ _ Hbody ltac:(done) Hsh)).
  assert (Hx7 : exited_by (w_clock w7) (drop_line (drop_line p []) [])).
  { unfold exited_by. rewrite Hrc. simpl. by rewrite Hc. }
  rewrite (attempt_result_exited false m _ (Some cp) w7 (lookup_insert_eq _ _ _) Hx7).
  2:{ intros ? [= <-]. exists pc. split.
      - unfold w7. simpl. rewrite lookup_insert_ne, Hp6 by done. exact Hpc5.
      - eapply exited_by_mono; [exact Hx6 | unfold w7; simpl; lia]. }
  assert (Hx7c : exited_by (w_clock w7) pc)
    by (eapply exited_by_mono; [exact Hx6 | unfold w7; simpl; lia]).
  unfold status.
  replace (w_procs w7 !! m) with (Some (drop_line (drop_line p []) []))
    by (unfold w7; simpl; by rewrite lookup_insert_eq).
  replace (w_procs w7 !! cp) with (Some pc)
    by (unfold w7; simpl; rewrite lookup_insert_ne by done; by rewrite Hp6).
  unfold exited_by in Hx7c. by rewrite Hrc, Hx7c, Hcc.
Qed.

(** ** Behaviour on every host *)

(** C7 A builder that never prints the marker (spec, section 8,
    scenario 2): on every host where the builder spawns, its stderr lines
    are within the stream limit and none has the marker, it closes its
    stderr, and [unmount.sh] runs to its end, the attempt returns
    [False] without ever spawning the populator, and its last event is
    the run of [unmount.sh]. *)
Theorem attempt_no_marker env w :
  let b := sys_builder (w_sys w) (w_nbuilder w) in
  let u := sys_unmount (w_sys w) (w_nunmount w) in
  bs_spawns b = true -> Forall (fun l => quiet_line l = true) (bs_err b) ->
  bs_eof b <> None -> us_spawns u = true -> us_duration u <> None ->
  exists w' evs, _make_disk_image env w = (w', Ok false) /\
    w_log w' = w_log w ++ EvSpawnBuilder (w_next_pid w) env :: evs /\
    copier_of evs = None /\ last evs = Some EvUnmount.
Proof.
  intros b u Hb Hq He Hus Hud.
  destruct (attempt_unready_run env w Hb Hq He Hus Hud)
    as (w' & reads & kills & Ha & Hl & Hr & Hk & _).
  exists w', (reads ++ kills ++ [EvUnmount]). split_and!; [done | done | |].
  - by rewrite copier_of_reads, copier_of_app, copier_of_kills.
  - by rewrite app_assoc, last_snoc.
Qed.

(** An attempt on scripts that are ready: its result and its events. *)
Lemma attempt_ready_run env w :
  ready_scripts (sys_builder (w_sys w) (w_nbuilder w)) (sys_copier (w_sys w) (w_ncopier w)) ->
  exists w' evs, _make_disk_image env w = (w', Ok true) /\
    w_log w' = w_log w ++ EvSpawnBuilder (w_next_pid w) env :: evs /\
    copier_of evs = Some (S (w_next_pid w)) /\ Forall (fun ev => is_early ev = true) evs.
Proof.
  set (b := sys_builder (w_sys w) (w_nbuilder w)). set (c := sys_copier (w_sys w) (w_ncopier w)).
  intros (Hb & Hcode & Hcs & Hcc & pre & a & t & post & e & x & cx & He & Hpre & Hl & Hm &
          Hst & Heof & Hx & Hxe & Hcx & Hcxg).
  assert (Hq : Forall (fun l => quiet_line l = true) pre)
    by (eapply Forall_impl; [exact Hpre|]; by intros ? []).
  assert (Hpa : Forall (fun l => l.1 <= w_clock w + a) (map (fun '(d, l) => (w_clock w + d, l)) pre)).
  { apply Forall_fmap. eapply Forall_impl; [exact Hpre|]. intros [d l] [_ ?]. simpl in *. lia. }
  destruct (attempt_reads_quiet env w _ _ Hb (builder_err_split _ _ _ _ _ He) (quiet_shift _ _ Hq))
    as (w2 & reads & Hl2 & Hr & Hs2 & Hc2 & _ & _ & Ht2 & Hn2 & Hclk & Hp2 & Ha).
  pose proof (Hclk (w_clock w + a) ltac:(lia) Hpa) as Hc2a.
  assert (Hn : 0 < attempt_fuel w - length (map (fun '(d, l) => (w_clock w + d, l)) pre)).
  { unfold attempt_fuel. fold b. rewrite He, length_map, length_app. simpl. lia. }
  rewrite (bind_congr_l _ _ _ _ _ (read_scan_marker _ _ _ _ _ _ _ Hp2 eq_refl Hl Hm Hn)) in Ha.
  match type of Ha with _ = _ ?W => set (w3 := W) in Ha end.
  assert (Hh3 : w_sys w3 = w_sys w /\ w_ncopier w3 = w_ncopier w /\ w_next_pid w3 = S (w_next_pid w) /\
                w_clock w3 = w_clock w + a /\ w_log w3 = w_log w2 ++ [EvReadLine (w_next_pid w) (line_bytes t)])
    by (unfold w3; simpl; split_and!; done || lia).
  destruct Hh3 as (Hs3 & Hc3 & Hn3 & Ht3 & Hl3).
  destruct (popen_copier_spawns w3) as (w4 & Hpop); [by rewrite Hs3, Hc3|].
  pose proof (popen_copier_Ok _ _ _ Hpop) as (_ & Hp4 & Hl4 & Ht4 & _).
  rewrite (bind_Ok _ _ _ _ _ (bind_Ok _ (fun cp => ret (Some cp)) _ _ _ Hpop)) in Ha.
  rewrite Hs3, Hc3, Hn3 in Hp4. rewrite Hn3 in Ha, Hl4. fold c in Hp4.
  destruct (finish_attempt_ready (attempt_fuel w) (w_next_pid w) (S (w_next_pid w)) w4
              (drop_line (builder_proc (w_clock w) b) (map (fun '(d, l) => (w_clock w + d, l)) post))
              (copier_proc (w_clock w3) c) (w_clock w + e) (w_clock w + x) (w_clock w + a + cx))
    as (w' & reads2 & Hfin & Hl' & Hr2).
  - lia.
  - rewrite Hp4, lookup_insert_ne by lia. unfold w3. simpl. apply lookup_insert_eq.
  - rewrite Hp4. apply lookup_insert_eq.
  - rewrite Ht4, Ht3. simpl. rewrite steady_shift. exact Hst.
  - simpl. fold b. by rewrite Heof.
  - simpl. fold b. by rewrite Hx.
  - lia.
  - simpl. fold b. exact Hcode.
  - simpl. rewrite length_map. unfold attempt_fuel. fold b. rewrite He, length_app. simpl. lia.
  - unfold copier_proc. cbn [p_exit]. rewrite Hcx, Ht3. reflexivity.
  - rewrite Ht4, Ht3. lia.
  - simpl. exact Hcc.
  - exists w', (reads ++ [EvReadLine (w_next_pid w) (line_bytes t); EvSpawnCopier (S (w_next_pid w))] ++ reads2).
    assert (He' : Forall (fun ev => is_early ev = true)
                    (reads ++ [EvReadLine (w_next_pid w) (line_bytes t);
                               EvSpawnCopier (S (w_next_pid w))] ++ reads2)).
    { apply Forall_app. split; [by apply reads_early|].
      repeat constructor. by apply reads_early. }
    split_and!; [by rewrite Ha | | by rewrite copier_of_reads | done].
    rewrite Hl', Hl4, Hl3, Hl2. by rewrite <- !app_assoc.
Qed.

(** C8 A builder that becomes ready gives a clean success (spec,
    section 8, scenario 1): on every host where the builder spawns,
    prints lines within the limit and without the marker up to time [a],
    then the marker line at [a], then a stream that never pauses for more
    than the 5 minutes of the drain and ends at [e]; where it exits with
    [0] within the 60 s of [communicate] after [e]; and where [cp.sh]
    spawns and exits with [0] within the 5 minute grace period, the
    attempt returns [True], after spawning the populator right after the
    marker line, with no kill and no run of [unmount.sh]. *)
Theorem attempt_ready_succeeds env w pre a t post e x cx :
  let b := sys_builder (w_sys w) (w_nbuilder w) in
  let c := sys_copier (w_sys w) (w_ncopier w) in
  bs_spawns b = true -> bs_err b = pre ++ (a, t) :: post ->
  Forall (fun l => quiet_line l = true /\ l.1 <= a) pre ->
  String.length t <= stream_limit -> bytes_contains marker (line_bytes t) = true ->
  steady drain_timeout a post e = true -> bs_eof b = Some e ->
  bs_exit b = Some x -> x <= e + reap_timeout -> bs_code b = 0%Z ->
  cs_spawns c = true -> cs_exit c = Some cx -> cx <= copier_grace -> cs_code c = 0%Z ->
  exists w' evs, _make_disk_image env w = (w', Ok true) /\
    w_log w' = w_log w ++ EvSpawnBuilder (w_next_pid w) env :: evs /\
    copier_of evs = Some (S (w_next_pid w)) /\ existsb is_kill evs = false /\
    EvUnmount ∉ evs.
Proof.
  intros b c Hb He Hpre Hl Hm Hst Heof Hx Hxe Hcode Hcs Hcx Hcxg Hcc.
  destruct (attempt_ready_run env w) as (w' & evs & Ha & Hl' & Hc & He');
    [split_and!; try done; exists pre, a, t, post, e, x, cx; by split_and!|].
  exists w', evs. split_and!; try done; [by apply existsb_kill_early | by apply unmount_not_early].
Qed.

(** C14 The marker scan has no timeout: on every host where the builder
    spawns, prints only lines within the limit and without the marker,
    and never closes its stderr, the attempt blocks forever in
    [readline] (line 32) after reading those lines, before the populator
    is spawned and before the [finally] block could run [unmount.sh]. *)
Theorem attempt_stuck_builder_hangs env w :
  let b := sys_builder (w_sys w) (w_nbuilder w) in
  bs_spawns b = true -> Forall (fun l => quiet_line l = true) (bs_err b) -> bs_eof b = None ->
  exists w' reads, _make_disk_image env w = (w', Hang) /\
    w_log w' = w_log w ++ EvSpawnBuilder (w_next_pid w) env :: reads /\
    Forall (fun ev => is_read ev = true) reads.
Proof.
  intros b Hb Hq He.
  destruct (attempt_reads_quiet env w _ [] Hb (eq_sym (app_nil_r _)) (quiet_shift _ _ Hq))
    as (w2 & reads & Hl2 & Hr & _ & _ & _ & _ & _ & _ & _ & Hp2 & Ha).
  exists w2, reads. split_and!; [| done | done].
  rewrite Ha. apply bind_Hang, (read_scan_stuck _ _ _ _ Hp2); [done|].
  simpl. fold b. by rewrite He.
Qed.

(** C17 A stderr line longer than [asyncio]'s 64 KiB limit before the
    marker makes [readline] (line 32) raise [ValueError] outside the
    [try]: on every host where the builder spawns and prints such a line
    after lines within the limit and without the marker, the attempt
    raises [ValueError] with only the reads after the builder's spawn:
    no populator, no kill, no [unmount.sh]; the spec does not consider
    this error. *)
Theorem attempt_long_line_escapes env w pre a t post :
  let b := sys_builder (w_sys w) (w_nbuilder w) in
  bs_spawns b = true -> bs_err b = pre ++ (a, t) :: post ->
  Forall (fun l => quiet_line l = true) pre -> stream_limit < String.length t ->
  exists w' reads, _make_disk_image env w = (w', Exc ValueError) /\
    w_log w' = w_log w ++ EvSpawnBuilder (w_next_pid w) env :: reads /\
    Forall (fun ev => is_read ev = true) reads.
Proof.
  intros b Hb He Hq Hl.
  destruct (attempt_reads_quiet env w _ _ Hb (builder_err_split _ _ _ _ _ He)
              (quiet_shift _ _ Hq))
    as (w2 & reads & Hl2 & Hr & _ & _ & _ & _ & _ & _ & _ & Hp2 & Ha).
  eexists _, reads. split_and!; [| | done].
  - rewrite Ha. unfold bind at 1.
    rewrite (read_scan_long _ _ _ _ _ _ _ Hp2 eq_refl Hl). reflexivity.
  - exact Hl2.
Qed.

(** C13 When [cp.sh] cannot be spawned, the [OSError] of [Popen] (line 24)
    is raised before the [try] of line 33: on every host where the
    builder spawns and prints the marker after lines within the limit
    and without it, and the spawn of [cp.sh] fails, the attempt raises
    [OSError] right after reading the marker line; the builder is neither
    waited for nor killed and [unmount.sh] never runs, although the spec
    treats a populator without a status as a reason to unmount. *)
Theorem attempt_copier_spawn_fails env w pre a t post :
  let b := sys_builder (w_sys w) (w_nbuilder w) in
  bs_spawns b = true -> bs_err b = pre ++ (a, t) :: post ->
  Forall (fun l => quiet_line l = true) pre -> String.length t <= stream_limit ->
  bytes_contains marker (line_bytes t) = true ->
  cs_spawns (sys_copier (w_sys w) (w_ncopier w)) = false ->
  exists w' reads, _make_disk_image env w = (w', Exc OSError) /\
    w_log w' = w_log w ++ EvSpawnBuilder (w_next_pid w) env ::
                 reads ++ [EvReadLine (w_next_pid w) (line_bytes t)] /\
    Forall (fun ev => is_read ev = true) reads.
Proof.
  intros b Hb He Hq Hl Hm Hc.
  destruct (attempt_reads_quiet env w _ _ Hb (builder_err_split _ _ _ _ _ He)
              (quiet_shift _ _ Hq))
    as (w2 & reads & Hl2 & Hr & Hs2 & Hc2 & _ & _ & _ & _ & _ & Hp2 & Ha).
  assert (Hn : 0 < attempt_fuel w - length (map (fun '(d, l) => (w_clock w + d, l)) pre)).
  { unfold attempt_fuel. fold b. rewrite He, length_map, length_app. simpl. lia. }
  rewrite (bind_congr_l _ _ _ _ _ (read_scan_marker _ _ _ _ _ _ _ Hp2 eq_refl Hl Hm Hn)) in Ha.
  eexists _, reads. split_and!; [| | done].
  - rewrite Ha. unfold bind, popen_copier. simpl. rewrite Hs2, Hc2, Hc. reflexivity.
  - simpl. rewrite Hl2. by rewrite <- app_assoc.
Qed.

(** C15 [time.sleep(5 * 60)] (line 47) waits the whole grace period: for
    every populator still running at the first [poll()], [stop_copier]
    returns exactly [copier_grace] seconds later, even when the populator
    exits long before (the spec waits "up to" the grace period); it then
    kills the populator exactly when it is still running, and reports its
    status. *)
Theorem stop_copier_full_grace w cp pc :
  w_procs w !! cp = Some pc -> returncode_at (w_clock w) pc = None ->
  let '(w', r) := stop_copier (Some cp) w in
  w_clock w' = w_clock w + copier_grace /\
  match returncode_at (w_clock w + copier_grace) pc with
  | Some c => r = Ok (false, Some c) /\ w_log w' = w_log w
  | None => r = Ok (true, Some (-9)%Z) /\ w_log w' = w_log w ++ [EvKill cp]
  end.
Proof.
  intros Hpc H1. unfold stop_copier, bind, poll, with_proc. rewrite Hpc, H1. simpl.
  rewrite Hpc. destruct (returncode_at (w_clock w + copier_grace) pc) as [c|] eqn:H2.
  - simpl. by rewrite Hpc, H2.
  - unfold try_except, kill, with_proc. simpl. rewrite Hpc, H2. simpl.
    rewrite lookup_insert_eq, returncode_at_killed. by split.
Qed.

(** ** Witnesses: the attempt theorems on hosts of the spec's
    scenarios *)

Lemma wf_world_start sys : wf_world (start sys).
Proof. apply map_Forall_empty. Qed.

Lemma attempt_forced_unmount_witness :
  exists m evs,
    w_log (fst unready_run) = [] ++ EvSpawnBuilder m ∅ :: evs /\
    (forced_unmount_due evs (fst unready_run) m = true ->
       exists pre, evs = pre ++ [EvUnmount] /\ EvUnmount ∉ pre) /\
    (forced_unmount_due evs (fst unready_run) m = false -> EvUnmount ∉ evs).
Proof.
  apply (attempt_forced_unmount ∅ (start (one_shot unready_builder quick_copier))
           (fst unready_run) false);
    [apply wf_world_start | vm_compute; reflexivity].
Defined.

Lemma attempt_success_clean_witness :
  exists m cp evs,
    w_log (fst ready_run) = [] ++ EvSpawnBuilder m ∅ :: evs /\
    copier_of evs = Some cp /\ status (fst ready_run) m = Some 0%Z /\
    status (fst ready_run) cp = Some 0%Z /\
    existsb is_kill evs = false /\ EvUnmount ∉ evs.
Proof.
  apply (attempt_success_clean ∅ (start (one_shot ready_builder quick_copier)));
    [apply wf_world_start | vm_compute; reflexivity].
Defined.

Lemma attempt_copier_after_marker_witness :
  exists m lines l,
    take 5 (w_log (fst ready_run)) =
      EvSpawnBuilder m ∅ :: (EvReadLine m <$> lines ++ [l]) /\
    bytes_contains marker l = true /\
    Forall (fun x => bytes_contains marker x = false) lines.
Proof.
  apply (attempt_copier_after_marker ∅ (start (one_shot ready_builder quick_copier))
           (fst ready_run) (snd ready_run) _ 1 (drop 6 (w_log (fst ready_run))));
    vm_compute; reflexivity.
Defined.

Lemma attempt_no_marker_witness :
  let w := start (one_shot unready_builder quick_copier) in
  exists w' evs, _make_disk_image ∅ w = (w', Ok false) /\
    w_log w' = w_log w ++ EvSpawnBuilder (w_next_pid w) ∅ :: evs /\
    copier_of evs = None /\ last evs = Some EvUnmount.
Proof.
  apply (attempt_no_marker ∅ (start (one_shot unready_builder quick_copier)));
    first [reflexivity | discriminate | apply (bool_decide_unpack _); vm_compute; exact I].
Defined.

Lemma attempt_stuck_builder_hangs_witness :
  let w := start (one_shot stuck_builder quick_copier) in
  exists w' reads, _make_disk_image ∅ w = (w', Hang) /\
    w_log w' = w_log w ++ EvSpawnBuilder (w_next_pid w) ∅ :: reads /\
    Forall (fun ev => is_read ev = true) reads.
Proof.
  apply (attempt_stuck_builder_hangs ∅ (start (one_shot stuck_builder quick_copier)));
    first [reflexivity | apply (bool_decide_unpack _); vm_compute; exact I].
Defined.

Lemma attempt_long_line_escapes_witness :
  let w := start (one_shot long_line_builder quick_copier) in
  exists w' reads, _make_disk_image ∅ w = (w', Exc ValueError) /\
    w_log w' = w_log w ++ EvSpawnBuilder (w_next_pid w) ∅ :: reads /\
    Forall (fun ev => is_read ev = true) reads.
Proof.
  apply (attempt_long_line_escapes ∅ (start (one_shot long_line_builder quick_copier))
           [(1, "mkfs"%string)] 2 (bytes_repeat (S stream_limit) "x"%char) []);
    first [reflexivity | apply (bool_decide_unpack _); vm_compute; exact I
          | apply Nat.ltb_lt; vm_compute; reflexivity].
Defined.

Lemma attempt_copier_spawn_fails_witness :
  let w := start (one_shot ready_builder missing_copier) in
  exists w' reads, _make_disk_image ∅ w = (w', Exc OSError) /\
    w_log w' = w_log w ++ EvSpawnBuilder (w_next_pid w) ∅ ::
                 reads ++ [EvReadLine (w_next_pid w) (line_bytes marker)] /\
    Forall (fun ev => is_read ev = true) reads.
Proof.
  apply (attempt_copier_spawn_fails ∅ (start (one_shot ready_builder missing_copier))
           [(1, "mkfs"%string); (2, "mount"%string); (3, "fuse_init: starting"%string)]
           4 marker (map (fun k => (5 + k, "copying"%string)) (seq 0 10)));
    first [reflexivity | apply (bool_decide_unpack _); vm_compute; exact I
          | apply Nat.leb_le; vm_compute; reflexivity].
Defined.

Lemma stop_copier_full_grace_witness :
  let '(w', r) := stop_copier (Some 1) grace_world in
  w_clock w' = w_clock grace_world + copier_grace /\
  match returncode_at (w_clock grace_world + copier_grace) (copier_proc 4 late_copier) with
  | Some c => r = Ok (false, Some c) /\ w_log w' = w_log grace_world
  | None => r = Ok (true, Some (-9)%Z) /\ w_log w' = w_log grace_world ++ [EvKill 1]
  end.
Proof. apply stop_copier_full_grace; reflexivity. Defined.

Lemma attempt_ready_succeeds_witness :
  let w := start (one_shot ready_builder quick_copier) in
  exists w' evs, _make_disk_image ∅ w = (w', Ok true) /\
    w_log w' = w_log w ++ EvSpawnBuilder (w_next_pid w) ∅ :: evs /\
    copier_of evs = Some (S (w_next_pid w)) /\ existsb is_kill evs = false /\
    EvUnmount ∉ evs.
Proof.
  apply (attempt_ready_succeeds ∅ (start (one_shot ready_builder quick_copier))
           [(1, "mkfs"%string); (2, "mount"%string); (3, "fuse_init: starting"%string)]
           4 marker (map (fun k => (5 + k, "copying"%string)) (seq 0 10)) 20 21 1);
    first [apply Nat.leb_le; vm_compute; reflexivity | reflexivity
          | apply (bool_decide_unpack _); vm_compute; exact I].
Defined.
