(* ===== verification/Retry.v ===== *)
(** * The retry driver: [make_disk_image] (src/scripts/make_disk_image.py,
      lines 83-110)

    [make_disk_image] fetches the helper scripts with [git-annex get]
    ([annex_get]), then for each of the [range(retry)] iterations builds
    the environment of an attempt ([build_env], lines 96-107) and runs
    [_make_disk_image] under [asyncio.run], returning [True] at the first
    attempt that returns [True].  The loop is [retry_loop], proved in the
    Section [RetryLoop] against any attempt: it refines [retry_spec], the
    list-level reading of the spec (at most [retry] attempts, stop at the
    first success, an exception stops the loop).  The Section
    [RunStable] shows that a whole run keeps any relation the primitives
    keep ([run_stable]).  On the whole driver, the spec's two tests hold
    on every host that meets their hypotheses: [k] builders that are
    never ready then a ready one give [True] after [k + 1] attempts, and
    builders that are never ready give [False] after [retry] attempts. *)

From Stdlib Require Import String ZArith.
From stdpp Require Import base list gmap strings.
From S2P Require Import Prelude PyText Process Supervisor.

Local Open Scope string_scope.

(** ** The program *)

(** [x if x is not None else ''] *)
Definition or_empty (o : option string) : string :=
  match o with Some s => s | None => EmptyString end.

(** The value of [SIZE]: [-1] for an existing image, [str(size)] when a
    size is given, empty otherwise. *)
Definition size_value (is_file : bool) (size : option Z) : string :=
  if is_file then "-1"
  else match size with Some n => py_str_int n | None => EmptyString end.

(** The dictionary display of lines 96-107: [os.environ] overridden by
    the five keys, in the order they are written. *)
Definition attempt_env (environ : Env) (name content : option string)
           (size : option Z) (tmpdir : option string) (is_file : bool) : Env :=
  <["TMP_DIR" := or_empty tmpdir]>
  (<["RM_FAILED" := "1"]>
   (<["SIZE" := size_value is_file size]>
    (<["CONTENT_SRC" := or_empty content]>
     (<["NAME" := or_empty name]> environ)))).

(** Lines 96-107, with [os.path.isfile(name)] evaluated for [SIZE]. *)
Definition build_env (name content : option string) (size : option Z)
           (tmpdir : option string) : PyM World Env :=
  environ <- gets (fun w => sys_environ (w_sys w)) ;;
  is_file <- isfile name ;;
  ret (attempt_env environ name content size tmpdir is_file).

(** Lines 95-110: [for _ in range(retry): if body: return True];
    [return False]. *)
Fixpoint retry_loop {S} (n : nat) (body : PyM S bool) : PyM S bool :=
  match n with
  | O => ret false
  | S n' =>
      ok <- body ;;
      if ok then ret true else retry_loop n' body
  end.

(** One iteration of the loop: lines 96-108. *)
Definition attempt (name content : option string) (size : option Z)
           (tmpdir : option string) : PyM World bool :=
  env <- build_env name content size tmpdir ;;
  _make_disk_image env.

(** Lines 83-110; [range(retry)] is empty for [retry <= 0]. *)
Definition make_disk_image (name content : option string) (size : option Z)
           (tmpdir : option string) (retry : Z) : PyM World bool :=
  annex_get ;;
  retry_loop (Z.to_nat retry) (attempt name content size tmpdir).

(** ** Hosts for the spec's tests: the first [k] spawns of the builder
    never print the marker, the later ones are ready. *)
Definition flaky_system (k : nat) : System :=
  mkSystem ∅ [] true
    (fun i => if Nat.ltb i k then unready_builder else ready_builder)
    (fun _ => quick_copier) (fun _ => mkUnmountScript true (Some 1)).

(** The first spawn of the builder fails, the later ones are ready. *)
Definition flaky_spawn_system : System :=
  mkSystem ∅ [] true
    (fun i => if Nat.eqb i 0 then mkBuilderScript false [] None None 0%Z
              else ready_builder)
    (fun _ => quick_copier) (fun _ => mkUnmountScript true (Some 1)).

(** No spawn of the builder ever prints the marker. *)
Definition unready_system : System :=
  mkSystem ∅ [] true (fun _ => unready_builder) (fun _ => quick_copier)
    (fun _ => mkUnmountScript true (Some 1)).

Definition count_events (f : event -> bool) (evs : list event) : nat :=
  length (filter (fun ev => f ev = true) evs).

(** ** The spec of the loop (section 4.3), on the list of the outcomes the
    successive attempts would have: the number of attempts made and the
    result. *)
Fixpoint retry_spec (n : nat) (outs : list (result bool)) : nat * result bool :=
  match n, outs with
  | O, _ => (0, Ok false)
  | S _, [] => (0, Ok false)
  | S n', r :: outs' =>
      match r with
      | Ok true => (1, Ok true)
      | Ok false => let '(k, r') := retry_spec n' outs' in (S k, r')
      | Exc e => (1, Exc e)
      | Hang => (1, Hang)
      end
  end.

(** The runs of a computation that add at most [k] spawns of the builder
    to the log. *)
Definition spawns_at_most {A} (k : nat) (m : PyM World A) : Prop :=
  forall w, exists evs, w_log (fst (m w)) = (w_log w ++ evs)%list /\
                        count_events is_spawn_builder evs <= k.

(** Attempts that fail twice, then succeed; the state counts them. *)
Definition counting_body : PyM nat bool :=
  fun s => (S s, if Nat.ltb s 2 then Ok false else Ok true).

(** A host where [git-annex get] fails. *)
Definition no_annex_system : System :=
  mkSystem ∅ [] false (fun _ => ready_builder) (fun _ => quick_copier)
    (fun _ => mkUnmountScript true (Some 1)).

(** ** The loop refines its spec *)
Section RetryLoop.
Context {St : Type} (body : PyM St bool) (st : nat -> St) (outs : list (result bool)).

(** The [i]-th attempt starts in state [st i], ends in [st (S i)] and has
    outcome [outs !! i]. *)
Hypothesis Hbody : forall i r, outs !! i = Some r -> body (st i) = (st (S i), r).

Lemma retry_loop_refines_from n j :
  j + n <= length outs ->
  retry_loop n body (st j) =
    (st (j + fst (retry_spec n (drop j outs))), snd (retry_spec n (drop j outs))).
Proof.
  induction n as [|n IH] in j |- *; intros Hlen; simpl; [by rewrite Nat.add_0_r|].
  destruct (lookup_lt_is_Some_2 outs j) as [r Hr]; [lia|].
  rewrite (drop_S _ _ _ Hr). simpl.
  unfold bind. rewrite (Hbody _ _ Hr).
  destruct r as [[]| |]; simpl; try by rewrite Nat.add_1_r.
  rewrite (IH (S j)) by lia.
  destruct (retry_spec n (drop (S j) outs)) as [k r']. simpl. by rewrite Nat.add_succ_r.
Qed.

(** C4 The loop of lines 95-110 refines the spec of the retry driver:
    run on attempts whose successive outcomes are [outs], it makes exactly
    the attempts [retry_spec] counts (up to the first success, at most
    [n]) and returns the result [retry_spec] gives ([True] at the first
    success, [False] after [n] failures, the exception of an attempt that
    raises). *)
Theorem retry_loop_refines n :
  n <= length outs ->
  retry_loop n body (st 0) =
    (st (fst (retry_spec n outs)), snd (retry_spec n outs)).
Proof. intros Hlen. by rewrite (retry_loop_refines_from n 0). Qed.
End RetryLoop.

(** ** Every run keeps what its primitives keep
    For any preorder [R] kept by the primitives ([run_stable]), an
    attempt and the whole driver keep [R]. *)
Section RunStable.
Context (R : World -> World -> Prop) `{!PreOrder R} (HR : run_stable R).

Lemma retry_loop_stable n (body : PyM World bool) :
  stable R body -> stable R (retry_loop n body).
Proof. intros Hb. induction n as [|n IH]; simpl; stable_auto. Qed.

Lemma _make_disk_image_stable env : stable R (_make_disk_image env).
Proof.
  intros w. apply (make_disk_image_fuel_stable R HR (ps_popen_copier _ HR)).
  exact (ps_spawn_builder _ HR).
Qed.

Lemma attempt_stable name content size tmpdir :
  stable R (attempt name content size tmpdir).
Proof.
  pose proof (ps_isfile _ HR). pose proof _make_disk_image_stable.
  unfold attempt, build_env. stable_auto.
Qed.

Lemma make_disk_image_stable name content size tmpdir retry :
  stable R (make_disk_image name content size tmpdir retry).
Proof.
  unfold make_disk_image. apply stable_bind; [apply _ | exact (ps_annex_get _ HR) |].
  intros _. apply retry_loop_stable, attempt_stable.
Qed.
End RunStable.

(** ** The environment of an attempt *)

(** C20 The environment an attempt gives the builder (lines 96-107):
    [NAME], [CONTENT_SRC] and [TMP_DIR] hold the argument, or [''] for
    [None]; [SIZE] is ["-1"] when the image file exists, whatever the
    size, otherwise [str(size)] or [''] for [None]; [RM_FAILED] is ["1"];
    every other key is the one of [os.environ]. *)
Theorem attempt_env_spec environ name content size tmpdir is_file :
  let env := attempt_env environ name content size tmpdir is_file in
  env !! "NAME" = Some (match name with Some s => s | None => EmptyString end) /\
  env !! "CONTENT_SRC" = Some (match content with Some s => s | None => EmptyString end) /\
  env !! "SIZE" = Some (if is_file then "-1"
                        else match size with Some n => py_str_int n | None => EmptyString end) /\
  env !! "RM_FAILED" = Some "1" /\
  env !! "TMP_DIR" = Some (match tmpdir with Some s => s | None => EmptyString end) /\
  forall k, k ∉ ["NAME"; "CONTENT_SRC"; "SIZE"; "RM_FAILED"; "TMP_DIR"] ->
            env !! k = environ !! k.
Proof.
  unfold attempt_env. split_and!; try by simplify_map_eq.
  intros k Hk. rewrite !elem_of_cons in Hk.
  rewrite !lookup_insert_ne; [done | naive_solver ..].
Qed.

(** C21 The first event of an attempt on an image name: the builder's spawn,
    with the environment of lines 96-107 (with [SIZE] read from whether the
    name is an existing file); or nothing when the builder cannot be
    spawned. *)
Theorem attempt_spawns_with_env n content size tmpdir w w' r :
  attempt (Some n) content size tmpdir w = (w', r) ->
  let E := attempt_env (sys_environ (w_sys w)) (Some n) content size tmpdir
                       (bool_decide (n ∈ sys_files (w_sys w))) in
  exists evs, w_log w' = (w_log w ++ evs)%list /\
    ((evs = [] /\ r = Exc OSError) \/
     exists evs', evs = EvSpawnBuilder (w_next_pid w) E :: evs').
Proof.
  intros H E. unfold attempt, build_env, isfile, gets, bind at 1 2 3 in H.
  simpl in H. fold E in H. unfold _make_disk_image, make_disk_image_fuel in H.
  unfold bind in H at 1.
  destruct (spawn_builder E w) as [w1 [pid| e |]] eqn:Hs.
  - pose proof (supervise_stable evolves evolves_prims (ps_popen_copier _ evolves_prims) (attempt_fuel w) pid w1) as Hev.
    rewrite H in Hev. destruct Hev as (_ & [d Hd] & _).
    apply spawn_builder_Ok in Hs as (-> & _ & Hl1 & _).
    exists (EvSpawnBuilder (w_next_pid w) E :: d). split.
    + simpl in Hd. rewrite Hd, Hl1. by rewrite <- app_assoc.
    + right. by eexists.
  - unfold spawn_builder in Hs. destruct (bs_spawns _); [done|].
    injection Hs as <- <-. injection H as <- <-. exists []. rewrite app_nil_r. split; [done | by left].
  - unfold spawn_builder in Hs. by destruct (bs_spawns _).
Qed.

(** ** Error paths of [make_disk_image] *)

(** C18 [make_disk_image] with its default [name=None] never builds
    anything: [os.path.isfile(None)] raises [TypeError] in the first
    iteration, although lines 98 and 101 otherwise treat a [None] name as
    the empty string. *)
Theorem make_disk_image_name_none content size tmpdir retry w :
  sys_annex_ok (w_sys w) = true -> (0 < retry)%Z ->
  make_disk_image None content size tmpdir retry w =
    (log_event EvAnnexGet w, Exc TypeError).
Proof.
  intros Ha Hr. unfold make_disk_image, annex_get, bind at 1. rewrite Ha.
  destruct (Z.to_nat retry) eqn:Hn; [lia|]. reflexivity.
Qed.

(** C22 [git-annex get] failing raises [CalledProcessError] before any
    attempt. *)
Theorem make_disk_image_annex_fails name content size tmpdir retry w :
  sys_annex_ok (w_sys w) = false ->
  make_disk_image name content size tmpdir retry w =
    (log_event EvAnnexGet w, Exc CalledProcessError).
Proof. intros Ha. unfold make_disk_image, annex_get, bind. by rewrite Ha. Qed.

(** C16 A builder that cannot be spawned ends the whole build: the
    [OSError] of [create_subprocess_exec] (line 13) escapes [asyncio.run]
    and [make_disk_image], so on every host where the first spawn fails
    no other attempt runs, whatever [retry] allows, although the spec
    turns a spawn failure into a failed attempt. *)
Theorem make_disk_image_spawn_failure_not_retried n content size tmpdir retry w :
  sys_annex_ok (w_sys w) = true -> (0 < retry)%Z ->
  bs_spawns (sys_builder (w_sys w) (w_nbuilder w)) = false ->
  make_disk_image (Some n) content size tmpdir retry w =
    (next_builder (log_event EvAnnexGet w), Exc OSError).
Proof.
  intros Ha Hr Hb. unfold make_disk_image, annex_get, bind at 1. rewrite Ha.
  destruct (Z.to_nat retry) eqn:Hn; [lia|]. cbn [retry_loop].
  assert (Hat : attempt (Some n) content size tmpdir (log_event EvAnnexGet w) =
                (next_builder (log_event EvAnnexGet w), Exc OSError)).
  { unfold attempt, build_env, isfile, gets, _make_disk_image,
      make_disk_image_fuel, spawn_builder, bind, ret.
    simpl. by rewrite Hb. }
  unfold bind at 1. by rewrite Hat.
Qed.

(** ** At most [retry] builds *)

Lemma count_events_app f l1 l2 :
  count_events f (l1 ++ l2) = count_events f l1 + count_events f l2.
Proof. unfold count_events. by rewrite filter_app, length_app. Qed.

Lemma count_events_none f l : existsb f l = false -> count_events f l = 0.
Proof.
  induction l as [|ev l IH]; simpl; [done|].
  intros [Hf Hl]%orb_false_iff. unfold count_events. rewrite filter_cons_False.
  - by apply IH.
  - by rewrite Hf.
Qed.

Lemma log_unchanged k (w : World) :
  exists evs, w_log w = (w_log w ++ evs)%list /\ count_events is_spawn_builder evs <= k.
Proof. exists []. rewrite app_nil_r. split; [done | unfold count_events; simpl; lia]. Qed.

Lemma supervise_no_spawn n m w :
  exists evs, w_log (fst (supervise n m w)) = (w_log w ++ evs)%list /\
              count_events is_spawn_builder evs = 0.
Proof.
  destruct (supervise_stable no_spawn no_spawn_core (ps_popen_copier _ no_spawn_core) n m w) as (_ & evs & Hl & He).
  exists evs. split; [done|]. by apply count_events_none.
Qed.

(** One iteration spawns the builder at most once: [build_env] spawns
    nothing and [_make_disk_image] spawns it once, before [supervise]. *)
Lemma attempt_spawns_at_most_one name content size tmpdir :
  spawns_at_most 1 (attempt name content size tmpdir).
Proof.
  intros w. unfold attempt, build_env, isfile, gets, bind at 1 2 3.
  destruct name as [n|]; simpl; [|apply log_unchanged].
  unfold _make_disk_image, make_disk_image_fuel, bind at 1.
  destruct (spawn_builder _ w) as [w1 [pid| |]] eqn:Hs.
  - apply spawn_builder_Ok in Hs as (_ & _ & Hl1 & _).
    destruct (supervise_no_spawn (attempt_fuel w) pid w1) as (evs & Hl & Hc).
    eexists. rewrite Hl, Hl1, <- app_assoc. split; [reflexivity|].
    rewrite count_events_app, Hc. unfold count_events. simpl. lia.
  - unfold spawn_builder in Hs. destruct (bs_spawns _); [done|].
    injection Hs as <- <-. exact (log_unchanged 1 w).
  - unfold spawn_builder in Hs. destruct (bs_spawns _); [|done].
    unfold add_proc in Hs. by injection Hs.
Qed.

Lemma retry_loop_spawns n body :
  spawns_at_most 1 body -> spawns_at_most n (retry_loop n body).
Proof.
  intros Hb. induction n as [|n IH]; intros w; simpl.
  - apply log_unchanged.
  - unfold bind. destruct (Hb w) as (evs1 & Hl1 & Hc1).
    destruct (body w) as [w1 [[]| |]]; simpl in *;
      try (exists evs1; split; [done | lia]).
    destruct (IH w1) as (evs2 & Hl2 & Hc2). exists (evs1 ++ evs2)%list.
    rewrite Hl2, Hl1, app_assoc, count_events_app. split; [done | lia].
Qed.

(** C5 [make_disk_image] runs the builder at most [retry] times: whatever
    the host does, the log of a run has at most [retry] spawns of
    [make_disk_image.sh] (none for [retry <= 0]). *)
Theorem make_disk_image_spawns_bounded name content size tmpdir retry :
  spawns_at_most (Z.to_nat retry) (make_disk_image name content size tmpdir retry).
Proof.
  intros w. unfold make_disk_image, annex_get, bind at 1.
  destruct (sys_annex_ok (w_sys w)); simpl.
  - destruct (retry_loop_spawns (Z.to_nat retry) _
                (attempt_spawns_at_most_one name content size tmpdir)
                (log_event EvAnnexGet w)) as (evs & Hl & Hc).
    exists (EvAnnexGet :: evs). rewrite Hl. simpl. rewrite <- app_assoc.
    split; [done|]. change (EvAnnexGet :: evs) with ([EvAnnexGet] ++ evs)%list.
    rewrite count_events_app. unfold count_events at 1. simpl. lia.
  - exists [EvAnnexGet]. split; [done|]. unfold count_events. simpl. lia.
Qed.

(** The events of a list that [P] marks are not counted by [f]. *)
Lemma count_events_Forall f (P : event -> bool) l :
  (forall ev, P ev = true -> f ev = false) -> Forall (fun ev => P ev = true) l ->
  count_events f l = 0.
Proof.
  intros Hf Hl. apply count_events_none.
  induction Hl as [|ev l Hev _ IH]; [done|]. simpl. by rewrite Hf, IH.
Qed.

(** What [f] counts in the events of an attempt without a populator. *)
Lemma count_attempt_events f m E reads kills :
  Forall (fun ev => is_read ev = true) reads -> Forall (fun ev => is_kill ev = true) kills ->
  (forall ev, is_read ev = true -> f ev = false) -> (forall ev, is_kill ev = true -> f ev = false) ->
  count_events f (EvSpawnBuilder m E :: reads ++ kills ++ [EvUnmount]) =
  count_events f [EvSpawnBuilder m E; EvUnmount].
Proof.
  intros Hr Hk Hfr Hfk.
  change (EvSpawnBuilder m E :: reads ++ kills ++ [EvUnmount])
    with ([EvSpawnBuilder m E] ++ reads ++ kills ++ [EvUnmount])%list.
  change [EvSpawnBuilder m E; EvUnmount] with ([EvSpawnBuilder m E] ++ [EvUnmount])%list.
  rewrite !count_events_app, (count_events_Forall f is_read reads),
    (count_events_Forall f is_kill kills) by done. lia.
Qed.

(** The attempts of the loop on a host whose builders never become
    ready. *)
Lemma retry_loop_unready k n content size tmpdir w :
  (forall i, let b := sys_builder (w_sys w) i in
     bs_spawns b = true /\ Forall (fun l => quiet_line l = true) (bs_err b) /\ bs_eof b <> None) ->
  (forall j, let u := sys_unmount (w_sys w) j in us_spawns u = true /\ us_duration u <> None) ->
  exists w' evs, retry_loop k (attempt (Some n) content size tmpdir) w = (w', Ok false) /\
    w_log w' = (w_log w ++ evs)%list /\
    count_events is_spawn_builder evs = k /\ count_events is_unmount evs = k /\
    copier_of evs = None.
Proof.
  induction k as [|k IH] in w |- *; intros Hb Hu.
  { exists w, []. by rewrite app_nil_r. }
  set (E := attempt_env (sys_environ (w_sys w)) (Some n) content size tmpdir
                        (bool_decide (n ∈ sys_files (w_sys w)))).
  destruct (Hb (w_nbuilder w)) as (Hs & Hq & He). destruct (Hu (w_nunmount w)) as [Hus Hud].
  destruct (attempt_unready_run E w Hs Hq He Hus Hud)
    as (w1 & reads & kills & Ha & Hl1 & Hr & Hk & _).
  pose proof (_make_disk_image_stable evolves evolves_run E w) as (Hsys & _).
  rewrite Ha in Hsys. cbn [fst] in Hsys.
  destruct (IH w1) as (w' & evs & Hloop & Hl' & Hc1 & Hc2 & Hcp);
    [rewrite Hsys; apply Hb | rewrite Hsys; apply Hu |].
  exists w', ((EvSpawnBuilder (w_next_pid w) E :: reads ++ kills ++ [EvUnmount]) ++ evs)%list.
  assert (Hat : attempt (Some n) content size tmpdir w = (w1, Ok false)) by exact Ha.
  cbn [retry_loop]. unfold bind at 1. rewrite Hat. split_and!; [exact Hloop | | | |].
  - rewrite Hl', Hl1. by rewrite <- !app_assoc.
  - rewrite count_events_app, count_attempt_events, Hc1 by (done || by intros []).
    unfold count_events. simpl. lia.
  - rewrite count_events_app, count_attempt_events, Hc2 by (done || by intros []).
    unfold count_events. simpl. lia.
  - rewrite copier_of_app. simpl.
    by rewrite copier_of_reads, copier_of_app, copier_of_kills.
Qed.

(** C12 Spec test "always fails", on every host: when no builder ever
    prints the marker (each spawns, prints lines within the limit and
    closes its stderr) and [unmount.sh] always runs to its end,
    [make_disk_image] returns [False] after exactly [retry] attempts
    (none for [retry <= 0]), each followed by one run of [unmount.sh],
    and [cp.sh] is never spawned. *)
Theorem make_disk_image_never_ready n content size tmpdir retry w :
  sys_annex_ok (w_sys w) = true ->
  (forall i, let b := sys_builder (w_sys w) i in
     bs_spawns b = true /\ Forall (fun l => quiet_line l = true) (bs_err b) /\ bs_eof b <> None) ->
  (forall j, let u := sys_unmount (w_sys w) j in us_spawns u = true /\ us_duration u <> None) ->
  exists w' evs, make_disk_image (Some n) content size tmpdir retry w = (w', Ok false) /\
    w_log w' = (w_log w ++ EvAnnexGet :: evs)%list /\
    count_events is_spawn_builder evs = Z.to_nat retry /\
    count_events is_unmount evs = Z.to_nat retry /\ copier_of evs = None.
Proof.
  intros Ha Hb Hu. unfold make_disk_image, annex_get, bind at 1. rewrite Ha.
  destruct (retry_loop_unready (Z.to_nat retry) n content size tmpdir (log_event EvAnnexGet w))
    as (w' & evs & Hl & Hl' & Hc); [apply Hb | apply Hu |].
  exists w', evs. split_and!; try done; [| apply Hc ..].
  rewrite Hl'. simpl. by rewrite <- app_assoc.
Qed.

(** The events of an attempt before its [finally] block count no spawn of
    the builder and no unmount. *)
Lemma count_events_early f evs :
  (forall ev, is_early ev = true -> f ev = false) ->
  Forall (fun ev => is_early ev = true) evs -> count_events f evs = 0.
Proof. intros Hf He. by apply (count_events_Forall f is_early). Qed.

(** The attempts of the loop when the first [k] builders never become
    ready and the next one does. *)
Lemma retry_loop_ready_after k r n content size tmpdir w :
  k < r ->
  (forall i, i < k -> let b := sys_builder (w_sys w) (w_nbuilder w + i) in
     bs_spawns b = true /\ Forall (fun l => quiet_line l = true) (bs_err b) /\ bs_eof b <> None) ->
  ready_scripts (sys_builder (w_sys w) (w_nbuilder w + k)) (sys_copier (w_sys w) (w_ncopier w)) ->
  (forall j, let u := sys_unmount (w_sys w) j in us_spawns u = true /\ us_duration u <> None) ->
  exists w' evs, retry_loop r (attempt (Some n) content size tmpdir) w = (w', Ok true) /\
    w_log w' = (w_log w ++ evs)%list /\
    count_events is_spawn_builder evs = S k /\ count_events is_unmount evs = k.
Proof.
  set (E := fun w : World => attempt_env (sys_environ (w_sys w)) (Some n) content size tmpdir
                               (bool_decide (n ∈ sys_files (w_sys w)))).
  induction k as [|k IH] in r, w |- *; intros Hr Hb Hready Hu;
    (destruct r as [|r]; [lia|]); cbn [retry_loop].
  - rewrite Nat.add_0_r in Hready.
    destruct (attempt_ready_run (E w) w Hready) as (w' & evs & Ha & Hl & _ & He).
    assert (Hat : attempt (Some n) content size tmpdir w = (w', Ok true)) by exact Ha.
    exists w', (EvSpawnBuilder (w_next_pid w) (E w) :: evs).
    unfold bind at 1. rewrite Hat. split_and!; [done | done | |].
    + change (EvSpawnBuilder (w_next_pid w) (E w) :: evs)
        with ([EvSpawnBuilder (w_next_pid w) (E w)] ++ evs)%list.
      rewrite count_events_app, (count_events_early _ evs) by (done || by intros []). done.
    + change (EvSpawnBuilder (w_next_pid w) (E w) :: evs)
        with ([EvSpawnBuilder (w_next_pid w) (E w)] ++ evs)%list.
      rewrite count_events_app, (count_events_early _ evs) by (done || by intros []). done.
  - destruct (Hb 0) as (Hs & Hq & He); [lia|]. rewrite Nat.add_0_r in Hs, Hq, He.
    destruct (Hu (w_nunmount w)) as [Hus Hud].
    destruct (attempt_unready_run (E w) w Hs Hq He Hus Hud)
      as (w1 & reads & kills & Ha & Hl1 & Hr1 & Hk1 & Hs1 & Hn1 & Hc1).
    assert (Hat : attempt (Some n) content size tmpdir w = (w1, Ok false)) by exact Ha.
    destruct (IH r w1) as (w' & evs & Hloop & Hl' & Hc' & Hu'); [lia | | | |].
    { intros i Hi. rewrite Hs1, Hn1. replace (S (w_nbuilder w) + i) with (w_nbuilder w + S i) by lia.
      apply Hb. lia. }
    { rewrite Hs1, Hn1, Hc1. by replace (S (w_nbuilder w) + k) with (w_nbuilder w + S k) by lia. }
    { rewrite Hs1. apply Hu. }
    exists w', ((EvSpawnBuilder (w_next_pid w) (E w) :: reads ++ kills ++ [EvUnmount]) ++ evs)%list.
    unfold bind at 1. rewrite Hat. split_and!; [exact Hloop | | | ].
    + rewrite Hl', Hl1. by rewrite <- !app_assoc.
    + rewrite count_events_app, count_attempt_events, Hc' by (done || by intros []).
      unfold count_events. simpl. lia.
    + rewrite count_events_app, count_attempt_events, Hu' by (done || by intros []).
      unfold count_events. simpl. lia.
Qed.

(** C11 Spec test "succeeds the third time", on every host: when the
    first [k] builders never print the marker (each closes its stderr,
    and [unmount.sh] runs to its end after each) and the next one is
    ready with its [cp.sh] ([ready_scripts]), and [retry] allows more
    than [k] attempts, [make_disk_image] returns [True] after exactly
    [k + 1] spawns of the builder and [k] runs of [unmount.sh]. *)
Theorem make_disk_image_ready_after n content size tmpdir retry w k :
  sys_annex_ok (w_sys w) = true -> k < Z.to_nat retry ->
  (forall i, i < k -> let b := sys_builder (w_sys w) (w_nbuilder w + i) in
     bs_spawns b = true /\ Forall (fun l => quiet_line l = true) (bs_err b) /\ bs_eof b <> None) ->
  ready_scripts (sys_builder (w_sys w) (w_nbuilder w + k)) (sys_copier (w_sys w) (w_ncopier w)) ->
  (forall j, let u := sys_unmount (w_sys w) j in us_spawns u = true /\ us_duration u <> None) ->
  exists w' evs, make_disk_image (Some n) content size tmpdir retry w = (w', Ok true) /\
    w_log w' = (w_log w ++ EvAnnexGet :: evs)%list /\
    count_events is_spawn_builder evs = S k /\ count_events is_unmount evs = k.
Proof.
  intros Ha Hk Hb Hr Hu. unfold make_disk_image, annex_get, bind at 1. rewrite Ha.
  destruct (retry_loop_ready_after k (Z.to_nat retry) n content size tmpdir (log_event EvAnnexGet w))
    as (w' & evs & Hl & Hl' & Hc); [done | apply Hb | exact Hr | apply Hu |].
  exists w', evs. split_and!; try done; [| apply Hc ..].
  rewrite Hl'. simpl. by rewrite <- app_assoc.
Qed.

(** ** Witnesses *)

Lemma retry_loop_refines_witness :
  retry_loop 5 counting_body 0 = (3, Ok true).
Proof.
  apply (retry_loop_refines counting_body (fun i => i)
           [Ok false; Ok false; Ok true; Ok true; Ok true]);
    [intros [|[|[|[|[|i]]]]] r Hr; simpl in Hr; simplify_eq; reflexivity | simpl; lia].
Defined.

Lemma make_disk_image_name_none_witness :
  make_disk_image None None None None 10 (start (flaky_system 0)) =
    (log_event EvAnnexGet (start (flaky_system 0)), Exc TypeError).
Proof. apply make_disk_image_name_none; [reflexivity | lia]. Defined.

Lemma make_disk_image_annex_fails_witness :
  make_disk_image (Some "disk.img") None None None 10 (start no_annex_system) =
    (log_event EvAnnexGet (start no_annex_system), Exc CalledProcessError).
Proof. apply make_disk_image_annex_fails. reflexivity. Defined.

Lemma attempt_spawns_with_env_witness :
  let w := start (flaky_system 0) in
  let E := attempt_env ∅ (Some "disk.img") (Some "content") (Some 1024%Z) None false in
  exists evs,
    w_log (fst (attempt (Some "disk.img") (Some "content") (Some 1024%Z) None w)) =
      (w_log w ++ evs)%list /\
    ((evs = [] /\ snd (attempt (Some "disk.img") (Some "content") (Some 1024%Z) None w)
                  = Exc OSError) \/
     exists evs', evs = EvSpawnBuilder 0 E :: evs').
Proof.
  apply (attempt_spawns_with_env "disk.img" (Some "content") (Some 1024%Z) None
           (start (flaky_system 0))).
  apply surjective_pairing.
Defined.

Lemma make_disk_image_spawn_failure_not_retried_witness :
  make_disk_image (Some "disk.img") (Some "content") None None 10 (start flaky_spawn_system) =
    (next_builder (log_event EvAnnexGet (start flaky_spawn_system)), Exc OSError).
Proof. apply make_disk_image_spawn_failure_not_retried; first [reflexivity | lia]. Defined.

Lemma make_disk_image_never_ready_witness :
  exists w' evs,
    make_disk_image (Some "disk.img") (Some "content") None None 2 (start unready_system) =
      (w', Ok false) /\
    w_log w' = (w_log (start unready_system) ++ EvAnnexGet :: evs)%list /\
    count_events is_spawn_builder evs = Z.to_nat 2 /\
    count_events is_unmount evs = Z.to_nat 2 /\ copier_of evs = None.
Proof.
  apply make_disk_image_never_ready; [reflexivity | |];
    intros i; split_and!; first [reflexivity | discriminate
                                | apply (bool_decide_unpack _); vm_compute; exact I].
Defined.

Lemma make_disk_image_ready_after_witness :
  exists w' evs,
    make_disk_image (Some "disk.img") (Some "content") None None 3 (start (flaky_system 2)) =
      (w', Ok true) /\
    w_log w' = (w_log (start (flaky_system 2)) ++ EvAnnexGet :: evs)%list /\
    count_events is_spawn_builder evs = S 2 /\ count_events is_unmount evs = 2.
Proof.
  apply make_disk_image_ready_after.
  - reflexivity.
  - vm_compute. lia.
  - intros i Hi. destruct i as [|[|i]]; [| | lia];
      split_and!; first [reflexivity | discriminate
                        | apply (bool_decide_unpack _); vm_compute; exact I].
  - split_and!; try reflexivity.
    exists [(1, "mkfs"); (2, "mount"); (3, "fuse_init: starting")], 4, marker,
      (map (fun k => (5 + k, "copying")) (seq 0 10)), 20, 21, 1.
    split_and!; first [apply Nat.leb_le; vm_compute; reflexivity | reflexivity
                      | apply (bool_decide_unpack _); vm_compute; exact I].
  - intros j. split_and!; first [reflexivity | discriminate].
Defined.
