(* ===== verification/PosixPath.v ===== *)
(** * [os.path] on POSIX: [join] and [dirname]

    The facade of src/bcachefs/zipfile/zipfile.py builds the names it
    lists with [os.path.join] (lines 58 and 95) and rebases a cursor's
    names on [os.path.dirname(pwd)] (line 92).  These are the library
    functions of CPython's [posixpath], translated from their code; a
    Python [str] path is a list of characters.  The lemmas show that
    [join] is associative (so the three-argument join of line 95 is the
    two-argument join of line 58 under a prefix), that [dirname] undoes a
    [join] with a plain file name, and that [join] is injective on a
    directory and a plain file name. *)

From Stdlib Require Import Ascii String.
From stdpp Require Import base list strings.
From S2P Require Import Prelude.

Abbreviation pystr := (list ascii).

Definition sep : ascii := "/"%char.

Definition is_sep (c : ascii) : bool := bool_decide (c = sep).

(** [p.startswith(sep)] and [p.endswith(sep)] *)
Definition starts_sep (p : pystr) : bool :=
  match p with c :: _ => is_sep c | [] => false end.

Definition ends_sep (p : pystr) : bool :=
  match last p with Some c => is_sep c | None => false end.

(** One step of [posixpath.join(a, *p)]:
    [if b.startswith(sep): path = b
     elif not path or path.endswith(sep): path += b
     else: path += sep + b] *)
Definition join2 (path b : pystr) : pystr :=
  if starts_sep b then b
  else if bool_decide (path = []) || ends_sep path then path ++ b
  else path ++ sep :: b.

(** [posixpath.join(a, *p)]: the loop over [p]. *)
Definition join (a : pystr) (ps : list pystr) : pystr := foldl join2 a ps.

(** [posixpath.dirname(p)]:
    [i = p.rfind(sep) + 1; head = p[:i]
     if head and head != sep*len(head): head = head.rstrip(sep)
     return head] *)
Definition dirname (p : pystr) : pystr :=
  let head := rev (drop_while (fun c => negb (is_sep c)) (rev p)) in
  if negb (bool_decide (head = [])) && negb (forallb is_sep head)
  then rev (drop_while is_sep (rev head))
  else head.

(** A component with no separator: a file name. *)
Definition plain (n : pystr) : Prop := Forall (fun c => is_sep c = false) n.

#[export] Instance plain_dec n : Decision (plain n).
Proof. unfold plain. apply _. Defined.

(** ** Lemmas *)

(** What [join2 a] puts between [a] and a relative component. *)
Definition sep_after (a : pystr) : pystr :=
  if bool_decide (a = []) || ends_sep a then [] else [sep].

Lemma drop_while_app {A} (f : A -> bool) l m :
  Forall (fun x => f x = true) l -> drop_while f (l ++ m) = drop_while f m.
Proof. induction 1 as [|x l Hx _ IH]; simpl; [done|]. by rewrite Hx. Qed.

Lemma drop_while_all {A} (f : A -> bool) l :
  Forall (fun x => f x = true) l -> drop_while f l = [].
Proof. intros H. rewrite <- (app_nil_r l). by rewrite drop_while_app. Qed.

Lemma plain_rev_negb n :
  plain n -> Forall (fun c => negb (is_sep c) = true) (rev n).
Proof.
  intros H. apply Forall_rev. eapply Forall_impl; [exact H|].
  intros c ->. reflexivity.
Qed.

Lemma ends_sep_app_ne p q : q <> [] -> ends_sep (p ++ q) = ends_sep q.
Proof. destruct q as [|x q]; [done|]. intros _. unfold ends_sep. by rewrite last_app_cons. Qed.

Lemma starts_sep_app_ne p q : p <> [] -> starts_sep (p ++ q) = starts_sep p.
Proof. by destruct p. Qed.

Lemma starts_sep_plain n : plain n -> starts_sep n = false.
Proof. by destruct 1. Qed.

Lemma ends_sep_cons_sep p : ends_sep (p ++ [sep]) = true.
Proof. unfold ends_sep. by rewrite last_snoc. Qed.

Lemma join2_plain_nil n : plain n -> join2 [] n = n.
Proof. intros Hn. unfold join2. by rewrite starts_sep_plain. Qed.

(** Joining a directory that does not end in [/] with a file name puts a
    [/] between them. *)
Lemma join2_plain d n :
  d <> [] -> ends_sep d = false -> plain n -> join2 d n = d ++ sep :: n.
Proof.
  intros Hd He Hn. unfold join2. rewrite starts_sep_plain, He by done.
  by rewrite bool_decide_false.
Qed.

Lemma join2_ne_nil a b : b <> [] -> join2 a b <> [].
Proof.
  intros Hb. unfold join2. repeat case_match; try done;
    intros Hn; apply app_eq_nil in Hn as [_ Hn]; congruence.
Qed.

(** The first character of a join of a relative [b] is [a]'s, or [b]'s
    when [a] is empty. *)
Lemma starts_sep_join2 a b :
  b <> [] -> starts_sep b = false -> starts_sep (join2 a b) = starts_sep a.
Proof.
  intros Hb Hs. unfold join2. rewrite Hs.
  destruct a as [|c a]; [rewrite bool_decide_true; [simpl; by rewrite Hs | done]|]. by case_match.
Qed.

Lemma ends_sep_join2 a b : b <> [] -> ends_sep (join2 a b) = ends_sep b.
Proof.
  intros Hb. unfold join2. repeat case_match; try done;
    [by rewrite ends_sep_app_ne|].
  rewrite (ends_sep_app_ne _ (sep :: b)) by done.
  exact (ends_sep_app_ne [sep] b Hb).
Qed.

Lemma join2_nil_r a :
  join2 a [] = if bool_decide (a = []) || ends_sep a then a else a ++ [sep].
Proof. unfold join2. simpl. case_match; by rewrite ?app_nil_r. Qed.

(** Cutting a list at its last [x]. *)
Lemma app_cons_last_inj {A} (x : A) (l m l' m' : list A) :
  x ∉ m -> x ∉ m' -> l ++ x :: m = l' ++ x :: m' -> l = l' /\ m = m'.
Proof.
  intros Hm Hm' H.
  induction l as [|y l IH] in l', H |- *; destruct l' as [|y' l']; simpl in H.
  - by injection H.
  - injection H as -> H. destruct Hm. rewrite H. apply elem_of_app. right; left.
  - injection H as <- H. destruct Hm'. rewrite <- H. apply elem_of_app. right; left.
  - injection H as -> H. by destruct (IH l' H) as [-> ->].
Qed.

Lemma plain_not_sep n : plain n -> sep ∉ n.
Proof.
  intros Hn Hin. eapply Forall_forall in Hn; [|exact Hin].
  unfold is_sep in Hn. by rewrite bool_decide_true in Hn.
Qed.

#[export] Hint Resolve plain_not_sep starts_sep_plain : pyexec.

Lemma join2_abs a b : starts_sep b = true -> join2 a b = b.
Proof. unfold join2. by intros ->. Qed.

Lemma join2_rel a b : starts_sep b = false -> join2 a b = a ++ sep_after a ++ b.
Proof. unfold join2, sep_after. intros ->. by case_match. Qed.

Lemma sep_after_ne a : a <> [] -> sep_after a = if ends_sep a then [] else [sep].
Proof. intros Ha. unfold sep_after. by rewrite bool_decide_false. Qed.

Lemma sep_after_app a b : b <> [] -> sep_after (a ++ b) = sep_after b.
Proof.
  intros Hb. rewrite !sep_after_ne, ends_sep_app_ne; [done..|].
  intros Hab. by apply app_eq_nil in Hab as [_ ?].
Qed.

Lemma sep_after_idem a : sep_after (a ++ sep_after a) = [].
Proof.
  unfold sep_after at 2. destruct (bool_decide (a = [])) eqn:Ha.
  - apply bool_decide_eq_true in Ha as ->. reflexivity.
  - simpl. destruct (ends_sep a) eqn:He.
    + rewrite app_nil_r. unfold sep_after. by rewrite He, orb_true_r.
    + unfold sep_after. by rewrite ends_sep_cons_sep, orb_true_r.
Qed.

Lemma starts_sep_ne b : starts_sep b = true -> b <> [].
Proof. by intros ? ->. Qed.

(** [posixpath.join] is associative: [join(a, join(b, c)) ==
    join(join(a, b), c)] for all strings, absolute or not, empty or not. *)
Theorem join2_assoc a b c : join2 a (join2 b c) = join2 (join2 a b) c.
Proof.
  destruct (starts_sep c) eqn:Hc; [by rewrite !(join2_abs _ c Hc)|].
  destruct (starts_sep b) eqn:Hb.
  { rewrite (join2_abs a b Hb). apply join2_abs.
    rewrite (join2_rel _ _ Hc), starts_sep_app_ne; [done|]. by apply starts_sep_ne. }
  rewrite (join2_rel b c Hc), (join2_rel a b Hb).
  destruct b as [|x b].
  - change (sep_after []) with (@nil ascii). rewrite !app_nil_l, app_nil_r.
    rewrite !(join2_rel _ c Hc), sep_after_idem. by rewrite app_nil_l, app_assoc.
  - rewrite join2_rel, join2_rel.
    + rewrite (sep_after_app a), (sep_after_app (sep_after a)); [|done|].
      * by rewrite <- !app_assoc.
      * intros Hn. by apply app_eq_nil in Hn as [_ ?].
    + done.
    + rewrite starts_sep_app_ne; [done | by destruct b].
Qed.

Lemma ends_sep_false_inv d :
  d <> [] -> ends_sep d = false -> exists d' c, d = d' ++ [c] /\ is_sep c = false.
Proof.
  intros Hd He. destruct (last d) as [c|] eqn:Hl; [|by apply last_None in Hl].
  apply last_Some in Hl as [d' ->]. exists d', c. split; [done|].
  unfold ends_sep in He. by rewrite last_snoc in He.
Qed.

(** [posixpath.dirname] undoes a [join] of a file name: for a directory
    [d] that does not end in [/] (the empty directory included) and a
    name [n] without [/], [dirname(join(d, n)) == d]. *)
Theorem dirname_join2 d n :
  ends_sep d = false -> plain n -> dirname (join2 d n) = d.
Proof.
  intros He Hn. destruct d as [|x d].
  { rewrite join2_plain_nil by done. unfold dirname.
    rewrite drop_while_all by (by apply plain_rev_negb). reflexivity. }
  rewrite join2_plain by done.
  destruct (ends_sep_false_inv (x :: d)) as (d' & c & Hd & Hc); [done..|].
  assert (Hsep : is_sep sep = true) by (unfold is_sep; by rewrite bool_decide_true).
  assert (Hh : rev (drop_while (fun c0 => negb (is_sep c0)) (rev ((d' ++ [c]) ++ sep :: n)))
               = d' ++ [c; sep]).
  { rewrite rev_app_distr. change (sep :: n) with ([sep] ++ n).
    rewrite rev_app_distr, <- app_assoc, drop_while_app by (by apply plain_rev_negb).
    rewrite rev_app_distr. simpl. rewrite ?Hsep. simpl.
    by rewrite rev_involutive, <- app_assoc. }
  rewrite Hd. unfold dirname. rewrite Hh.
  rewrite bool_decide_false by (intros Hn'; by apply app_eq_nil in Hn' as [_ ?]).
  rewrite forallb_app. simpl. rewrite Hc, andb_false_r. simpl.
  rewrite rev_app_distr. simpl. rewrite ?Hsep; simpl. rewrite Hc. simpl. by rewrite rev_involutive.
Qed.

Lemma join2_plain_cases d n :
  ends_sep d = false -> plain n ->
  join2 d n = n /\ d = [] \/ join2 d n = d ++ sep :: n /\ d <> [].
Proof.
  intros He Hn. destruct d as [|x d].
  - left. by rewrite join2_plain_nil.
  - right. by rewrite join2_plain.
Qed.

(** On directories that do not end in [/] and file names, [join] is
    injective: a joined name determines its directory and its file
    name. *)
Theorem join2_inj d n d' n' :
  ends_sep d = false -> ends_sep d' = false -> plain n -> plain n' ->
  join2 d n = join2 d' n' -> d = d' /\ n = n'.
Proof.
  intros He He' Hn Hn' Hj.
  destruct (join2_plain_cases d n He Hn) as [[Hj1 Hd] | [Hj1 Hd]],
    (join2_plain_cases d' n' He' Hn') as [[Hj2 Hd'] | [Hj2 Hd']];
    rewrite Hj1, Hj2 in Hj; subst.
  - done.
  - destruct (plain_not_sep _ Hn). apply elem_of_app. right; left.
  - destruct (plain_not_sep _ Hn'). apply elem_of_app. right; left.
  - by apply app_cons_last_inj in Hj; auto with pyexec.
Qed.
