(* ===== verification/ZipFile.v ===== *)
(** * The archive-like facade (src/bcachefs/zipfile/zipfile.py)

    [ZipFileLikeMixin] gives an image or a cursor of the external reader
    [bcachefs.bcachefs] the [zipfile.ZipFile] interface.  Each of its
    methods calls [super()], the reader's class that follows the mixin in
    the MRO: [bch.Bcachefs] for [ZipFile] (lines 98-103) and [bch.Cursor]
    for [Cursor] (lines 83-95).  The reader is not part of the repository;
    what the facade calls of it is the class [MixinBase] (and
    [CursorBase] for the calls only a cursor has), and every definition
    below is a method of the facade over any instance of it.

    The one method with code of its own is [namelist] (lines 42-58, and
    the override of lines 91-95): two nested loops over [walk()] and over
    [set(files)].  Python gives no order to a [set]; the Section
    [Namelist] takes the iteration order as a function [set_iter] with
    the one property Python promises, that it lists the distinct elements
    of [files] once each.  The theorems show which names are listed
    whatever that order, that no name is listed twice, and that a cursor
    lists the names its own walk gives, rebased on
    [os.path.dirname(pwd)].  Which
    method runs for which class ([__iter__] on a [Cursor] runs the
    override, [cursor_iter]) and that [super()] is the reader's class are
    shown in PyClass.v. *)

From Stdlib Require Import Ascii String ZArith.
From stdpp Require Import base list strings.
From S2P Require Import Prelude PosixPath.

(** A [(root, dirs, files)] triple of [walk()]. *)
Abbreviation walk_entry Ent := (pystr * list Ent * list Ent)%type.

(** What the mixin calls through [super()]: the methods [bch.Bcachefs]
    and [bch.Cursor] both have.  [Cur] is the type of the cursors
    [cd] opens, [Data] of what [read] returns, [File] of what [open]
    returns; a name is [Union[str, int]] and a path [Union[str, DirEnt]].
    A method that changes the object ([umount]) returns the new state. *)
Class MixinBase (T Cur Ent Data File : Type) := {
  base_walk : T -> list (walk_entry Ent);
  base_unmounted : T -> bool;
  base_filename : T -> pystr;
  base_open : T -> pystr + Z -> pystr -> pystr -> File;
  base_read : T -> pystr + Z -> Data;
  base_umount : T -> T;
  base_cd : T -> pystr + Ent -> Cur
}.

(** What [Cursor] calls of [bch.Cursor] besides: [pwd] and [close]. *)
Class CursorBase (Cur : Type) := {
  base_pwd : Cur -> pystr;
  base_close : Cur -> Cur
}.

Section Facade.
Context {T Cur Ent Data File : Type} `{!MixinBase T Cur Ent Data File}.

(** [DirEnt.name] and the iteration order of [set(files)]. *)
Context (ent_name : Ent -> pystr) (set_iter : list Ent -> list Ent).

(** Lines 56-58: [for root, _, files in walk: for f in set(files):
    yield os.path.join(root, f.name)]. *)
Definition names_of_walk (walk : list (walk_entry Ent)) : list pystr :=
  walk ≫= (fun '(root, _, files) =>
             (fun f => join root [ent_name f]) <$> set_iter files).

(** Lines 42-58: [ZipFileLikeMixin.namelist]. *)
Definition namelist (self : T) : list pystr := names_of_walk (base_walk self).

(** Lines 29-30: [__iter__] returns [self.namelist()]. *)
Definition iter (self : T) : list pystr := namelist self.

(** Lines 32-35 and 37-40: the properties [closed] and [filename]. *)
Definition closed (self : T) : bool := base_unmounted self.

Definition filename (self : T) : pystr := base_filename self.

(** Lines 60-66: [open] (defaults [mode="rb"], [encoding="utf-8"]) and
    [read]. *)
Definition open_ (self : T) (name : pystr + Z) (mode encoding : pystr) : File :=
  base_open self name mode encoding.

Definition open_default (self : T) (name : pystr + Z) : File :=
  open_ self name (list_ascii_of_string "rb") (list_ascii_of_string "utf-8").

Definition read (self : T) (inode : pystr + Z) : Data := base_read self inode.

(** Lines 68-70: [close] unmounts the image. *)
Definition close (self : T) : T := base_umount self.

(** Lines 72-80: [cache_dir(path='')] opens a cursor. *)
Definition cache_dir (self : T) (path : pystr + Ent) : Cur := base_cd self path.

Definition cache_dir_default (self : T) : Cur := cache_dir self (inl []).

(** [Cursor] (lines 83-95): the mixin over [bch.Cursor], with [close]
    and [namelist] overridden. *)
Context `{!CursorBase T}.

(** Lines 88-89: [bch.Cursor.close(self)]. *)
Definition cursor_close (self : T) : T := base_close self.

(** Lines 91-95: [prefix = os.path.dirname(super().pwd)]; [for root, _,
    files in bch.Cursor.walk(self): for f in set(files):
    yield os.path.join(prefix, root, f.name)]. *)
Definition cursor_namelist (self : T) : list pystr :=
  let prefix := dirname (base_pwd self) in
  base_walk self ≫= (fun '(root, _, files) =>
                       (fun f => join prefix [root; ent_name f]) <$> set_iter files).
(** Lines 29-30 on a [Cursor]: [self.namelist()] in the mixin's
    [__iter__] is the override of line 91 (PyClass.v, [facade_dispatch]). *)
Definition cursor_iter (self : T) : list pystr := cursor_namelist self.
End Facade.

(** ** The names a walk yields *)

(** A walk as [bch] yields it for an image: distinct roots, none ending
    in [/] (the top one is ['']), file names without [/], and the
    distinct entries of a directory have distinct names. *)
Definition walk_ok {Ent} `{EqDecision Ent} (ent_name : Ent -> pystr)
           (walk : list (walk_entry Ent)) : Prop :=
  NoDup ((fun e => e.1.1) <$> walk) /\
  Forall (fun e : walk_entry Ent =>
            ends_sep e.1.1 = false /\ Forall (fun f => plain (ent_name f)) e.2 /\
            NoDup (ent_name <$> remove_dups e.2)) walk.

#[export] Instance walk_ok_dec {Ent} `{EqDecision Ent} ent_name walk :
  Decision (walk_ok (Ent := Ent) ent_name walk).
Proof. unfold walk_ok. apply _. Defined.

Definition P (s : string) : pystr := list_ascii_of_string s.

(** ** A sample image for the witnesses: the tree of the test image
    [testdata/mini_bcachefs.img], entries as [(name, inode)] pairs. *)
Abbreviation mini_ent := (pystr * Z)%type.

Definition mini_dirs : list string :=
  ["n09332890"; "n04467665"; "n02033041"; "n02445715"; "n04584207"].

Definition mini_files : list string :=
  ["n09332890_29876.JPEG"; "n04467665_63788.JPEG"; "n02033041_3834.JPEG";
   "n02445715_16523.JPEG"; "n04584207_7936.JPEG"].

Definition mini_walk : list (walk_entry mini_ent) :=
  [([], (fun d => (P d, 2%Z)) <$> ("dir" :: "lost+found" :: mini_dirs),
    [(P "file1", 12%Z)]);
   (P "dir", [(P "subdir", 3%Z)], []);
   (P "dir/subdir", [], [(P "file2", 13%Z)]);
   (P "lost+found", [], [])] ++
  zip_with (fun d f => (P d, [], [(P f, 20%Z)])) mini_dirs mini_files.

Definition rev_set (l : list mini_ent) : list mini_ent := rev (remove_dups l).

(** Two elements of [l] with the same image under [g], when the images
    are distinct, are the same element. *)
Lemma NoDup_fmap_inj_in {A B} (g : A -> B) (l : list A) x y :
  NoDup (g <$> l) -> x ∈ l -> y ∈ l -> g x = g y -> x = y.
Proof.
  induction l as [|z l IH]; intros Hnd Hx Hy Hg; [by apply not_elem_of_nil in Hx|].
  csimpl in Hnd. apply NoDup_cons in Hnd as [Hz Hnd].
  apply elem_of_cons in Hx as [-> | Hx], Hy as [-> | Hy]; [done | | | by apply IH].
  - destruct Hz. rewrite Hg. by apply list_elem_of_fmap_2.
  - destruct Hz. rewrite <- Hg. by apply list_elem_of_fmap_2.
Qed.

Section Namelist.
Context {Ent : Type} `{EqDecision Ent} (ent_name : Ent -> pystr).

(** Python's promise on [set(files)]: its iteration lists the distinct
    elements of [files], each once. *)
Context (set_iter : list Ent -> list Ent).
Hypothesis Hset : forall l, set_iter l ≡ₚ remove_dups l.

Lemma elem_of_set_iter f files : f ∈ set_iter files <-> f ∈ files.
Proof. by rewrite Hset, elem_of_remove_dups. Qed.

(** C27 The names [namelist] lists (lines 56-58) are exactly the joins
    [os.path.join(root, f.name)] of a file [f] of a directory [root] of
    the walk. *)
Theorem names_of_walk_elem walk x :
  x ∈ names_of_walk ent_name set_iter walk <->
  exists root dirs files f,
    (root, dirs, files) ∈ walk /\ f ∈ files /\ x = join2 root (ent_name f).
Proof.
  unfold names_of_walk. rewrite list_elem_of_bind. split.
  - intros ([[root dirs] files] & Hx & Hin).
    apply list_elem_of_fmap in Hx as (f & -> & Hf).
    rewrite elem_of_set_iter in Hf. by exists root, dirs, files, f.
  - intros (root & dirs & files & f & Hin & Hf & ->). exists (root, dirs, files).
    split; [|done]. apply list_elem_of_fmap. exists f.
    by rewrite elem_of_set_iter.
Qed.

(** C28 [namelist] lists every file once: on a walk of distinct
    directories, with file names without [/] and distinct in their
    directory, the names are pairwise distinct. *)
Theorem names_of_walk_NoDup walk :
  walk_ok ent_name walk -> NoDup (names_of_walk ent_name set_iter walk).
Proof.
  intros [Hroots Hwf]. unfold names_of_walk.
  rewrite Forall_forall in Hwf.
  apply NoDup_bind.
  - intros [[r1 d1] fs1] [[r2 d2] fs2] y Hin1 Hin2 Hy1 Hy2.
    apply list_elem_of_fmap in Hy1 as (f1 & -> & Hf1), Hy2 as (f2 & Hj & Hf2).
    rewrite elem_of_set_iter in Hf1, Hf2.
    destruct (Hwf _ Hin1) as (He1 & Hp1 & _), (Hwf _ Hin2) as (He2 & Hp2 & _).
    rewrite Forall_forall in Hp1, Hp2.
    destruct (join2_inj r1 (ent_name f1) r2 (ent_name f2)) as [Hr _];
      [done | done | by apply Hp1 | by apply Hp2 | exact Hj |].
    exact (NoDup_fmap_inj_in _ _ _ _ Hroots Hin1 Hin2 Hr).
  - intros [[r d] fs] Hin. destruct (Hwf _ Hin) as (He & Hp & Hnd).
    rewrite Forall_forall in Hp. simpl in *.
    rewrite Hset. apply NoDup_fmap_2_strong; [|apply NoDup_remove_dups].
    intros f g Hf Hg Hj. rewrite elem_of_remove_dups in Hf, Hg.
    destruct (join2_inj r (ent_name f) r (ent_name g)) as [_ Hn];
      [done | done | by apply Hp | by apply Hp | done |].
    by apply (NoDup_fmap_inj_in ent_name (remove_dups fs));
      rewrite ?elem_of_remove_dups.
  - by apply NoDup_fmap_1 in Hroots.
Qed.
End Namelist.

(** C29 A cursor lists the names of the mixin's [namelist] over its own
    walk, each rebased on [os.path.dirname(pwd)]: the three-argument
    [os.path.join(prefix, root, f.name)] of line 95 is
    [os.path.join(prefix, os.path.join(root, f.name))]. *)
Theorem cursor_namelist_rebase {T Cur Ent Data File : Type}
    `{!MixinBase T Cur Ent Data File, !CursorBase T}
    (ent_name : Ent -> pystr) (set_iter : list Ent -> list Ent) (self : T) :
  cursor_namelist ent_name set_iter self =
    join2 (dirname (base_pwd self)) <$> names_of_walk ent_name set_iter (base_walk self).
Proof.
  unfold cursor_namelist, names_of_walk.
  induction (base_walk self) as [|[[root dirs] files] walk IH]; [done|].
  csimpl in *. rewrite fmap_app, IH. f_equal.
  rewrite <- list_fmap_compose. apply list_fmap_ext. intros. symmetry. apply join2_assoc.
Qed.

(** ** Witnesses, with a set that iterates backwards *)

Lemma rev_set_law l : rev_set l ≡ₚ remove_dups l.
Proof. symmetry. apply Permutation_rev. Qed.

Lemma names_of_walk_elem_witness :
  P "dir/subdir/file2" ∈ names_of_walk fst rev_set mini_walk <->
  exists root dirs files f,
    (root, dirs, files) ∈ mini_walk /\ f ∈ files /\
    P "dir/subdir/file2" = join2 root (fst f).
Proof. apply (names_of_walk_elem fst rev_set rev_set_law). Defined.

Lemma names_of_walk_NoDup_witness :
  NoDup (names_of_walk fst rev_set mini_walk).
Proof.
  apply (names_of_walk_NoDup fst rev_set rev_set_law).
  apply (bool_decide_unpack _). vm_compute. exact I.
Defined.
