(* ===== verification/CLI.v ===== *)
(** * The command line: the [__main__] block of
      src/scripts/make_disk_image.py (lines 113-153)

    [parser.parse_args()] walks [sys.argv[1:]] from left to right.  A
    positional string goes to the next positional argument ([name], then
    [content]), a string beyond the two is an extra; an option takes the
    next string as its value.  Each value goes through the argument's
    [type] when it is consumed, so the validators run in the order of the
    command line: [str] for [name], [isdir] for [content] (an [assert],
    whose [AssertionError] argparse does not catch), [mkdir] for
    [--tmpdir] (an [os.makedirs] whose [OSError] argparse does not catch),
    [int] for [--size] and [--retry] (a [ValueError] that argparse turns
    into [parser.error], exit status 2).  Missing positionals and extras
    are reported at the end, with status 2.  Then
    [make_disk_image] on the keywords [vars(args)] runs and its result is dropped: the
    script ends normally, with status 0, whether the build returned
    [True] or [False].

    The state is a [Host]: the directories [os.path.isdir] sees, whether
    the host lets [os.makedirs] create a missing one, and the [World] of
    the build.  The arguments modelled are the positional strings that do
    not start with [-] and the three options spelled in full, each
    followed by its value; [classify] returns [None] for the rest ([-h],
    abbreviations, [--size=N], [--], negative numbers).

    The theorems: the plumbing from the command line to
    [make_disk_image] and the exit status, the error paths of the
    validators and of argparse, the type of the namespace [parse_args]
    returns ([ns_ok] is the loop's invariant), and the order in which the
    validators run. *)

From Stdlib Require Import Ascii String ZArith.
From stdpp Require Import base list gmap strings.
From S2P Require Import Prelude PyText Process Supervisor Retry.

Local Open Scope string_scope.

(** ** The host *)
Record Host := mkHost {
  h_dirs : list string;
  h_mkdir_ok : string -> bool;
  h_world : World
}.

Definition set_world (w : World) (h : Host) : Host :=
  mkHost (h_dirs h) (h_mkdir_ok h) w.

Definition add_dir (p : string) (h : Host) : Host :=
  mkHost (p :: h_dirs h) (h_mkdir_ok h) (h_world h).

(** A computation of the build, run on the world of the host. *)
Definition on_world {A} (m : PyM World A) : PyM Host A :=
  fun h => let '(w', r) := m (h_world h) in (set_world w' h, r).

(** [os.path.isdir(p)]; [''] names nothing. *)
Definition isdir_host (h : Host) (p : string) : bool :=
  bool_decide (p <> EmptyString /\ p ∈ h_dirs h).

(** Lines 116-118: [assert os.path.isdir(path)]; [return path]. *)
Definition isdir (p : string) : PyM Host string :=
  fun h => if isdir_host h p then (h, Ok p) else (h, Exc AssertionError).

(** [os.makedirs(p, exist_ok=True)]: an existing directory is accepted;
    an existing file ([FileExistsError]) and [''] ([FileNotFoundError])
    raise; otherwise the host creates the directory or refuses with an
    [OSError]. *)
Definition makedirs (p : string) : PyM Host unit :=
  fun h =>
    if isdir_host h p then (h, Ok tt)
    else if bool_decide (p = EmptyString \/ p ∈ sys_files (w_sys (h_world h)))
    then (h, Exc OSError)
    else if h_mkdir_ok h p then (add_dir p h, Ok tt) else (h, Exc OSError).

(** Lines 120-122. *)
Definition mkdir (p : string) : PyM Host string :=
  makedirs p ;; ret p.

(** [type=int] and [type=str]. *)
Definition int_type (s : string) : PyM Host Z :=
  match py_int s with Some n => ret n | None => raise ValueError end.

Definition str_type (s : string) : PyM Host string := ret s.

(** [ArgumentParser._get_value]: a [TypeError] or [ValueError] of the
    [type] becomes [parser.error], [sys.exit(2)]; any other exception
    escapes. *)
Definition get_value {A} (type_func : string -> PyM Host A) (s : string) : PyM Host A :=
  try_except (type_func s)
    (fun e => match e with
              | TypeError | ValueError => Some (raise (SystemExit 2))
              | _ => None
              end).

(** ** The parser of lines 124-151 *)
Record Namespace := mkNamespace {
  ns_name : option string;
  ns_content : option string;
  ns_size : option Z;
  ns_tmpdir : option string;
  ns_retry : Z
}.

(** The defaults: [None] for the positionals, [--size] and [--tmpdir],
    [10] for [--retry]; they are not strings, so argparse does not pass
    them through [type]. *)
Definition ns_defaults : Namespace := mkNamespace None None None None 10.

Inductive cli_opt := OptSize | OptTmpdir | OptRetry.

Inductive arg_tok := ArgStr (s : string) | OptStr (o : cli_opt).

Definition starts_dash (a : string) : bool :=
  match a with String c _ => Ascii.eqb c "-" | EmptyString => false end.

Definition opt_of (a : string) : option cli_opt :=
  if String.eqb a "--size" then Some OptSize
  else if String.eqb a "--tmpdir" then Some OptTmpdir
  else if String.eqb a "--retry" then Some OptRetry
  else None.

(** The strings of the command line as argparse classifies them, on the
    modelled arguments. *)
Fixpoint classify (argv : list string) : option (list arg_tok) :=
  match argv with
  | [] => Some []
  | a :: rest =>
      match opt_of a with
      | Some o => cons (OptStr o) <$> classify rest
      | None => if starts_dash a then None else cons (ArgStr a) <$> classify rest
      end
  end.

(** An option with its value: [--size], [--tmpdir], [--retry]. *)
Definition take_optional (o : cli_opt) (v : string) (ns : Namespace) : PyM Host Namespace :=
  match o with
  | OptSize =>
      n <- get_value int_type v ;;
      ret (mkNamespace (ns_name ns) (ns_content ns) (Some n) (ns_tmpdir ns) (ns_retry ns))
  | OptTmpdir =>
      d <- get_value mkdir v ;;
      ret (mkNamespace (ns_name ns) (ns_content ns) (ns_size ns) (Some d) (ns_retry ns))
  | OptRetry =>
      n <- get_value int_type v ;;
      ret (mkNamespace (ns_name ns) (ns_content ns) (ns_size ns) (ns_tmpdir ns) n)
  end.

(** The [i]-th positional: [name] ([type=str]), then [content]
    ([type=isdir]). *)
Definition take_positional (i : nat) (v : string) (ns : Namespace) : PyM Host Namespace :=
  match i with
  | O =>
      s <- get_value str_type v ;;
      ret (mkNamespace (Some s) (ns_content ns) (ns_size ns) (ns_tmpdir ns) (ns_retry ns))
  | _ =>
      d <- get_value isdir v ;;
      ret (mkNamespace (ns_name ns) (Some d) (ns_size ns) (ns_tmpdir ns) (ns_retry ns))
  end.

(** The loop of [_parse_known_args]: the namespace, the positionals
    consumed and whether extras were seen.  An option not followed by a
    value is [parser.error] ("expected one argument"). *)
Fixpoint consume (ts : list arg_tok) (ns : Namespace) (npos : nat) (extras : bool)
  : PyM Host (Namespace * nat * bool) :=
  match ts with
  | [] => ret (ns, npos, extras)
  | OptStr o :: ArgStr v :: ts' =>
      ns' <- take_optional o v ns ;;
      consume ts' ns' npos extras
  | OptStr _ :: _ => raise (SystemExit 2)
  | ArgStr v :: ts' =>
      if Nat.ltb npos 2 then
        ns' <- take_positional npos v ns ;;
        consume ts' ns' (S npos) extras
      else consume ts' ns npos true
  end.

(** [parser.parse_args()]: the required positionals must all be there
    and no extra may remain. *)
Definition parse_args (ts : list arg_tok) : PyM Host Namespace :=
  st <- consume ts ns_defaults 0 false ;;
  let '(ns, npos, extras) := st in
  if Nat.ltb npos 2 then raise (SystemExit 2)
  else if extras then raise (SystemExit 2)
  else ret ns.

(** Line 153: [make_disk_image] called with the keywords
    [vars(parser.parse_args())]; its result
    is not used. *)
Definition main_toks (ts : list arg_tok) : PyM Host unit :=
  ns <- parse_args ts ;;
  on_world (make_disk_image (ns_name ns) (ns_content ns) (ns_size ns)
                            (ns_tmpdir ns) (ns_retry ns)) ;;
  ret tt.

Definition main (argv : list string) : option (PyM Host unit) :=
  main_toks <$> classify argv.

(** The status the interpreter exits with: [0] when the script ends, the
    code of a [SystemExit], [1] for any other uncaught exception; a build
    that blocks never exits. *)
Definition exit_status (r : result unit) : option nat :=
  match r with
  | Ok _ => Some 0
  | Exc (SystemExit c) => Some c
  | Exc _ => Some 1
  | Hang => None
  end.

(** ** Hosts for the examples *)
Definition cli_host (sys : System) (dirs : list string) : Host :=
  mkHost dirs (fun _ => true) (start sys).

(** What the namespace holds after [npos] positionals: a name after
    the first, an existing content directory after the second, and an
    existing [--tmpdir] once one is given. *)
Definition ns_ok (h : Host) (ns : Namespace) (npos : nat) : Prop :=
  (1 <= npos -> is_Some (ns_name ns)) /\
  (2 <= npos -> exists c, ns_content ns = Some c /\ isdir_host h c = true) /\
  (forall d, ns_tmpdir ns = Some d -> isdir_host h d = true).

(** ** Lemmas *)

Lemma opt_of_plain a : starts_dash a = false -> opt_of a = None.
Proof.
  intros Ha. unfold opt_of.
  repeat match goal with
    | |- context [String.eqb a ?o] =>
        destruct (String.eqb_spec a o) as [->|]; [discriminate|]
    end; reflexivity.
Qed.

Lemma classify_arg a rest :
  starts_dash a = false -> classify (a :: rest) = cons (ArgStr a) <$> classify rest.
Proof. intros Ha. simpl. by rewrite opt_of_plain, Ha. Qed.

(** ** The namespace [parse_args] returns *)

Lemma get_value_Ok_inv {A} (f : string -> PyM Host A) v h h' a :
  get_value f v h = (h', Ok a) -> f v h = (h', Ok a).
Proof.
  unfold get_value. intros [?|(e & k & h1 & _ & Hk & Hr)]%try_except_Ok_inv; [done|].
  by destruct e; simplify_eq.
Qed.

Lemma isdir_host_mono h h' p :
  h_dirs h ⊆ h_dirs h' -> isdir_host h p = true -> isdir_host h' p = true.
Proof. unfold isdir_host. rewrite !bool_decide_eq_true. set_solver. Qed.

Lemma ns_ok_mono h h' ns npos :
  h_dirs h ⊆ h_dirs h' -> ns_ok h ns npos -> ns_ok h' ns npos.
Proof.
  intros Hd (H1 & H2 & H3). split_and!; [done| |].
  - intros Hn. destruct (H2 Hn) as (c & ? & ?). eauto using isdir_host_mono.
  - eauto using isdir_host_mono.
Qed.

(** [mkdir] returns its argument, which is then a directory. *)
Lemma mkdir_Ok v h h' d :
  mkdir v h = (h', Ok d) -> d = v /\ isdir_host h' v = true /\ h_dirs h ⊆ h_dirs h'.
Proof.
  unfold mkdir, makedirs, bind, ret. repeat case_match; intros; simplify_eq; [done|].
  match goal with H : bool_decide (_ \/ _) = false |- _ =>
    apply bool_decide_eq_false in H end.
  unfold isdir_host. simpl. rewrite bool_decide_eq_true.
  split_and!; [done | naive_solver | set_solver | set_solver].
Qed.

Lemma take_positional_ok npos v ns h h' ns' :
  take_positional npos v ns h = (h', Ok ns') -> npos < 2 -> ns_ok h ns npos ->
  ns_ok h' ns' (S npos) /\ h' = h.
Proof.
  intros Ht Hn (H1 & H2 & H3). unfold take_positional in Ht.
  destruct npos as [|[|npos]]; [| |lia];
    apply bind_Ok_inv in Ht as (h1 & a & Hv%get_value_Ok_inv & Hr);
    unfold ret in Hr; simplify_eq/=.
  all: unfold str_type, isdir, ret in Hv; repeat case_match; simplify_eq.
  all: unfold ns_ok; simpl; repeat split; intros;
    first [done | lia | by eexists | (apply H1; lia) | by exists a | eauto].
Qed.

Lemma take_optional_ok o v ns npos h h' ns' :
  take_optional o v ns h = (h', Ok ns') -> ns_ok h ns npos -> ns_ok h' ns' npos.
Proof.
  intros Ht Hok. unfold take_optional in Ht.
  destruct o; apply bind_Ok_inv in Ht as (h1 & a & Hv%get_value_Ok_inv & Hr);
    unfold ret in Hr; simplify_eq.
  - unfold int_type, ret, raise in Hv. case_match; simplify_eq. apply Hok.
  - apply mkdir_Ok in Hv as (-> & Hd & Hsub).
    destruct (ns_ok_mono _ _ _ _ Hsub Hok) as (H1 & H2 & H3).
    split_and!; [done|done|]. intros d [= <-]. done.
  - unfold int_type, ret, raise in Hv. case_match; simplify_eq. apply Hok.
Qed.

(** The loop keeps [ns_ok] and counts at most two positionals. *)
Lemma consume_ok ts : forall ns npos extras h h' ns' npos' extras',
  consume ts ns npos extras h = (h', Ok (ns', npos', extras')) ->
  npos <= 2 -> ns_ok h ns npos -> ns_ok h' ns' npos' /\ npos <= npos' <= 2.
Proof.
  induction ts as [ts IH] using (induction_ltof1 _ (@length _)). unfold ltof in IH.
  intros ns npos extras h h' ns' npos' extras' Hc Hn Hok.
  destruct ts as [|[v|o] ts]; simpl in Hc.
  - unfold ret in Hc. simplify_eq. split; [done|lia].
  - destruct (Nat.ltb_spec npos 2).
    + apply bind_Ok_inv in Hc as (h1 & ns1 & Ht & Hc).
      destruct (take_positional_ok _ _ _ _ _ _ Ht) as [Hok1 ->]; [done..|].
      edestruct (IH ts) as [? ?]; [simpl; lia | exact Hc | lia | exact Hok1 |].
      split; [done|lia].
    + eapply (IH ts); [simpl; lia | exact Hc | done | done].
  - destruct ts as [|[v|o'] ts]; unfold raise in Hc; try discriminate.
    apply bind_Ok_inv in Hc as (h1 & ns1 & Ht & Hc).
    eapply (IH ts); [simpl; lia | exact Hc | done | eapply take_optional_ok; eauto].
Qed.

(** The value of [int_type] on a text [int] reads. *)
Lemma get_value_int s k h :
  py_int s = Some k -> get_value int_type s h = (h, Ok k).
Proof. intros Hk. unfold get_value, int_type, try_except. by rewrite Hk. Qed.

Lemma get_value_int_bad s h :
  py_int s = None -> get_value int_type s h = (h, Exc (SystemExit 2)).
Proof. intros Hk. unfold get_value, int_type, try_except. by rewrite Hk. Qed.

(** The two positionals read first: [name], then the checked [content]. *)
Lemma consume_positionals n c ts ns h :
  consume (ArgStr n :: ArgStr c :: ts) ns 0 false h =
  if isdir_host h c
  then consume ts (mkNamespace (Some n) (Some c) (ns_size ns) (ns_tmpdir ns) (ns_retry ns)) 2 false h
  else (h, Exc AssertionError).
Proof.
  simpl. unfold take_positional, get_value, str_type, isdir, try_except, bind. simpl.
  by destruct (isdir_host h c).
Qed.

(** An option and its value. *)
Lemma consume_optional o v ts ns npos extras h :
  consume (OptStr o :: ArgStr v :: ts) ns npos extras h =
  (ns' <- take_optional o v ns ;; consume ts ns' npos extras) h.
Proof. reflexivity. Qed.

(** [os.makedirs] only touches the directories of the host. *)
Lemma mkdir_world v h h' r : mkdir v h = (h', r) -> h_world h' = h_world h.
Proof. unfold mkdir, makedirs, bind, ret. repeat case_match; intros; by simplify_eq. Qed.

(** The script's status for the outcome of the build it ran. *)
Definition build_outcome (r : result bool) : result unit :=
  match r with Ok _ => Ok tt | Exc e => Exc e | Hang => Hang end.

(** C9 The command line [DISK.img DIR --size N] runs
    [make_disk_image(name=DISK.img, content=DIR, size=int(N),
    tmpdir=None, retry=10)] on the host's world once the content
    directory is checked, and ends with the build's exception, or
    normally whatever the boolean the build returns: the exit status is
    [0] for [False] as for [True], where the spec says it reflects the
    result. *)
Theorem main_runs_build n c s k h :
  starts_dash n = false -> starts_dash c = false -> starts_dash s = false ->
  py_int s = Some k -> isdir_host h c = true ->
  exists m, main [n; c; "--size"; s] = Some m /\
    let '(w', r) := make_disk_image (Some n) (Some c) (Some k) None 10 (h_world h) in
    m h = (set_world w' h, build_outcome r).
Proof.
  intros Hn Hc Hs Hk Hd. eexists. split.
  - unfold main. simpl. rewrite !opt_of_plain, Hn, Hc, Hs by done. reflexivity.
  - unfold main_toks, parse_args, bind at 1 2. rewrite consume_positionals, Hd.
    simpl. unfold bind. rewrite (get_value_int _ _ _ Hk). simpl.
    unfold on_world. destruct (make_disk_image _ _ _ _ _ _) as [w' [| |]]; reflexivity.
Qed.

(** C23 A content argument that is not a directory stops the script in
    [parse_args], whatever follows it on the command line: the
    [AssertionError] of [isdir] (line 117) is not one argparse catches, so
    the interpreter exits with status 1 before [git-annex get] or any
    build, and the host is left as it was. *)
Theorem main_content_not_dir n c rest ts h :
  starts_dash n = false -> starts_dash c = false -> classify rest = Some ts ->
  isdir_host h c = false ->
  exists m, main (n :: c :: rest) = Some m /\ m h = (h, Exc AssertionError).
Proof.
  intros Hn Hc Hts Hd. eexists. split.
  - unfold main. rewrite !classify_arg, Hts by done. reflexivity.
  - unfold main_toks, parse_args, bind at 1 2. by rewrite consume_positionals, Hd.
Qed.

(** C24 A [--size] that [int] rejects ends the script with status 2
    ([parser.error]) before anything is built, and leaves the host as it
    was. *)
Theorem main_bad_size n c s rest ts h :
  starts_dash n = false -> starts_dash c = false -> starts_dash s = false ->
  classify rest = Some ts -> py_int s = None -> isdir_host h c = true ->
  exists m, main (n :: c :: "--size" :: s :: rest) = Some m /\
            m h = (h, Exc (SystemExit 2)).
Proof.
  intros Hn Hc Hs Hts Hk Hd. eexists. split.
  - unfold main. simpl. rewrite !opt_of_plain, Hn, Hc, Hs, Hts by done. reflexivity.
  - unfold main_toks, parse_args, bind at 1 2. rewrite consume_positionals, Hd.
    simpl. unfold bind. by rewrite (get_value_int_bad _ _ Hk).
Qed.

(** C25 The validators run in the order of the command line: with
    [--tmpdir D] before the positionals, [os.makedirs(D)] (line 121) runs
    before the [assert] on the content (line 117), so when the content is
    not a directory the script exits with status 1 and leaves [D]
    created, and nothing is built (the world of the build is untouched). *)
Theorem main_tmpdir_before_content d n c rest ts h h1 :
  starts_dash d = false -> starts_dash n = false -> starts_dash c = false ->
  classify rest = Some ts -> mkdir d h = (h1, Ok d) -> isdir_host h1 c = false ->
  exists m, main ("--tmpdir" :: d :: n :: c :: rest) = Some m /\
    m h = (h1, Exc AssertionError) /\ isdir_host h1 d = true /\ h_world h1 = h_world h.
Proof.
  intros Hd Hn Hc Hts Hm Hnd. eexists. split_and!.
  - unfold main. simpl. rewrite !opt_of_plain, Hd, Hn, Hc, Hts by done. reflexivity.
  - assert (Ht : take_optional OptTmpdir d ns_defaults h =
                  (h1, Ok (mkNamespace None None None (Some d) 10))).
    { unfold take_optional, get_value, try_except, bind. by rewrite Hm. }
    unfold main_toks, parse_args, bind at 1 2.
    rewrite consume_optional, (bind_Ok _ _ _ _ _ Ht), consume_positionals, Hnd.
    reflexivity.
  - by apply mkdir_Ok in Hm as (_ & ? & _).
  - by apply mkdir_world in Hm.
Qed.

(** C26 argparse's usage errors end the script with status 2
    ([parser.error]) before anything is built and leave the host as it
    was: a missing [content], a third positional, an option without its
    value. *)
Theorem main_usage_errors n c x h :
  starts_dash n = false -> starts_dash c = false -> starts_dash x = false ->
  isdir_host h c = true ->
  (exists m, main [n] = Some m /\ m h = (h, Exc (SystemExit 2))) /\
  (exists m, main [n; c; x] = Some m /\ m h = (h, Exc (SystemExit 2))) /\
  (exists m, main [n; c; "--size"] = Some m /\ m h = (h, Exc (SystemExit 2))).
Proof.
  intros Hn Hc Hx Hd. split_and!; eexists; (split; [unfold main; simpl;
    rewrite ?opt_of_plain, ?Hn, ?Hc, ?Hx by done; reflexivity|]).
  - unfold main_toks, parse_args, bind. simpl. reflexivity.
  - unfold main_toks, parse_args, bind at 1 2. rewrite consume_positionals, Hd. reflexivity.
  - unfold main_toks, parse_args, bind at 1 2. rewrite consume_positionals, Hd. reflexivity.
Qed.

(** C19 The namespace [parse_args] hands to [make_disk_image] is well
    typed: a [str] name (never [None], so the [TypeError] of
    [os.path.isfile(None)] cannot come from the command line), a content
    that is an existing directory, and a [--tmpdir], when given, that is
    an existing directory. *)
Theorem parse_args_namespace ts h h' ns :
  parse_args ts h = (h', Ok ns) ->
  (exists n, ns_name ns = Some n) /\
  (exists c, ns_content ns = Some c /\ isdir_host h' c = true) /\
  (forall d, ns_tmpdir ns = Some d -> isdir_host h' d = true).
Proof.
  unfold parse_args. intros (h1 & [[ns1 npos] ex] & Hc & Hr)%bind_Ok_inv.
  destruct (consume_ok _ _ _ _ _ _ _ _ _ Hc) as [(H1 & H2 & H3) Hn];
    [lia | unfold ns_ok; simpl; split_and!; [lia | lia | done] |].
  destruct (Nat.ltb_spec npos 2); [discriminate|]. destruct ex; [discriminate|].
  unfold ret in Hr. simplify_eq. split_and!; [apply H1; lia | apply H2; lia | done].
Qed.

(** ** Witnesses *)

Lemma main_runs_build_witness :
  exists m, main ["disk.img"; "content"; "--size"; "64"] = Some m /\
    let '(w', r) := make_disk_image (Some "disk.img") (Some "content") (Some 64%Z) None 10
                      (h_world (cli_host (flaky_system 0) ["content"])) in
    m (cli_host (flaky_system 0) ["content"]) =
      (set_world w' (cli_host (flaky_system 0) ["content"]), build_outcome r).
Proof. apply main_runs_build; reflexivity. Defined.

Lemma main_content_not_dir_witness :
  exists m, main ["disk.img"; "missing"; "--size"; "64"] = Some m /\
    m (cli_host (flaky_system 0) ["content"]) =
      (cli_host (flaky_system 0) ["content"], Exc AssertionError).
Proof. apply (main_content_not_dir _ _ _ [OptStr OptSize; ArgStr "64"]); reflexivity. Defined.

Lemma main_bad_size_witness :
  exists m, main ["disk.img"; "content"; "--size"; "1__0"] = Some m /\
    m (cli_host (flaky_system 0) ["content"]) =
      (cli_host (flaky_system 0) ["content"], Exc (SystemExit 2)).
Proof. apply (main_bad_size _ _ _ [] []); reflexivity. Defined.

Lemma parse_args_namespace_witness :
  (exists n, Some "disk.img" = Some n) /\
  (exists c, Some "content" = Some c /\
     isdir_host (add_dir "tmp" (cli_host (flaky_system 0) ["content"])) c = true) /\
  (forall d, Some "tmp" = Some d ->
     isdir_host (add_dir "tmp" (cli_host (flaky_system 0) ["content"])) d = true).
Proof.
  apply (parse_args_namespace
           [ArgStr "disk.img"; ArgStr "content"; OptStr OptTmpdir; ArgStr "tmp"]
           (cli_host (flaky_system 0) ["content"]) _
           (mkNamespace (Some "disk.img") (Some "content") None (Some "tmp") 10)).
  reflexivity.
Defined.

Lemma main_tmpdir_before_content_witness :
  exists m, main ["--tmpdir"; "tmp"; "disk.img"; "missing"] = Some m /\
    m (cli_host (flaky_system 0) []) =
      (add_dir "tmp" (cli_host (flaky_system 0) []), Exc AssertionError) /\
    isdir_host (add_dir "tmp" (cli_host (flaky_system 0) [])) "tmp" = true /\
    h_world (add_dir "tmp" (cli_host (flaky_system 0) [])) =
      h_world (cli_host (flaky_system 0) []).
Proof. apply (main_tmpdir_before_content _ _ _ [] []); reflexivity. Defined.

Lemma main_usage_errors_witness :
  (exists m, main ["disk.img"] = Some m /\
     m (cli_host (flaky_system 0) ["content"]) =
       (cli_host (flaky_system 0) ["content"], Exc (SystemExit 2))) /\
  (exists m, main ["disk.img"; "content"; "extra"] = Some m /\
     m (cli_host (flaky_system 0) ["content"]) =
       (cli_host (flaky_system 0) ["content"], Exc (SystemExit 2))) /\
  (exists m, main ["disk.img"; "content"; "--size"] = Some m /\
     m (cli_host (flaky_system 0) ["content"]) =
       (cli_host (flaky_system 0) ["content"], Exc (SystemExit 2))).
Proof. apply main_usage_errors; reflexivity. Defined.
