(* ===== verification/PyClass.v ===== *)
(** * Python classes: the class statements of src/bcachefs/zipfile/zipfile.py

    [ZipFileLikeMixin] (line 7) is mixed into two classes of the external
    reader [bcachefs.bcachefs]: [class Cursor(ZipFileLikeMixin,
    bch.Cursor)] (line 83) and [class ZipFile(ZipFileLikeMixin,
    bch.Bcachefs)] (line 98).  What the facade's methods call is decided
    by Python's class machinery: a class statement computes the method
    resolution order (MRO) of the new class by the C3 linearization of
    CPython's [mro_implementation] and [pmerge] (Objects/typeobject.c),
    an attribute of an instance is the one of the first class of the MRO
    of its type whose [__dict__] has it, and [super()] in a method of
    class [K] looks the attribute up in the MRO of the instance's type
    after [K].

    The state is the table of classes, by qualified name, each with its
    bases, its MRO and the names of its [__dict__].  The reader's classes
    are not in the repository: the theorems hold for any table of them
    whose MROs end with [object] and do not mention the facade's classes.
    They show the MROs lines 7, 83 and 98 produce, that [super()] in the
    mixin reaches the reader's class (the [MixinBase] interface of
    ZipFile.v), and where each method the facade's code calls resolves. *)

From Stdlib Require Import String.
From stdpp Require Import base list gmap strings.
From S2P Require Import Prelude.

Local Open Scope string_scope.

(** A class: its bases, its MRO and the attribute names of its
    [__dict__]. *)
Record PyType := mkType {
  ty_bases : list string;
  ty_mro : list string;
  ty_dict : list string
}.

Abbreviation Classes := (gmap string PyType).

(** ** C3: [pmerge] *)

(** [tail_contains(lst, whence, o)]: [o] is in [lst] after its head. *)
Definition in_tail (c : string) (l : list string) : bool :=
  bool_decide (c ∈ tail l).

(** The first head, in the order of the lists, that is in no list's
    tail. *)
Fixpoint pick (all ls : list (list string)) : option string :=
  match ls with
  | [] => None
  | [] :: ls' => pick all ls'
  | (c :: _) :: ls' =>
      if forallb (fun l => negb (in_tail c l)) all then Some c else pick all ls'
  end.

(** [remain[j]++] for the lists whose head is the chosen candidate. *)
Definition drop_head (c : string) (l : list string) : list string :=
  match l with
  | x :: l' => if bool_decide (x = c) then l' else l
  | [] => []
  end.

(** [pmerge]: [None] is the [TypeError] "Cannot create a consistent
    method resolution order"; each round takes one element off a list,
    so a fuel of one more than their total length is enough
    ([merge_fuel_irrel]). *)
Fixpoint merge (fuel : nat) (ls : list (list string)) : option (list string) :=
  match fuel with
  | O => None
  | S fuel' =>
      if forallb (fun l => bool_decide (l = [])) ls then Some []
      else
        match pick ls ls with
        | None => None
        | Some c => cons c <$> merge fuel' (drop_head c <$> ls)
        end
  end.

Definition merge_fuel (ls : list (list string)) : nat :=
  S (sum_list_with length ls).

(** ** The class statement *)

Definition mro_of (env : Classes) (b : string) : option (list string) :=
  ty_mro <$> env !! b.

(** [mro_implementation]: no base means [object]; one base takes its MRO
    (the fast path); several bases must be distinct ("duplicate base
    class") and are merged with the list of the bases. *)
Definition compute_mro (env : Classes) (name : string) (bases : list string)
  : option (list string) :=
  match bases with
  | [] => cons name <$> mro_of env "object"
  | [b] => cons name <$> mro_of env b
  | _ =>
      if bool_decide (NoDup bases) then
        mapM (mro_of env) bases ≫= fun ls =>
        cons name <$> merge (merge_fuel (ls ++ [bases])) (ls ++ [bases])
      else None
  end.

(** [class name(b1, ..., bn): body]: each base is looked up
    ([AttributeError] on [bch] for a missing one), then [type.__new__]
    computes the MRO ([TypeError] when C3 fails) and binds the class. *)
Definition class_stmt (name : string) (bases : list string) (attrs : list string)
  : PyM Classes unit :=
  fun env =>
    if forallb (fun b => bool_decide (is_Some (env !! b))) bases then
      match compute_mro env name bases with
      | Some m => (<[name := mkType bases m attrs]> env, Ok tt)
      | None => (env, Exc TypeError)
      end
    else (env, Exc AttributeError).

(** ** Attribute lookup and [super()] *)

Definition defines (env : Classes) (k a : string) : bool :=
  match env !! k with Some t => bool_decide (a ∈ ty_dict t) | None => false end.

Definition mro (env : Classes) (cls : string) : list string :=
  default [] (mro_of env cls).

(** The class whose [__dict__] gives [a] to an instance of [cls]. *)
Definition lookup_in (env : Classes) (l : list string) (a : string) : option string :=
  snd <$> list_find (fun k => defines env k a = true) l.

Definition lookup_attr (env : Classes) (cls a : string) : option string :=
  lookup_in env (mro env cls) a.

(** [super()] in a method of [here], on an instance of [cls]: the MRO of
    [cls] after [here]. *)
Definition super_attr (env : Classes) (cls here a : string) : option string :=
  lookup_in env (tail (drop_while (fun k => negb (bool_decide (k = here))) (mro env cls))) a.

(** ** The class statements of zipfile.py
    Each [__dict__] holds the names the body binds, with [__module__]
    and [__doc__] (the mixin's docstring, [None] for the others);
    [__qualname__], which the body namespace also holds, is taken out of
    it by [type.__new__]; the mixin, whose only base is [object], also
    gets the [__dict__] and [__weakref__] descriptors. *)
Definition mixin_attrs : list string :=
  ["__module__"; "__doc__"; "__iter__"; "closed"; "filename";
   "namelist"; "open"; "read"; "close"; "cache_dir"; "__dict__"; "__weakref__"].

Definition cursor_attrs : list string :=
  ["__module__"; "__doc__"; "__init__"; "close"; "namelist"].

Definition zipfile_attrs : list string :=
  ["__module__"; "__doc__"; "CursorCls"; "__init__"].

(** Lines 7, 83 and 98, in the order the module runs them. *)
Definition zipfile_classes : PyM Classes unit :=
  class_stmt "ZipFileLikeMixin" [] mixin_attrs ;;
  class_stmt "Cursor" ["ZipFileLikeMixin"; "bch.Cursor"] cursor_attrs ;;
  class_stmt "ZipFile" ["ZipFileLikeMixin"; "bch.Bcachefs"] zipfile_attrs.

(** The classes of [builtins] the module sees: [object], with the
    attributes every class inherits. *)
Definition object_type : PyType :=
  mkType [] ["object"]
    ["__init__"; "__new__"; "__repr__"; "__str__"; "__eq__"; "__ne__"; "__hash__";
     "__getattribute__"; "__setattr__"; "__delattr__"; "__class__"; "__doc__";
     "__dir__"; "__format__"; "__reduce__"; "__reduce_ex__"; "__sizeof__";
     "__subclasshook__"; "__init_subclass__"; "__lt__"; "__le__"; "__gt__"; "__ge__"].

(** The facade's classes. *)
Definition facade_names : list string := ["ZipFileLikeMixin"; "Cursor"; "ZipFile"].

(** What the facade needs of a reader class [name]: its MRO starts with
    it, ends with [object], lists each class once and none of the
    facade's. *)
Definition reader_mro_ok (name : string) (t : PyType) : Prop :=
  head (ty_mro t) = Some name /\ last (tail (ty_mro t)) = Some "object" /\
  NoDup (ty_mro t) /\ Forall (fun k => k ∉ facade_names) (ty_mro t).

#[export] Instance reader_mro_ok_dec name t : Decision (reader_mro_ok name t).
Proof. unfold reader_mro_ok. apply _. Defined.

(** A reader's table as the witnesses use it: [bch.Bcachefs] and
    [bch.Cursor] directly under [object], with the methods the facade
    calls ([bch.Bcachefs] with a [CursorCls] of its own). *)
Definition sample_bcachefs : PyType :=
  mkType ["object"] ["bch.Bcachefs"; "object"]
    ["__init__"; "walk"; "unmounted"; "filename"; "open"; "read"; "umount"; "cd";
     "CursorCls"].

Definition sample_cursor : PyType :=
  mkType ["object"] ["bch.Cursor"; "object"]
    ["__init__"; "walk"; "pwd"; "close"; "unmounted"; "filename"; "open"; "read";
     "umount"; "cd"].

Definition sample_reader : Classes :=
  <["object" := object_type]>
  (<["bch.Bcachefs" := sample_bcachefs]> (<["bch.Cursor" := sample_cursor]> ∅)).

(** The table after lines 7, 83 and 98, on reader classes [tb]
    ([bch.Bcachefs]) and [tc] ([bch.Cursor]). *)
Definition facade_env (env0 : Classes) (tb tc : PyType) : Classes :=
  <["ZipFile" := mkType ["ZipFileLikeMixin"; "bch.Bcachefs"]
                   ("ZipFile" :: "ZipFileLikeMixin" :: ty_mro tb) zipfile_attrs]>
  (<["Cursor" := mkType ["ZipFileLikeMixin"; "bch.Cursor"]
                   ("Cursor" :: "ZipFileLikeMixin" :: ty_mro tc) cursor_attrs]>
   (<["ZipFileLikeMixin" := mkType [] ["ZipFileLikeMixin"; "object"] mixin_attrs]> env0)).

(** ** Lemmas *)

Lemma in_tail_false c l : c ∉ tail l -> in_tail c l = false.
Proof. intros H. by apply bool_decide_eq_false_2. Qed.

Lemma in_tail_true c l : c ∈ tail l -> in_tail c l = true.
Proof. intros H. by apply bool_decide_eq_true_2. Qed.

Lemma drop_head_eq c l : drop_head c (c :: l) = l.
Proof. simpl. by rewrite bool_decide_true. Qed.

Lemma drop_head_ne c x l : x <> c -> drop_head c (x :: l) = x :: l.
Proof. intros H. simpl. by rewrite bool_decide_false. Qed.

(** Decides the [in_tail] tests of a goal from the hypotheses. *)
Ltac solve_in_tail :=
  repeat match goal with
  | |- context [in_tail ?c ?l] =>
      first [ rewrite (in_tail_false c l) by (simpl; set_solver)
            | rewrite (in_tail_true c l) by (simpl; set_solver) ]
  end.

(** The end of the merge of a linearization [L] that ends with [object]
    against [[object]]: [L] itself. *)
Lemma merge_object f L :
  NoDup L -> last L = Some "object" -> length L < f ->
  merge f [["object"]; L; []] = Some L.
Proof.
  induction L as [|x L IH] in f |- *; intros Hnd Hl Hf; [done|].
  destruct f as [|f]; [lia|]. apply NoDup_cons in Hnd as [Hx Hnd].
  destruct L as [|y L].
  - injection Hl as ->. destruct f as [|f]; [simpl in Hf; lia|]. reflexivity.
  - assert ("object" ∈ y :: L) as Ho.
    { change (last (y :: L) = Some "object") in Hl.
      apply last_Some in Hl as [l' ->]. set_solver. }
    assert (x <> "object") as Hxo by (intros ->; done).
    cbn [merge forallb]. rewrite !bool_decide_false by done. simpl.
    rewrite (in_tail_true "object" (x :: y :: L)) by done. simpl.
    rewrite (in_tail_false x (x :: y :: L)) by done.
    simpl. rewrite (bool_decide_false ("object" = x)), bool_decide_true by done.
    rewrite IH by (simpl in *; auto with lia). reflexivity.
Qed.

(** [class K(M, B)] with [M]'s MRO [[M; object]] and [B]'s MRO
    [B :: rest]: the merge puts [M] right before [B]'s MRO. *)
Lemma merge_mixin f M B rest :
  NoDup (B :: rest) -> last rest = Some "object" -> M ∉ B :: rest ->
  M <> "object" -> length rest + 2 < f ->
  merge f [[M; "object"]; B :: rest; [M; B]] = Some (M :: B :: rest).
Proof.
  intros [HB Hnd]%NoDup_cons Hl HM Ho Hf.
  assert ("object" ∈ rest) as Hor by (apply last_Some in Hl as [l' ->]; set_solver).
  destruct f as [|[|f]]; [lia|lia|].
  cbn [merge forallb]. rewrite !bool_decide_false by done. simpl. solve_in_tail. simpl.
  rewrite !(bool_decide_true (M = M)), (bool_decide_false (B = M)) by set_solver.
  cbn [merge forallb]. rewrite !bool_decide_false by (try done; set_solver). simpl.
  solve_in_tail. simpl.
  rewrite (bool_decide_false ("object" = B)), (bool_decide_true (B = B)) by set_solver.
  rewrite merge_object by (auto with lia). reflexivity.
Qed.

(** [class K(M, B)] for a mixin [M] of [object] and a reader class [B]. *)
Lemma class_stmt_mixin env K M B tm tb attrs :
  env !! M = Some tm -> ty_mro tm = [M; "object"] -> env !! B = Some tb ->
  reader_mro_ok B tb -> M ∉ ty_mro tb -> M <> B -> M <> "object" ->
  class_stmt K [M; B] attrs env = (<[K := mkType [M; B] (K :: M :: ty_mro tb) attrs]> env, Ok tt).
Proof.
  intros HM Htm HB (Hh & Hl & Hnd & _) HMb HMB HMo.
  destruct (ty_mro tb) as [|B' rest] eqn:Hr; [done|]. injection Hh as ->.
  unfold class_stmt. cbn -[merge compute_mro]. rewrite HM, HB. cbn -[merge compute_mro].
  unfold compute_mro, mro_of. rewrite bool_decide_true by (repeat constructor; set_solver).
  cbn -[merge]. rewrite HM, HB. cbn -[merge]. rewrite Htm, Hr.
  rewrite merge_mixin; [done | done | done | done | done |].
  unfold merge_fuel. simpl. lia.
Qed.

(** ** [pmerge] terminates: each round shortens a list *)

Lemma pick_head all ls c : pick all ls = Some c -> exists l, l ∈ ls /\ head l = Some c.
Proof.
  induction ls as [|[|x l] ls IH]; simpl; [done| |].
  - intros (l & ? & ?)%IH. exists l. set_solver.
  - case_match; [intros [= <-]; exists (x :: l); set_solver|].
    intros (l' & ? & ?)%IH. exists l'. set_solver.
Qed.

Lemma drop_head_length c l : length (drop_head c l) <= length l.
Proof. destruct l; simpl; [lia|]. case_bool_decide; simpl; lia. Qed.

Lemma drop_head_shorter c ls :
  (exists l, l ∈ ls /\ head l = Some c) ->
  sum_list_with length (drop_head c <$> ls) < sum_list_with length ls.
Proof.
  induction ls as [|l ls IH]; intros (l' & Hin & Hh); [set_solver|].
  csimpl. apply elem_of_cons in Hin as [-> | Hin].
  - destruct l as [|x l]; [done|]. injection Hh as ->.
    rewrite drop_head_eq.
    assert (sum_list_with length (drop_head c <$> ls) <= sum_list_with length ls).
    { clear. induction ls; csimpl; [lia|]. pose proof (drop_head_length c a). lia. }
    simpl. lia.
  - pose proof (drop_head_length c l). pose proof (IH (ex_intro _ l' (conj Hin Hh))). lia.
Qed.

(** Any fuel above the total length of the lists gives the same result,
    so [merge_fuel] never cuts C3 short. *)
Lemma merge_fuel_irrel f1 f2 ls :
  sum_list_with length ls < f1 -> sum_list_with length ls < f2 -> merge f1 ls = merge f2 ls.
Proof.
  induction f1 as [|f1 IH] in f2, ls |- *; intros H1 H2; [lia|].
  destruct f2 as [|f2]; [lia|]. simpl. case_match; [done|].
  destruct (pick ls ls) as [c|] eqn:Hp; [|done].
  pose proof (drop_head_shorter c ls (pick_head _ _ _ Hp)). by rewrite (IH f2) by lia.
Qed.

(** ** The classes of zipfile.py over any reader *)

(** Attribute lookup only reads the [__dict__] of the classes it walks. *)
Lemma lookup_in_ext env env' l a :
  (forall k, k ∈ l -> defines env k a = defines env' k a) ->
  lookup_in env l a = lookup_in env' l a.
Proof.
  intros H. unfold lookup_in. f_equal.
  induction l as [|k l IH]; simpl; [done|].
  rewrite (H k) by set_solver. case_decide; [done|].
  rewrite IH by set_solver. done.
Qed.

Lemma lookup_in_here env k l a :
  defines env k a = true -> lookup_in env (k :: l) a = Some k.
Proof. intros H. unfold lookup_in. simpl. by rewrite decide_True. Qed.

Lemma lookup_in_skip env k l a :
  defines env k a = false -> lookup_in env (k :: l) a = lookup_in env l a.
Proof.
  intros H. unfold lookup_in. simpl. rewrite decide_False by congruence.
  by destruct (list_find _ l) as [[]|].
Qed.

Section Reader.
Context (env0 : Classes) (tb tc : PyType).
Hypothesis Hobj : env0 !! "object" = Some object_type.
Hypothesis Hb : env0 !! "bch.Bcachefs" = Some tb.
Hypothesis Hc : env0 !! "bch.Cursor" = Some tc.
Hypothesis Hbok : reader_mro_ok "bch.Bcachefs" tb.
Hypothesis Hcok : reader_mro_ok "bch.Cursor" tc.

Lemma mixin_not_in_reader name t : reader_mro_ok name t -> "ZipFileLikeMixin" ∉ ty_mro t.
Proof. intros (_ & _ & _ & HF) Hin. rewrite Forall_forall in HF. apply (HF _ Hin). set_solver. Qed.

Lemma zipfile_classes_env : zipfile_classes env0 = (facade_env env0 tb tc, Ok tt).
Proof.
  unfold zipfile_classes, bind at 1. unfold class_stmt at 1. cbn -[class_stmt].
  unfold mro_of. rewrite Hobj. cbn -[class_stmt]. unfold bind at 1.
  rewrite (class_stmt_mixin _ _ _ _ (mkType [] ["ZipFileLikeMixin"; "object"] mixin_attrs) tc);
    [|by simplify_map_eq|done|by simplify_map_eq|done|exact (mixin_not_in_reader _ _ Hcok)|done|done].
  rewrite (class_stmt_mixin _ _ _ _ (mkType [] ["ZipFileLikeMixin"; "object"] mixin_attrs) tb);
    [done|by simplify_map_eq|done|by simplify_map_eq|done|exact (mixin_not_in_reader _ _ Hbok)|done|done].
Qed.

(** The facade's tables give a reader class the [__dict__] it had. *)
Lemma defines_facade_env k a : k ∉ facade_names ->
  defines (facade_env env0 tb tc) k a = defines env0 k a.
Proof.
  intros Hk. unfold facade_names in Hk. unfold defines, facade_env.
  rewrite !lookup_insert_ne by set_solver. done.
Qed.

Lemma lookup_reader name t env a :
  reader_mro_ok name t -> env = facade_env env0 tb tc ->
  lookup_in env (ty_mro t) a = lookup_in env0 (ty_mro t) a.
Proof.
  intros (_ & _ & _ & HF) ->. apply lookup_in_ext. intros k Hk.
  apply defines_facade_env. rewrite Forall_forall in HF. by apply HF.
Qed.

(** C30 The class statements of lines 7, 83 and 98 succeed on any
    reader whose classes have MROs ending with [object], and C3 puts the
    mixin right before the reader's class: the MRO of [ZipFile] is
    [ZipFile], [ZipFileLikeMixin] and then the MRO of [bch.Bcachefs];
    that of [Cursor] is [Cursor], [ZipFileLikeMixin] and then the MRO of
    [bch.Cursor]. *)
Theorem zipfile_classes_mro :
  exists env, zipfile_classes env0 = (env, Ok tt) /\
    mro env "ZipFileLikeMixin" = ["ZipFileLikeMixin"; "object"] /\
    mro env "Cursor" = "Cursor" :: "ZipFileLikeMixin" :: ty_mro tc /\
    mro env "ZipFile" = "ZipFile" :: "ZipFileLikeMixin" :: ty_mro tb.
Proof.
  exists (facade_env env0 tb tc). split; [exact zipfile_classes_env|].
  unfold mro, mro_of, facade_env. by simplify_map_eq.
Qed.
Lemma mro_facade :
  mro (facade_env env0 tb tc) "Cursor" = "Cursor" :: "ZipFileLikeMixin" :: ty_mro tc /\
  mro (facade_env env0 tb tc) "ZipFile" = "ZipFile" :: "ZipFileLikeMixin" :: ty_mro tb /\
  mro (facade_env env0 tb tc) "ZipFileLikeMixin" = ["ZipFileLikeMixin"; "object"].
Proof. unfold mro, mro_of, facade_env. by simplify_map_eq. Qed.

(** The [__dict__] tests on the facade's classes and [object]. *)
Ltac facade_defines :=
  unfold defines, facade_env; simplify_map_eq; reflexivity.

(** C10 [super()] in the mixin's methods (lines 35, 40, 56, 63, 66, 70,
    80) reaches the reader: on a [ZipFile] every attribute resolves as
    it does on [bch.Bcachefs], on a [Cursor] as on [bch.Cursor]; and
    [super().pwd] in [Cursor.namelist] (line 92) is [bch.Cursor]'s.  This
    is the [MixinBase] and [CursorBase] interface of ZipFile.v. *)
Theorem mixin_super_reader env a :
  zipfile_classes env0 = (env, Ok tt) ->
  super_attr env "ZipFile" "ZipFileLikeMixin" a = lookup_attr env0 "bch.Bcachefs" a /\
  super_attr env "Cursor" "ZipFileLikeMixin" a = lookup_attr env0 "bch.Cursor" a /\
  super_attr env "Cursor" "Cursor" "pwd" = lookup_attr env0 "bch.Cursor" "pwd".
Proof.
  rewrite zipfile_classes_env. intros [= <-].
  destruct mro_facade as (Hc' & Hz & _). unfold super_attr, lookup_attr.
  rewrite Hc', Hz. unfold mro, mro_of. rewrite Hb, Hc. simpl.
  rewrite lookup_in_skip by facade_defines.
  split_and!; (eapply lookup_reader; [eassumption | reflexivity]).
Qed.

(** C31 Where the calls of the facade resolve, whatever the reader
    defines: iterating a [Cursor] runs the mixin's [__iter__] (line 29),
    whose [self.namelist()] is the override of line 91; [close] on a
    [Cursor] is line 88 ([bch.Cursor.close], not [umount]) and on a
    [ZipFile] the mixin's (line 68); [ZipFile.CursorCls] is the facade's
    [Cursor] (line 99); and the call [ZipFileLikeMixin.__init__(self)]
    of lines 85 and 102 is [object.__init__]. *)
Theorem facade_dispatch env :
  zipfile_classes env0 = (env, Ok tt) ->
  lookup_attr env "Cursor" "__iter__" = Some "ZipFileLikeMixin" /\
  lookup_attr env "Cursor" "namelist" = Some "Cursor" /\
  lookup_attr env "Cursor" "close" = Some "Cursor" /\
  lookup_attr env "ZipFile" "namelist" = Some "ZipFileLikeMixin" /\
  lookup_attr env "ZipFile" "close" = Some "ZipFileLikeMixin" /\
  lookup_attr env "ZipFile" "CursorCls" = Some "ZipFile" /\
  lookup_attr env "ZipFileLikeMixin" "__init__" = Some "object".
Proof.
  rewrite zipfile_classes_env. intros [= <-].
  destruct mro_facade as (Hc' & Hz & Hm). unfold lookup_attr. rewrite Hc', Hz, Hm.
  split_and!;
    repeat first [ rewrite lookup_in_here by facade_defines; reflexivity
                 | rewrite lookup_in_skip by facade_defines ].
Qed.
End Reader.

(** ** Witnesses *)

(** A run of the module on [sample_reader] returns normally, with the
    table it builds. *)
Lemma zipfile_classes_sample :
  zipfile_classes sample_reader = (fst (zipfile_classes sample_reader), Ok tt).
Proof.
  rewrite (surjective_pairing (zipfile_classes sample_reader)) at 1.
  f_equal. (* [snd] of the run is [Ok tt] by computation *)
Qed.

Lemma zipfile_classes_mro_witness :
  exists env, zipfile_classes sample_reader = (env, Ok tt) /\
    mro env "ZipFileLikeMixin" = ["ZipFileLikeMixin"; "object"] /\
    mro env "Cursor" = ["Cursor"; "ZipFileLikeMixin"; "bch.Cursor"; "object"] /\
    mro env "ZipFile" = ["ZipFile"; "ZipFileLikeMixin"; "bch.Bcachefs"; "object"].
Proof.
  apply (zipfile_classes_mro sample_reader sample_bcachefs sample_cursor);
    first [apply (bool_decide_unpack _); vm_compute; exact I | vm_compute; reflexivity].
Defined.

Lemma mixin_super_reader_witness :
  super_attr (fst (zipfile_classes sample_reader)) "ZipFile" "ZipFileLikeMixin" "walk" =
    lookup_attr sample_reader "bch.Bcachefs" "walk" /\
  super_attr (fst (zipfile_classes sample_reader)) "Cursor" "ZipFileLikeMixin" "walk" =
    lookup_attr sample_reader "bch.Cursor" "walk" /\
  super_attr (fst (zipfile_classes sample_reader)) "Cursor" "Cursor" "pwd" =
    lookup_attr sample_reader "bch.Cursor" "pwd".
Proof.
  apply (mixin_super_reader sample_reader sample_bcachefs sample_cursor);
    first [exact zipfile_classes_sample | vm_compute; reflexivity
          | apply (bool_decide_unpack _); vm_compute; exact I].
Defined.

Lemma facade_dispatch_witness :
  let env := fst (zipfile_classes sample_reader) in
  lookup_attr env "Cursor" "__iter__" = Some "ZipFileLikeMixin" /\
  lookup_attr env "Cursor" "namelist" = Some "Cursor" /\
  lookup_attr env "Cursor" "close" = Some "Cursor" /\
  lookup_attr env "ZipFile" "namelist" = Some "ZipFileLikeMixin" /\
  lookup_attr env "ZipFile" "close" = Some "ZipFileLikeMixin" /\
  lookup_attr env "ZipFile" "CursorCls" = Some "ZipFile" /\
  lookup_attr env "ZipFileLikeMixin" "__init__" = Some "object".
Proof.
  apply (facade_dispatch sample_reader sample_bcachefs sample_cursor);
    first [exact zipfile_classes_sample | vm_compute; reflexivity
          | apply (bool_decide_unpack _); vm_compute; exact I].
Defined.
